(** * Forensic capture tool ([capture.py]): model and verified properties

    A shallow embedding of the [ForensicCapture] class and of [main].  The
    Python runtime pieces the program relies on are modelled first
    ([str] and its UTF-8 codec, [hashlib], [pathlib], exceptions), then the
    external collaborators it drives (the Playwright browser, the clock, the
    file system) as a read-only environment of scripted answers, then the
    methods of the class in the order of the source. *)

From Stdlib Require Import ZArith NArith List Lia Bool.
From Stdlib Require Import Strings.String Strings.Ascii Strings.Byte.
From Stdlib Require Import DecimalString.
From stdpp Require Import gmap list.

Set Warnings "-register-all".
Local Open Scope Z_scope.

(** ** Python [str] and [bytes] *)

(** A [str] is a sequence of Unicode code points, a [bytes] a sequence of
    octets. *)
Abbreviation pystr := (list N).
Abbreviation pybytes := (list byte).

(** An ASCII literal of the source as a [str]. *)
Definition py (s : string) : pystr :=
  map N_of_ascii (list_ascii_of_string s).

Definition byte_of (n : N) : byte :=
  match Byte.of_N n with Some b => b | None => x00 end.

(** [c.encode('utf-8')] for one code point; [None] stands for
    [UnicodeEncodeError] (a lone surrogate cannot be encoded). *)
Definition utf8_encode_char (c : N) : option pybytes :=
  if (c <? 0x80)%N then Some [byte_of c]
  else if (c <? 0x800)%N then
    Some [byte_of (0xC0 + c / 0x40); byte_of (0x80 + c mod 0x40)]
  else if (c <? 0x10000)%N then
    if ((0xD800 <=? c) && (c <=? 0xDFFF))%N then None
    else Some [byte_of (0xE0 + c / 0x1000);
               byte_of (0x80 + (c / 0x40) mod 0x40);
               byte_of (0x80 + c mod 0x40)]
  else if (c <? 0x110000)%N then
    Some [byte_of (0xF0 + c / 0x40000);
          byte_of (0x80 + (c / 0x1000) mod 0x40);
          byte_of (0x80 + (c / 0x40) mod 0x40);
          byte_of (0x80 + c mod 0x40)]
  else None.

(** [s.encode('utf-8')] *)
Fixpoint utf8_encode (s : pystr) : option pybytes :=
  match s with
  | [] => Some []
  | c :: s' =>
      match utf8_encode_char c, utf8_encode s' with
      | Some bs, Some rest => Some (bs ++ rest)
      | _, _ => None
      end
  end.

(** The text of the [UnicodeEncodeError] of the UTF-8 codec, as [str(e)]
    gives it: the codec names the first run of characters it cannot encode,
    by its escape when the run is one character and by its positions
    otherwise. *)
Definition decimal (n : nat) : pystr :=
  py (NilZero.string_of_uint (Nat.to_uint n)).

Definition hex_digits (width : nat) (c : N) : pystr :=
  map (fun i => let d := ((c / 16 ^ N.of_nat i) mod 16)%N in
                if (d <? 10)%N then (48 + d)%N else (87 + d)%N)
      (rev (seq 0 width)).

Definition escape (c : N) : pystr :=
  if (c <? 0x100)%N then [92%N; 120%N] ++ hex_digits 2 c
  else if (c <? 0x10000)%N then [92%N; 117%N] ++ hex_digits 4 c
  else [92%N; 85%N] ++ hex_digits 8 c.

Definition refused (c : N) : bool :=
  match utf8_encode_char c with Some _ => false | None => true end.

Fixpoint run_length (s : pystr) : nat :=
  match s with
  | c :: s' => if refused c then S (run_length s') else O
  | [] => O
  end.

Fixpoint utf8_error_at (pos : nat) (s : pystr) : pystr :=
  match s with
  | [] => []
  | c :: s' =>
      if refused c then
        py "'utf-8' codec can't encode "
        ++ match run_length s' with
           | O => py "character '" ++ escape c ++ py "' in position "
                  ++ decimal pos
           | S more => py "characters in position " ++ decimal pos
                       ++ py "-" ++ decimal (pos + S more)
           end
        ++ py ": surrogates not allowed"
      else utf8_error_at (S pos) s'
  end.

Definition utf8_error_message (s : pystr) : pystr := utf8_error_at 0 s.

(** ** [hashlib]: MD5 (RFC 1321) and SHA-256 (FIPS 180-4)

    32-bit words are integers in [0, 2^32); every addition wraps. *)
Module Hashlib.

Definition u32 (x : Z) : Z := Z.land x 0xFFFFFFFF.
Definition add32 (x y : Z) : Z := u32 (x + y).
Definition not32 (x : Z) : Z := Z.lxor x 0xFFFFFFFF.
Definition rotl32 (x n : Z) : Z :=
  u32 (Z.lor (Z.shiftl x n) (Z.shiftr x (32 - n))).
Definition rotr32 (x n : Z) : Z :=
  u32 (Z.lor (Z.shiftr x n) (Z.shiftl x (32 - n))).

Definition octet (b : byte) : Z := Z.of_N (Byte.to_N b).
Definition to_byte (x : Z) : byte := byte_of (Z.to_N (Z.land x 0xFF)).

(** The [k] low octets of [x], least significant first. *)
Fixpoint le_octets (k : nat) (x : Z) : list Z :=
  match k with
  | O => []
  | S k' => Z.land x 0xFF :: le_octets k' (Z.shiftr x 8)
  end.
Definition be_octets (k : nat) (x : Z) : list Z := rev (le_octets k x).

Definition le_word (os : list Z) : Z :=
  fold_right (fun o acc => Z.lor o (Z.shiftl acc 8)) 0 os.
Definition be_word (os : list Z) : Z := le_word (rev os).

(** Message padding shared by both digests: a 1 bit, zeros up to 56 mod 64,
    then the bit length on 8 octets in the byte order [len_octets]. *)
Definition pad (len_octets : nat -> Z -> list Z) (msg : list Z) : list Z :=
  let n := Z.of_nat (length msg) in
  msg ++ 0x80 :: repeat 0 (Z.to_nat ((55 - n) mod 64))
      ++ len_octets 8%nat (8 * n).

(** Consecutive chunks of [k] elements; [fuel] bounds their number. *)
Fixpoint chunks {A} (k fuel : nat) (l : list A) : list (list A) :=
  match fuel with
  | O => []
  | S fuel' =>
      match l with
      | [] => []
      | _ => firstn k l :: chunks k fuel' (skipn k l)
      end
  end.

Definition blocks (word : list Z -> Z) (padded : list Z) : list (list Z) :=
  map (fun blk => map word (chunks 4 16 blk))
      (chunks 64 (length padded) padded).

Definition nth_word (i : Z) (ws : list Z) : Z := nth (Z.to_nat i) ws 0.

(** *** MD5 *)

Definition md5_K : list Z :=
  [0xd76aa478; 0xe8c7b756; 0x242070db; 0xc1bdceee;
   0xf57c0faf; 0x4787c62a; 0xa8304613; 0xfd469501;
   0x698098d8; 0x8b44f7af; 0xffff5bb1; 0x895cd7be;
   0x6b901122; 0xfd987193; 0xa679438e; 0x49b40821;
   0xf61e2562; 0xc040b340; 0x265e5a51; 0xe9b6c7aa;
   0xd62f105d; 0x02441453; 0xd8a1e681; 0xe7d3fbc8;
   0x21e1cde6; 0xc33707d6; 0xf4d50d87; 0x455a14ed;
   0xa9e3e905; 0xfcefa3f8; 0x676f02d9; 0x8d2a4c8a;
   0xfffa3942; 0x8771f681; 0x6d9d6122; 0xfde5380c;
   0xa4beea44; 0x4bdecfa9; 0xf6bb4b60; 0xbebfbc70;
   0x289b7ec6; 0xeaa127fa; 0xd4ef3085; 0x04881d05;
   0xd9d4d039; 0xe6db99e5; 0x1fa27cf8; 0xc4ac5665;
   0xf4292244; 0x432aff97; 0xab9423a7; 0xfc93a039;
   0x655b59c3; 0x8f0ccc92; 0xffeff47d; 0x85845dd1;
   0x6fa87e4f; 0xfe2ce6e0; 0xa3014314; 0x4e0811a1;
   0xf7537e82; 0xbd3af235; 0x2ad7d2bb; 0xeb86d391].

Definition md5_S : list Z :=
  [7; 12; 17; 22; 7; 12; 17; 22; 7; 12; 17; 22; 7; 12; 17; 22;
   5;  9; 14; 20; 5;  9; 14; 20; 5;  9; 14; 20; 5;  9; 14; 20;
   4; 11; 16; 23; 4; 11; 16; 23; 4; 11; 16; 23; 4; 11; 16; 23;
   6; 10; 15; 21; 6; 10; 15; 21; 6; 10; 15; 21; 6; 10; 15; 21].

Definition md5_init : Z * Z * Z * Z :=
  (0x67452301, 0xefcdab89, 0x98badcfe, 0x10325476).

(** One of the 64 operations on the working state, for message words [m]. *)
Definition md5_step (m : list Z) (st : Z * Z * Z * Z) (i : Z) : Z * Z * Z * Z :=
  let '(a, b, c, d) := st in
  let '(f, g) :=
    if i <? 16 then (Z.lor (Z.land b c) (Z.land (not32 b) d), i)
    else if i <? 32 then
      (Z.lor (Z.land d b) (Z.land (not32 d) c), (5 * i + 1) mod 16)
    else if i <? 48 then (Z.lxor b (Z.lxor c d), (3 * i + 5) mod 16)
    else (Z.lxor c (Z.lor b (not32 d)), (7 * i) mod 16) in
  let f' := add32 (add32 (add32 f a) (nth_word i md5_K)) (nth_word g m) in
  (d, add32 b (rotl32 f' (nth_word i md5_S)), b, c).

Definition md5_block (h : Z * Z * Z * Z) (m : list Z) : Z * Z * Z * Z :=
  let '(a0, b0, c0, d0) := h in
  let '(a, b, c, d) := fold_left (md5_step m) (map Z.of_nat (seq 0 64)) h in
  (add32 a0 a, add32 b0 b, add32 c0 c, add32 d0 d).

(** [hashlib.md5(data).digest()] *)
Definition md5 (data : pybytes) : pybytes :=
  let '(a, b, c, d) :=
    fold_left md5_block (blocks le_word (pad le_octets (map octet data)))
              md5_init in
  map to_byte (flat_map (le_octets 4) [a; b; c; d]).

(** *** SHA-256 *)

(** The constants of FIPS 180-4: the first 32 bits of the fractional parts
    of the cube roots (round constants) and of the square roots (initial
    hash value) of the first primes. *)
Definition primes : list Z :=
  [2; 3; 5; 7; 11; 13; 17; 19; 23; 29; 31; 37; 41; 43; 47; 53; 59; 61; 67;
   71; 73; 79; 83; 89; 97; 101; 103; 107; 109; 113; 127; 131; 137; 139; 149;
   151; 157; 163; 167; 173; 179; 181; 191; 193; 197; 199; 211; 223; 227;
   229; 233; 239; 241; 251; 257; 263; 269; 271; 277; 281; 283; 293; 307;
   311].

(** The largest [r] in [[lo, lo + 2^bits)] with [r^3 <= n], by bisection. *)
Fixpoint cube_root (bits : nat) (lo n : Z) : Z :=
  match bits with
  | O => lo
  | S bits' =>
      let mid := lo + 2 ^ Z.of_nat bits' in
      if mid * mid * mid <=? n then cube_root bits' mid n
      else cube_root bits' lo n
  end.

Definition sha256_K : list Z :=
  map (fun p => u32 (cube_root 36 0 (p * 2 ^ 96))) primes.

Definition sha256_init : list Z :=
  map (fun p => u32 (Z.sqrt (p * 2 ^ 64))) (firstn 8 primes).

Definition xor3 (x y z : Z) : Z := Z.lxor x (Z.lxor y z).

(** The message schedule: 16 block words extended to 64.  The words are
    kept newest first, so [w] holds W[t-1], W[t-2], ... *)
Definition sha256_extend (w : list Z) (_ : nat) : list Z :=
  let w2 := nth 1 w 0 in
  let w7 := nth 6 w 0 in
  let w15 := nth 14 w 0 in
  let w16 := nth 15 w 0 in
  let s0 := xor3 (rotr32 w15 7) (rotr32 w15 18) (Z.shiftr w15 3) in
  let s1 := xor3 (rotr32 w2 17) (rotr32 w2 19) (Z.shiftr w2 10) in
  add32 (add32 (add32 w16 s0) w7) s1 :: w.

Definition sha256_schedule (m : list Z) : list Z :=
  rev (fold_left sha256_extend (seq 16 48) (rev m)).

Definition sha256_round (st : list Z) (kw : Z * Z) : list Z :=
  match st with
  | [a; b; c; d; e; f; g; h] =>
      let S1 := xor3 (rotr32 e 6) (rotr32 e 11) (rotr32 e 25) in
      let ch := Z.lxor (Z.land e f) (Z.land (not32 e) g) in
      let t1 := add32 (add32 (add32 (add32 h S1) ch) (fst kw)) (snd kw) in
      let S0 := xor3 (rotr32 a 2) (rotr32 a 13) (rotr32 a 22) in
      let maj := xor3 (Z.land a b) (Z.land a c) (Z.land b c) in
      [add32 t1 (add32 S0 maj); a; b; c; add32 d t1; e; f; g]
  | _ => st
  end.

Definition sha256_block (h : list Z) (m : list Z) : list Z :=
  let st := fold_left sha256_round (combine sha256_K (sha256_schedule m)) h in
  map (fun p => add32 (fst p) (snd p)) (combine h st).

(** [hashlib.sha256(data).digest()] *)
Definition sha256 (data : pybytes) : pybytes :=
  map to_byte
      (flat_map (be_octets 4)
         (fold_left sha256_block
            (blocks be_word (pad be_octets (map octet data))) sha256_init)).

(** *** [hexdigest] *)

Definition hex_digit (n : N) : N :=
  if (n <? 10)%N then (48 + n)%N else (87 + n)%N.

Definition hex_byte (b : byte) : pystr :=
  let n := Byte.to_N b in [hex_digit (n / 16); hex_digit (n mod 16)].

Definition hexdigest (digest : pybytes) : pystr := flat_map hex_byte digest.

End Hashlib.

(** ** [pathlib]: pure POSIX paths

    A path is an anchor (empty, one slash, or exactly two slashes) and its
    components.  Parsing drops empty components and single dots; a double
    dot is kept as it is. *)
Module Pathlib.

Definition slash : N := 47.
Definition dot : N := 46.

Record Path := { anchor : pystr; parts : list pystr }.

(** [s.split('/')] *)
Fixpoint split_slash (s : pystr) : list pystr :=
  match s with
  | [] => [[]]
  | c :: s' =>
      if (c =? slash)%N then [] :: split_slash s'
      else match split_slash s' with
           | seg :: segs => (c :: seg) :: segs
           | [] => [[c]]
           end
  end.

Definition kept (seg : pystr) : bool :=
  match seg with
  | [] => false
  | [c] => negb (c =? dot)%N
  | _ => true
  end.

Definition parse_anchor (s : pystr) : pystr :=
  match s with
  | a :: b :: c :: _ =>
      if (a =? slash)%N then
        if (b =? slash)%N then
          if (c =? slash)%N then [slash] else [slash; slash]
        else [slash]
      else []
  | [a; b] =>
      if (a =? slash)%N then
        if (b =? slash)%N then [slash; slash] else [slash]
      else []
  | [a] => if (a =? slash)%N then [slash] else []
  | [] => []
  end.

(** [Path(s)] *)
Definition of_str (s : pystr) : Path :=
  {| anchor := parse_anchor s; parts := filter kept (split_slash s) |}.

(** [p / s]: an anchored right operand replaces the left one. *)
Definition joinpath (p : Path) (s : pystr) : Path :=
  let q := of_str s in
  match anchor q with
  | [] => {| anchor := anchor p; parts := parts p ++ parts q |}
  | _ => q
  end.

Fixpoint join_slash (segs : list pystr) : pystr :=
  match segs with
  | [] => []
  | [seg] => seg
  | seg :: segs' => seg ++ slash :: join_slash segs'
  end.

(** [str(p)] *)
Definition to_str (p : Path) : pystr :=
  match anchor p, parts p with
  | [], [] => [dot]
  | a, segs => a ++ join_slash segs
  end.

Fixpoint strip_prefix (pre l : list pystr) : option (list pystr) :=
  match pre, l with
  | [], _ => Some l
  | x :: pre', y :: l' =>
      if decide (x = y) then strip_prefix pre' l' else None
  | _ :: _, [] => None
  end.

(** [p.relative_to(other)]; [None] stands for [ValueError]. *)
Definition relative_to (p other : Path) : option Path :=
  if decide (anchor p = anchor other) then
    match strip_prefix (parts other) (parts p) with
    | Some rest => Some {| anchor := []; parts := rest |}
    | None => None
    end
  else None.

End Pathlib.

Infix "</>" := Pathlib.joinpath (at level 40, left associativity).

(** ** Exceptions and the monad of effects *)

(** What a [raise] carries.  [except Exception] handles the first kind only:
    [KeyboardInterrupt] and task cancellation derive from [BaseException]
    alone. *)
Inductive exn :=
| Exception (what : pystr)
| Interrupt.

Inductive outcome (A : Type) :=
| Returns (a : A)
| Raises (e : exn).
Arguments Returns {A} a.
Arguments Raises {A} e.

(** A computation over a state [S]: it returns or raises, and leaves a
    state behind either way. *)
Definition M (S A : Type) : Type := S -> outcome A * S.

Definition ret {S A} (a : A) : M S A := fun s => (Returns a, s).
Definition raise {S A} (e : exn) : M S A := fun s => (Raises e, s).

Definition bind {S A B} (m : M S A) (k : A -> M S B) : M S B :=
  fun s =>
    match m s with
    | (Returns a, s') => k a s'
    | (Raises e, s') => (Raises e, s')
    end.

Notation "x <- m ;; k" := (bind m (fun x => k))
  (at level 100, m at next level, right associativity).
Notation "m ;; k" := (bind m (fun _ => k))
  (at level 100, right associativity).

Definition gets {S A} (f : S -> A) : M S A := fun s => (Returns (f s), s).
Definition modify {S} (f : S -> S) : M S unit := fun s => (Returns tt, f s).

(** An awaited call that answers with a scripted outcome. *)
Definition answer {S A} (o : outcome A) : M S A := fun s => (o, s).

(** [try: m  except Exception as e: h e] *)
Definition try_except {S A} (m : M S A) (h : pystr -> M S A) : M S A :=
  fun s =>
    match m s with
    | (Raises (Exception what), s') => h what s'
    | r => r
    end.

(** [try: m  finally: f].  The clean-up runs whatever [m] did; what it
    raises itself replaces the outcome of [m]. *)
Definition try_finally {S A} (m : M S A) (f : M S unit) : M S A :=
  fun s =>
    match m s with
    | (r, s') =>
        match f s' with
        | (Returns _, s'') => (r, s'')
        | (Raises e, s'') => (Raises e, s'')
        end
    end.

(** [for x in xs: body x] *)
Fixpoint for_each {S X} (xs : list X) (body : X -> M S unit) : M S unit :=
  match xs with
  | [] => ret tt
  | x :: xs' => body x ;; for_each xs' body
  end.

(** A computation on the second component of a pair of states. *)
Definition lift {F S A} (m : M S A) : M (F * S) A :=
  fun fs =>
    match m (snd fs) with
    | (r, s') => (r, (fst fs, s'))
    end.

(** ** The collaborators: browser, parser, clock, file system *)

(** [response] of [page.goto] *)
Record Response := { ok : bool; status : Z }.

(** A request the page issues while it loads: method and URL. *)
Record Request := { rq_method : pystr; rq_url : pystr }.

(** A Playwright page, as the answers it gives to the calls the tool makes.
    [pg_settle_delay] answers the [wait_for_timeout] of [capture_page_data],
    [pg_rate_delay] the one of [search_and_capture]. *)
Record Page := {
  pg_id : nat;
  pg_requests : list Request;
  pg_goto : outcome (option Response);
  pg_networkidle : outcome unit;
  pg_settle_delay : outcome unit;
  pg_content : outcome pystr;
  pg_screenshot : outcome pybytes;
  pg_title : outcome pystr;
  pg_url : pystr;
  pg_rate_delay : outcome unit;
  pg_close : outcome unit
}.

Record Browser := {
  br_id : nat;
  br_new_page : outcome Page;
  br_close : outcome unit
}.

Record Playwright := {
  pw_id : nat;
  pw_launch : outcome Browser;
  pw_stop : outcome unit
}.

(** What [BeautifulSoup(html, 'html.parser')] is asked for. *)
Record Soup := {
  get_text : pystr;
  find_all_a_href : list pystr;
  find_all_img_src : list pystr;
  find_all_form : nat
}.

(** ** Data model *)

Record CaptureFiles := {
  files_html : pystr;
  files_screenshot : pystr;
  files_network : pystr
}.

(** The [capture_data] dictionary. *)
Record CaptureData := {
  capture_id : pystr;
  label : pystr;
  url_original : pystr;
  url_final : pystr;
  timestamp : pystr;
  title : pystr;
  html_size : Z;
  text_length : Z;
  links_count : Z;
  images_count : Z;
  forms_count : Z;
  files : CaptureFiles;
  hash_md5 : pystr;
  hash_sha256 : pystr
}.

(** The [capture_metadata] dictionary: the session manifest.  The last two
    keys are absent until [run_capture] sets them. *)
Record CaptureMetadata := {
  md_session_id : pystr;
  md_timestamp : pystr;
  md_labels : list pystr;
  md_min_bytes : Z;
  md_captures : list CaptureData;
  md_total_captures : option Z;
  md_completion_timestamp : option pystr
}.

(** The attributes of a [ForensicCapture] object; [playwright] is the one
    [setup_browser] adds. *)
Record ForensicCapture := {
  labels : list pystr;
  output_dir : Pathlib.Path;
  min_bytes : Z;
  session_id : pystr;
  capture_metadata : CaptureMetadata;
  playwright : option Playwright
}.

(** JSON documents, as [json.dump] receives them. *)
Inductive Json :=
| JNull
| JInt (z : Z)
| JStr (s : pystr)
| JList (items : list Json)
| JDict (fields : list (pystr * Json)).

(** One constructor per [print] statement of the source. *)
Inductive LogLine :=
| InfoInitialized
| InfoSessionId (sid : pystr)
| InfoOutputDirectory (dir : pystr)
| InfoTargetLabels (ls : list pystr)
| InfoMinimumSize (n : Z)
| InfoCapturing (lbl url : pystr)
| WarningFailedToLoad (url : pystr) (http : option Z)
| ErrorNavigationFailed (url what : pystr)
| WarningNetworkIdleTimeout (url : pystr)
| WarningTooSmall (size threshold : Z) (url : pystr)
| SuccessCaptured (lbl : pystr) (size : Z) (url : pystr)
| NetworkRequest (method url : pystr)
| ErrorCaptureFailed (url what : pystr)
| InfoStarting
| InfoProcessingLabels (n : nat) (ls : list pystr)
| InfoProcessingLabel (lbl : pystr)
| SuccessCompleted
| InfoTotalCaptures (n : Z)
| InfoSessionMetadata (path : pystr)
| InfoReportGenerated (path : pystr)
| DebugVerbose
| DebugArguments
| InfoInterrupted
| ErrorCaptureAborted (what : pystr).

(** The calls made on the browser objects, by object identity. *)
Inductive BrowserCall :=
| PlaywrightStart
| Launch (pw : nat)
| NewPage (br : nat)
| Goto (pg : nat) (url : pystr)
| WaitForLoadState (pg : nat)
| WaitForTimeout (pg : nat)
| Content (pg : nat)
| Screenshot (pg : nat) (path : pystr)
| Title (pg : nat)
| PageClose (pg : nat)
| BrowserClose (br : nat)
| PlaywrightStop (pw : nat)
| Sleep.

Inductive Event :=
| Print (line : LogLine)
| Call (c : BrowserCall).

(** The writes of [generate_report], one constructor for each [f.write]
    of lines 265-283, with the values its text is made of. *)
Inductive ReportLine :=
| ReportTitle
| ReportRule
| ReportSessionId (sid : pystr)
| ReportTimestamp (ts : pystr)
| ReportLabels (ls : list pystr)
| ReportThreshold (n : Z)
| ReportTotal (n : Z)
| ReportDetails
| ReportDash
| ReportLabel (lbl : pystr)
| ReportUrl (url : pystr)
| ReportCaptureTitle (t : pystr)
| ReportSize (n : Z)
| ReportMd5 (h : pystr)
| ReportSha256 (h : pystr)
| ReportFiles (f : CaptureFiles).

Inductive File :=
| Bytes (data : pybytes)
| JsonDocument (doc : Json)
| Report (lines : list ReportLine).

(** The world outside the program.  [None] from [mkdir] and [open_w] means
    the call succeeded, [Some what] that it raised [OSError what].
    [locale_codec] is the codec of the files opened without an [encoding]:
    [None] when it can encode the text of a line of the report, [Some what]
    when it raises [UnicodeEncodeError what] on it. *)
Record Env := {
  uuid4 : pystr;
  now_isoformat : nat -> pystr;
  async_playwright_start : nat -> outcome Playwright;
  BeautifulSoup : pystr -> Soup;
  mkdir : pystr -> option pystr;
  open_w : pystr -> option pystr;
  locale_codec : ReportLine -> option pystr
}.

(** The mutable world: files by path, everything printed and every browser
    call in order (oldest first), and how often the clock and the Playwright
    launcher have been asked. *)
Record World := {
  fs : gmap pystr File;
  trace : list Event;
  clock_reads : nat;
  launches : nat
}.

Record State := { self : ForensicCapture; world : World }.

(** The parsed command line. *)
Record Args := {
  arg_labels : list pystr;
  arg_out : pystr;
  arg_min_bytes : Z;
  arg_verbose : bool
}.

(** A page object: the page and the observers registered on it. *)
Record PageObject := {
  page_of : Page;
  on_request : list (Request -> M State unit)
}.

(** The local variables of one [search_and_capture] activation. *)
Record Frame := {
  fr_captures : list CaptureData;
  fr_browser : option Browser;
  fr_page : option PageObject
}.

(** ** State updates *)

Definition set_world (f : World -> World) (st : State) : State :=
  {| self := self st; world := f (world st) |}.

Definition set_self (f : ForensicCapture -> ForensicCapture) (st : State) : State :=
  {| self := f (self st); world := world st |}.

Definition log_event (e : Event) (w : World) : World :=
  {| fs := fs w; trace := trace w ++ [e];
     clock_reads := clock_reads w; launches := launches w |}.

Definition store (path : pystr) (f : File) (w : World) : World :=
  {| fs := <[path := f]> (fs w); trace := trace w;
     clock_reads := clock_reads w; launches := launches w |}.

Definition tick_clock (w : World) : World :=
  {| fs := fs w; trace := trace w;
     clock_reads := S (clock_reads w); launches := launches w |}.

Definition count_launch (w : World) : World :=
  {| fs := fs w; trace := trace w;
     clock_reads := clock_reads w; launches := S (launches w) |}.

Definition set_playwright (pw : Playwright) (o : ForensicCapture) : ForensicCapture :=
  {| labels := labels o; output_dir := output_dir o; min_bytes := min_bytes o;
     session_id := session_id o; capture_metadata := capture_metadata o;
     playwright := Some pw |}.

Definition set_metadata (f : CaptureMetadata -> CaptureMetadata)
    (o : ForensicCapture) : ForensicCapture :=
  {| labels := labels o; output_dir := output_dir o; min_bytes := min_bytes o;
     session_id := session_id o; capture_metadata := f (capture_metadata o);
     playwright := playwright o |}.

(** [capture_metadata['captures'].append(c)] *)
Definition append_capture (c : CaptureData) (m : CaptureMetadata) : CaptureMetadata :=
  {| md_session_id := md_session_id m; md_timestamp := md_timestamp m;
     md_labels := md_labels m; md_min_bytes := md_min_bytes m;
     md_captures := md_captures m ++ [c];
     md_total_captures := md_total_captures m;
     md_completion_timestamp := md_completion_timestamp m |}.

Definition set_total_captures (n : Z) (m : CaptureMetadata) : CaptureMetadata :=
  {| md_session_id := md_session_id m; md_timestamp := md_timestamp m;
     md_labels := md_labels m; md_min_bytes := md_min_bytes m;
     md_captures := md_captures m;
     md_total_captures := Some n;
     md_completion_timestamp := md_completion_timestamp m |}.

Definition set_completion_timestamp (ts : pystr) (m : CaptureMetadata) : CaptureMetadata :=
  {| md_session_id := md_session_id m; md_timestamp := md_timestamp m;
     md_labels := md_labels m; md_min_bytes := md_min_bytes m;
     md_captures := md_captures m;
     md_total_captures := md_total_captures m;
     md_completion_timestamp := Some ts |}.

(** ** JSON images of the dictionaries *)

Definition json_of_files (f : CaptureFiles) : Json :=
  JDict [(py "html", JStr (files_html f));
         (py "screenshot", JStr (files_screenshot f));
         (py "network", JStr (files_network f))].

Definition json_of_capture (c : CaptureData) : Json :=
  JDict [(py "capture_id", JStr (capture_id c));
         (py "label", JStr (label c));
         (py "url_original", JStr (url_original c));
         (py "url_final", JStr (url_final c));
         (py "timestamp", JStr (timestamp c));
         (py "title", JStr (title c));
         (py "html_size", JInt (html_size c));
         (py "text_length", JInt (text_length c));
         (py "links_count", JInt (links_count c));
         (py "images_count", JInt (images_count c));
         (py "forms_count", JInt (forms_count c));
         (py "files", json_of_files (files c));
         (py "hash_md5", JStr (hash_md5 c));
         (py "hash_sha256", JStr (hash_sha256 c))].

Definition json_optional {A} (key : pystr) (f : A -> Json) (o : option A)
    : list (pystr * Json) :=
  match o with
  | Some a => [(key, f a)]
  | None => []
  end.

Definition json_of_metadata (m : CaptureMetadata) : Json :=
  JDict ([(py "session_id", JStr (md_session_id m));
          (py "timestamp", JStr (md_timestamp m));
          (py "labels", JList (map JStr (md_labels m)));
          (py "min_bytes", JInt (md_min_bytes m));
          (py "captures", JList (map json_of_capture (md_captures m)))]
         ++ json_optional (py "total_captures") JInt (md_total_captures m)
         ++ json_optional (py "completion_timestamp") JStr
              (md_completion_timestamp m)).

(** [network_data] of [capture_page_data] *)
Definition network_data (capture_id capture_timestamp : pystr) : Json :=
  JDict [(py "capture_id", JStr capture_id);
         (py "timestamp", JStr capture_timestamp);
         (py "requests", JList [])].

(** [d[key]] on a JSON dictionary *)
Fixpoint assoc (key : pystr) (fields : list (pystr * Json)) : option Json :=
  match fields with
  | [] => None
  | (k, v) :: rest => if decide (k = key) then Some v else assoc key rest
  end.

Definition json_get (key : pystr) (j : Json) : option Json :=
  match j with
  | JDict fields => assoc key fields
  | _ => None
  end.

(** ** The program *)

Section Program.

Context (env : Env).

(** *** Primitive effects *)

Definition emit (e : Event) : M State unit := modify (set_world (log_event e)).

(** [print(line)].  Standard output is taken to accept every line: the
    [UnicodeEncodeError] of a stream that cannot encode a text is not part
    of the model.  [plainly_printed] says of a run that the lines it printed
    are ASCII, which every stream accepts. *)
Definition print (line : LogLine) : M State unit := emit (Print line).

(** A call on a browser object: recorded, then answered as scripted. *)
Definition call {A} (c : BrowserCall) (o : outcome A) : M State A :=
  emit (Call c) ;; answer o.

(** [datetime.now().isoformat()] *)
Definition datetime_now_isoformat : M State pystr :=
  n <- gets (fun st => clock_reads (world st)) ;;
  modify (set_world tick_clock) ;;
  ret (now_isoformat env n).

(** [s.encode('utf-8')]; the exception carries the message of the codec. *)
Definition encode (s : pystr) : M State pybytes :=
  match utf8_encode s with
  | Some data => ret data
  | None => raise (Exception (utf8_error_message s))
  end.

(** [open(path, 'w')]: the file exists and is empty afterwards. *)
Definition open_for_writing (path : pystr) : M State unit :=
  match open_w env path with
  | Some what => raise (Exception what)
  | None => modify (set_world (store path (Bytes [])))
  end.

(** [with open(path, 'w', encoding='utf-8') as f: f.write(text)], on a
    host whose line separator is the newline character. *)
Definition write_text (path text : pystr) : M State unit :=
  open_for_writing path ;;
  data <- encode text ;;
  modify (set_world (store path (Bytes data))).

(** [with open(path, 'w') as f: json.dump(doc, f, indent=2)] *)
Definition json_dump (path : pystr) (doc : Json) : M State unit :=
  open_for_writing path ;;
  modify (set_world (store path (JsonDocument doc))).

(** [page.on("request", handler)] *)
Definition page_on (page : PageObject) (handler : Request -> M State unit)
    : PageObject :=
  {| page_of := page_of page; on_request := on_request page ++ [handler] |}.

(** The page object of [search_and_capture]: a new page on which
    [handle_request] has been registered. *)
Definition new_page_object (p : Page) : PageObject :=
  {| page_of := p; on_request := [] |}.

(** [page.goto(url, wait_until='load', timeout=30000)]: the observers see
    every request of the load before the call answers. *)
Definition page_goto (page : PageObject) (url : pystr)
    : M State (option Response) :=
  emit (Call (Goto (pg_id (page_of page)) url)) ;;
  for_each (pg_requests (page_of page))
    (fun rq => for_each (on_request page) (fun handler => handler rq)) ;;
  answer (pg_goto (page_of page)).

(** [page.screenshot(path=path, full_page=True)]: the browser writes the
    image itself. *)
Definition page_screenshot (page : PageObject) (path : pystr) : M State unit :=
  png <- call (Screenshot (pg_id (page_of page)) path)
              (pg_screenshot (page_of page)) ;;
  modify (set_world (store path (Bytes png))).

(** *** [ForensicCapture.__init__] (lines 31-57)

    The attributes are all assigned before the first directory is made, so
    the object is there whatever [mkdir] does. *)
Definition make_directory (p : Pathlib.Path) : M State unit :=
  match mkdir env (Pathlib.to_str p) with
  | Some what => raise (Exception what)
  | None => ret tt
  end.

Definition init (labels_ : list pystr) (output_dir_ : pystr) (min_bytes_ : Z)
    (w : World) : outcome unit * State :=
  let o :=
    {| labels := labels_;
       output_dir := Pathlib.of_str output_dir_;
       min_bytes := min_bytes_;
       session_id := uuid4 env;
       capture_metadata :=
         {| md_session_id := uuid4 env;
            md_timestamp := now_isoformat env (clock_reads w);
            md_labels := labels_;
            md_min_bytes := min_bytes_;
            md_captures := [];
            md_total_captures := None;
            md_completion_timestamp := None |};
       playwright := None |} in
  (make_directory (output_dir o) ;;
   make_directory (output_dir o </> py "screenshots") ;;
   make_directory (output_dir o </> py "html_dumps") ;;
   make_directory (output_dir o </> py "network_logs") ;;
   make_directory (output_dir o </> py "metadata") ;;
   print InfoInitialized ;;
   print (InfoSessionId (session_id o)) ;;
   print (InfoOutputDirectory (Pathlib.to_str (output_dir o))) ;;
   print (InfoTargetLabels labels_) ;;
   print (InfoMinimumSize min_bytes_))
    {| self := o; world := tick_clock w |}.

(** *** [setup_browser] (lines 59-78) *)
Definition setup_browser : M State Browser :=
  n <- gets (fun st => launches (world st)) ;;
  modify (set_world count_launch) ;;
  pw <- call PlaywrightStart (async_playwright_start env n) ;;
  modify (set_self (set_playwright pw)) ;;
  call (Launch (pw_id pw)) (pw_launch pw).

(** *** [capture_page_data] (lines 80-171) *)

(** The string whose MD5 digest names a capture (line 83). *)
Definition capture_key (url label capture_timestamp : pystr) : pystr :=
  url ++ py "_" ++ label ++ py "_" ++ capture_timestamp.

Definition md5_hexdigest (data : pybytes) : pystr :=
  Hashlib.hexdigest (Hashlib.md5 data).

Definition sha256_hexdigest (data : pybytes) : pystr :=
  Hashlib.hexdigest (Hashlib.sha256 data).

(** Lines 87-95: [true] when the load succeeded, [false] when the method
    returns [None]. *)
Definition navigate (page : PageObject) (url : pystr) : M State bool :=
  try_except
    (response <- page_goto page url ;;
     match response with
     | Some r =>
         if ok r then ret true
         else print (WarningFailedToLoad url (Some (status r))) ;; ret false
     | None => print (WarningFailedToLoad url None) ;; ret false
     end)
    (fun what => print (ErrorNavigationFailed url what) ;; ret false).

(** Lines 97-104. *)
Definition settle (page : PageObject) (url : pystr) : M State unit :=
  try_except
    (call (WaitForLoadState (pg_id (page_of page)))
          (pg_networkidle (page_of page)))
    (fun _ => print (WarningNetworkIdleTimeout url)) ;;
  call (WaitForTimeout (pg_id (page_of page)))
       (pg_settle_delay (page_of page)).

(** [str(file.relative_to(self.output_dir))] *)
Definition relative_str (file root : Pathlib.Path) : M State pystr :=
  match Pathlib.relative_to file root with
  | Some rel => ret (Pathlib.to_str rel)
  | None => raise (Exception (py "ValueError"))
  end.

(** The three artifacts of a capture (lines 115, 120 and 132). *)
Definition html_file (out : Pathlib.Path) (capture_id label : pystr)
    : Pathlib.Path :=
  out </> py "html_dumps" </> (capture_id ++ py "_" ++ label ++ py ".html").

Definition screenshot_file (out : Pathlib.Path) (capture_id label : pystr)
    : Pathlib.Path :=
  out </> py "screenshots" </> (capture_id ++ py "_" ++ label ++ py ".png").

Definition network_file (out : Pathlib.Path) (capture_id label : pystr)
    : Pathlib.Path :=
  out </> py "network_logs"
      </> (capture_id ++ py "_" ++ label ++ py "_network.json").

(** Lines 114-171: what happens once the page passed the size gate. *)
Definition persist (page : PageObject) (url label : pystr)
    (capture_timestamp capture_id html_content : pystr) (html_size : Z)
    : M State (option CaptureData) :=
  out <- gets (fun st => output_dir (self st)) ;;
  write_text (Pathlib.to_str (html_file out capture_id label)) html_content ;;
  page_screenshot page
    (Pathlib.to_str (screenshot_file out capture_id label)) ;;
  title <- call (Title (pg_id (page_of page))) (pg_title (page_of page)) ;;
  let url_final := pg_url (page_of page) in
  let soup := BeautifulSoup env html_content in
  let text_content := get_text soup in
  let links := find_all_a_href soup in
  let images := find_all_img_src soup in
  let forms := Z.of_nat (find_all_form soup) in
  html_rel <- relative_str (html_file out capture_id label) out ;;
  screenshot_rel <- relative_str (screenshot_file out capture_id label) out ;;
  network_rel <- relative_str (network_file out capture_id label) out ;;
  md5_data <- encode html_content ;;
  sha256_data <- encode html_content ;;
  let capture_data :=
    {| capture_id := capture_id;
       label := label;
       url_original := url;
       url_final := url_final;
       timestamp := capture_timestamp;
       title := title;
       html_size := html_size;
       text_length := Z.of_nat (length text_content);
       links_count := Z.of_nat (length links);
       images_count := Z.of_nat (length images);
       forms_count := forms;
       files := {| files_html := html_rel;
                   files_screenshot := screenshot_rel;
                   files_network := network_rel |};
       hash_md5 := md5_hexdigest md5_data;
       hash_sha256 := sha256_hexdigest sha256_data |} in
  json_dump (Pathlib.to_str (network_file out capture_id label))
            (network_data capture_id capture_timestamp) ;;
  print (SuccessCaptured label html_size url_final) ;;
  ret (Some capture_data).

Definition capture_page_data (page : PageObject) (url label : pystr)
    : M State (option CaptureData) :=
  capture_timestamp <- datetime_now_isoformat ;;
  key <- encode (capture_key url label capture_timestamp) ;;
  let capture_id := md5_hexdigest key in
  print (InfoCapturing label url) ;;
  loaded <- navigate page url ;;
  if negb loaded then ret None
  else
    settle page url ;;
    html_content <- call (Content (pg_id (page_of page)))
                         (pg_content (page_of page)) ;;
    html_data <- encode html_content ;;
    let html_size := Z.of_nat (length html_data) in
    threshold <- gets (fun st => min_bytes (self st)) ;;
    if html_size <? threshold then
      print (WarningTooSmall html_size threshold url) ;;
      ret None
    else
      persist page url label capture_timestamp capture_id html_content
              html_size.

(** *** [search_and_capture] (lines 173-224) *)

Definition target_urls : list pystr :=
  [py "https://httpbin.org/html";
   py "https://httpbin.org/json";
   py "https://www.wikipedia.org/"].

Definition handle_request (request : Request) : M State unit :=
  print (NetworkRequest (rq_method request) (rq_url request)).

(** A new page once [handle_request] is registered on it (line 195). *)
Definition observed (p : Page) : PageObject :=
  page_on (new_page_object p) handle_request.

Definition set_frame (f : Frame -> Frame) : M (Frame * State) unit :=
  modify (fun fs => (f (fst fs), snd fs)).

Definition assign_browser (b : option Browser) (fr : Frame) : Frame :=
  {| fr_captures := fr_captures fr; fr_browser := b; fr_page := fr_page fr |}.

Definition assign_page (p : option PageObject) (fr : Frame) : Frame :=
  {| fr_captures := fr_captures fr; fr_browser := fr_browser fr; fr_page := p |}.

Definition captures_append (c : CaptureData) (fr : Frame) : Frame :=
  {| fr_captures := fr_captures fr ++ [c];
     fr_browser := fr_browser fr; fr_page := fr_page fr |}.

(** [try: await x  except Exception: pass] *)
Definition quietly {S} (m : M S unit) : M S unit :=
  try_except m (fun _ => ret tt).

(** The body of the [try] (lines 188-202). *)
Definition attempt (label url : pystr) : M (Frame * State) unit :=
  browser <- lift setup_browser ;;
  set_frame (assign_browser (Some browser)) ;;
  new_page <- lift (call (NewPage (br_id browser)) (br_new_page browser)) ;;
  set_frame (assign_page (Some (new_page_object new_page))) ;;
  let page := observed new_page in
  set_frame (assign_page (Some page)) ;;
  capture_data <- lift (capture_page_data page url label) ;;
  match capture_data with
  | Some c =>
      set_frame (captures_append c) ;;
      lift (modify (set_self (set_metadata (append_capture c))))
  | None => ret tt
  end ;;
  lift (call (WaitForTimeout (pg_id new_page)) (pg_rate_delay new_page)).

(** The [finally] clause (lines 207-222). *)
Definition teardown : M (Frame * State) unit :=
  page <- gets (fun fs => fr_page (fst fs)) ;;
  match page with
  | Some p =>
      quietly (lift (call (PageClose (pg_id (page_of p)))
                          (pg_close (page_of p))))
  | None => ret tt
  end ;;
  browser <- gets (fun fs => fr_browser (fst fs)) ;;
  match browser with
  | Some b => quietly (lift (call (BrowserClose (br_id b)) (br_close b)))
  | None => ret tt
  end ;;
  pw <- gets (fun fs => playwright (self (snd fs))) ;;
  match pw with
  | Some p => quietly (lift (call (PlaywrightStop (pw_id p)) (pw_stop p)))
  | None => ret tt
  end.

(** One turn of the loop over the target URLs (lines 185-222). *)
Definition visit (label url : pystr) : M (Frame * State) unit :=
  set_frame (assign_browser None) ;;
  set_frame (assign_page None) ;;
  try_finally
    (try_except (attempt label url)
       (fun what => lift (print (ErrorCaptureFailed url what))))
    teardown.

Definition search_and_capture (label : pystr) : M State (list CaptureData) :=
  fun st =>
    let frame := {| fr_captures := []; fr_browser := None; fr_page := None |} in
    match for_each target_urls (visit label) (frame, st) with
    | (Returns _, (fr, st')) => (Returns (fr_captures fr), st')
    | (Raises e, (_, st')) => (Raises e, st')
    end.

(** *** [generate_report] (lines 260-285) *)
Definition report_file (o : ForensicCapture) : Pathlib.Path :=
  output_dir o </> (py "forensic_report_" ++ session_id o ++ py ".txt").

(** The lines of the report in the order they are written: the header
    (lines 265-274), then seven lines for each record of the manifest
    (lines 276-283). *)
Definition header_lines (o : ForensicCapture) : list ReportLine :=
  [ReportTitle;
   ReportRule;
   ReportSessionId (session_id o);
   ReportTimestamp (md_timestamp (capture_metadata o));
   ReportLabels (labels o);
   ReportThreshold (min_bytes o);
   ReportTotal (Z.of_nat (length (md_captures (capture_metadata o))));
   ReportDetails;
   ReportDash].

Definition capture_lines (c : CaptureData) : list ReportLine :=
  [ReportLabel (label c);
   ReportUrl (url_final c);
   ReportCaptureTitle (title c);
   ReportSize (html_size c);
   ReportMd5 (hash_md5 c);
   ReportSha256 (hash_sha256 c);
   ReportFiles (files c)].

Definition report_lines (o : ForensicCapture) : list ReportLine :=
  header_lines o ++ flat_map capture_lines (md_captures (capture_metadata o)).

(** What a file holds of the report so far. *)
Definition written (f : option File) : list ReportLine :=
  match f with
  | Some (Report ls) => ls
  | _ => []
  end.

Definition append_line (path : pystr) (line : ReportLine) (w : World)
    : World :=
  store path (Report (written (fs w !! path) ++ [line])) w.

(** [f.write(text)] on the report: the text is encoded when it is written,
    so a line the codec refuses raises and leaves in the file the lines
    written before it. *)
Definition write_line (path : pystr) (line : ReportLine) : M State unit :=
  match locale_codec env line with
  | Some what => raise (Exception what)
  | None => modify (set_world (append_line path line))
  end.

Definition generate_report : M State unit :=
  o <- gets self ;;
  open_for_writing (Pathlib.to_str (report_file o)) ;;
  for_each (report_lines o) (write_line (Pathlib.to_str (report_file o))) ;;
  print (InfoReportGenerated (Pathlib.to_str (report_file o))).

(** *** [run_capture] (lines 226-258) *)

(** One turn of the loop over the labels; the state carries the local
    [all_captures]. *)
Definition process_label (label : pystr) : M (list CaptureData * State) unit :=
  lift (print (InfoProcessingLabel label)) ;;
  captures <- lift (search_and_capture label) ;;
  modify (fun ls => (fst ls ++ captures, snd ls)) ;;
  lift (emit (Call Sleep)).

Definition metadata_file (o : ForensicCapture) : Pathlib.Path :=
  output_dir o </> py "metadata"
    </> (py "session_" ++ session_id o ++ py ".json").

Definition finish (all_captures : list CaptureData) : M State unit :=
  let total := Z.of_nat (length all_captures) in
  modify (set_self (set_metadata (set_total_captures total))) ;;
  now <- datetime_now_isoformat ;;
  modify (set_self (set_metadata (set_completion_timestamp now))) ;;
  o <- gets self ;;
  json_dump (Pathlib.to_str (metadata_file o))
            (json_of_metadata (capture_metadata o)) ;;
  generate_report ;;
  print SuccessCompleted ;;
  print (InfoTotalCaptures total) ;;
  print (InfoSessionMetadata (Pathlib.to_str (metadata_file o))) ;;
  print (InfoOutputDirectory (Pathlib.to_str (output_dir o))).

Definition run_capture : M State unit :=
  print InfoStarting ;;
  ls <- gets (fun st => labels (self st)) ;;
  print (InfoProcessingLabels (length ls) ls) ;;
  fun st =>
    match for_each ls process_label ([], st) with
    | (Returns _, (all_captures, st')) => finish all_captures st'
    | (Raises e, (_, st')) => (Raises e, st')
    end.

(** *** [main] (lines 288-321): the exit status and the final state.

    An exception out of the constructor is not handled: the interpreter
    reports it and exits with status 1. *)
Definition main (args : Args) (w : World) : Z * State :=
  let w1 :=
    if arg_verbose args
    then log_event (Print DebugArguments) (log_event (Print DebugVerbose) w)
    else w in
  match init (arg_labels args) (arg_out args) (arg_min_bytes args) w1 with
  | (Raises _, st) => (1, st)
  | (Returns _, st) =>
      match run_capture st with
      | (Returns _, st') => (0, st')
      | (Raises Interrupt, st') =>
          (1, set_world (log_event (Print InfoInterrupted)) st')
      | (Raises (Exception what), st') =>
          (1, set_world (log_event (Print (ErrorCaptureAborted what))) st')
      end
  end.

End Program.

(** ** Variations of a scripted page *)

Definition with_goto (o : outcome (option Response)) (p : Page) : Page :=
  {| pg_id := pg_id p; pg_requests := pg_requests p; pg_goto := o;
     pg_networkidle := pg_networkidle p; pg_settle_delay := pg_settle_delay p;
     pg_content := pg_content p; pg_screenshot := pg_screenshot p;
     pg_title := pg_title p; pg_url := pg_url p;
     pg_rate_delay := pg_rate_delay p; pg_close := pg_close p |}.

Definition with_networkidle (o : outcome unit) (p : Page) : Page :=
  {| pg_id := pg_id p; pg_requests := pg_requests p; pg_goto := pg_goto p;
     pg_networkidle := o; pg_settle_delay := pg_settle_delay p;
     pg_content := pg_content p; pg_screenshot := pg_screenshot p;
     pg_title := pg_title p; pg_url := pg_url p;
     pg_rate_delay := pg_rate_delay p; pg_close := pg_close p |}.


Definition with_title (o : outcome pystr) (p : Page) : Page :=
  {| pg_id := pg_id p; pg_requests := pg_requests p; pg_goto := pg_goto p;
     pg_networkidle := pg_networkidle p; pg_settle_delay := pg_settle_delay p;
     pg_content := pg_content p; pg_screenshot := pg_screenshot p;
     pg_title := o; pg_url := pg_url p;
     pg_rate_delay := pg_rate_delay p; pg_close := pg_close p |}.

Definition with_screenshot (o : outcome pybytes) (p : Page) : Page :=
  {| pg_id := pg_id p; pg_requests := pg_requests p; pg_goto := pg_goto p;
     pg_networkidle := pg_networkidle p; pg_settle_delay := pg_settle_delay p;
     pg_content := pg_content p; pg_screenshot := o;
     pg_title := pg_title p; pg_url := pg_url p;
     pg_rate_delay := pg_rate_delay p; pg_close := pg_close p |}.

(** ** The codec of a UTF-8 locale

    What [f.write(text)] does with each line of the report when the file
    was opened in a UTF-8 locale.  The lines that show a number or a fixed
    text are ASCII, and the [repr] of the dictionary of file names escapes
    the surrogates, which are not printable. *)
Fixpoint join_comma (ss : list pystr) : pystr :=
  match ss with
  | [] => []
  | [s] => s
  | s :: ss' => s ++ py ", " ++ join_comma ss'
  end.

Definition utf8_codec (text : pystr) : option pystr :=
  match utf8_encode text with
  | Some _ => None
  | None => Some (utf8_error_message text)
  end.

Definition utf8_locale (line : ReportLine) : option pystr :=
  match line with
  | ReportSessionId sid => utf8_codec (py "Session ID: " ++ sid ++ [10%N])
  | ReportTimestamp ts => utf8_codec (py "Timestamp: " ++ ts ++ [10%N])
  | ReportLabels ls =>
      utf8_codec (py "Labels: " ++ join_comma ls ++ [10%N])
  | ReportLabel lbl => utf8_codec (10%N :: py "Label: " ++ lbl ++ [10%N])
  | ReportUrl url => utf8_codec (py "URL: " ++ url ++ [10%N])
  | ReportCaptureTitle t => utf8_codec (py "Title: " ++ t ++ [10%N])
  | ReportMd5 h => utf8_codec (py "MD5: " ++ h ++ [10%N])
  | ReportSha256 h => utf8_codec (py "SHA256: " ++ h ++ [10%N])
  | _ => None
  end.

(** ** A scripted session used to run the model *)
Module Scenario.

Definition html : pystr := py "<html><body><a href='x'>caf" ++ [233%N] ++ py "</a></body></html>".

Definition good_page (n : nat) : Page :=
  {| pg_id := n;
     pg_requests := [{| rq_method := py "GET"; rq_url := py "https://httpbin.org/html" |}];
     pg_goto := Returns (Some {| ok := true; status := 200 |});
     pg_networkidle := Returns tt;
     pg_settle_delay := Returns tt;
     pg_content := Returns html;
     pg_screenshot := Returns [x89; x50; x4e; x47];
     pg_title := Returns (py "Demo");
     pg_url := py "https://httpbin.org/html";
     pg_rate_delay := Returns tt;
     pg_close := Returns tt |}.

(** A page that never gets idle. *)
Definition slow_page : Page :=
  with_networkidle (Raises (Exception (py "Timeout 10000ms exceeded")))
                   (good_page 2).

Definition session (p : Page) : outcome Playwright :=
  Returns {| pw_id := pg_id p;
             pw_launch := Returns {| br_id := pg_id p;
                                     br_new_page := Returns p;
                                     br_close := Returns tt |};
             pw_stop := Returns tt |}.

Definition sessions (n : nat) : outcome Playwright :=
  match n with
  | 0%nat => session (good_page 0)
  | 1%nat => session (with_goto (Returns (Some {| ok := false; status := 404 |}))
                                (good_page 1))
  | 2%nat => session slow_page
  | 3%nat => Raises (Exception (py "driver missing"))
  | _ => session (good_page n)
  end.

Definition iso (n : nat) : pystr :=
  py "2025-09-05T19:41:2" ++ [(48 + N.of_nat n)%N] ++ py ".000001".

Definition env : Env :=
  {| uuid4 := py "0f8fad5b-d9cb-469f-a165-70867728950e";
     now_isoformat := iso;
     async_playwright_start := sessions;
     BeautifulSoup := fun h =>
       {| get_text := py "cafe"; find_all_a_href := [py "x"];
          find_all_img_src := []; find_all_form := 0 |};
     mkdir := fun _ => None;
     open_w := fun _ => None;
     locale_codec := fun _ => None |}.

Definition args : Args :=
  {| arg_labels := [py "RHO-TECH"; py "PIPETECH"];
     arg_out := py "out";
     arg_min_bytes := 40;
     arg_verbose := false |}.

Definition empty_world : World :=
  {| fs := ∅; trace := []; clock_reads := 0; launches := 0 |}.

(** The object once constructed, and the first capture of the run. *)
Definition st0 : State :=
  snd (init env (arg_labels args) (arg_out args) (arg_min_bytes args)
         empty_world).

(** The same object with the default threshold of one million bytes. *)
Definition strict : State :=
  snd (init env (arg_labels args) (arg_out args) 1000000 empty_world).

(** The object with a negative threshold. *)
Definition lenient_args : Args :=
  {| arg_labels := [py "RHO-TECH"];
     arg_out := py "out";
     arg_min_bytes := -5;
     arg_verbose := true |}.

Definition lenient : State :=
  snd (init env (arg_labels lenient_args) (arg_out lenient_args)
         (arg_min_bytes lenient_args) empty_world).

(** The page of the second session, which answers 404, and the object
    when that session is about to start. *)
Definition missing_page : Page :=
  with_goto (Returns (Some {| ok := false; status := 404 |})) (good_page 1).

Definition second : State := set_world count_launch st0.

(** The object when the fourth session, whose driver is missing, is about
    to start. *)
Definition fourth : State :=
  set_world count_launch (set_world count_launch second).

Definition no_locals : Frame :=
  {| fr_captures := []; fr_browser := None; fr_page := None |}.


(** An environment in which every page is fine but cannot be pictured. *)
Definition blind_page : Page :=
  with_screenshot (Raises (Exception (py "Target crashed"))) (good_page 0).

Definition blind : Env :=
  {| uuid4 := uuid4 env;
     now_isoformat := now_isoformat env;
     async_playwright_start := fun _ => session blind_page;
     BeautifulSoup := BeautifulSoup env;
     mkdir := mkdir env;
     open_w := open_w env;
     locale_codec := locale_codec env |}.

(** The object with a threshold that is the size of the page. *)
Definition exact : State :=
  snd (init env (arg_labels args) (arg_out args) 47 empty_world).

Definition url : pystr := py "https://httpbin.org/html".
Definition tag : pystr := py "RHO-TECH".

Definition record : CaptureData :=
  {| capture_id := py "7dba3558ff827c80b02bd5eec66525d5";
     label := tag;
     url_original := url;
     url_final := url;
     timestamp := py "2025-09-05T19:41:21.000001";
     title := py "Demo";
     html_size := 47;
     text_length := 4;
     links_count := 1;
     images_count := 0;
     forms_count := 0;
     files :=
       {| files_html :=
            py "html_dumps/7dba3558ff827c80b02bd5eec66525d5_RHO-TECH.html";
          files_screenshot :=
            py "screenshots/7dba3558ff827c80b02bd5eec66525d5_RHO-TECH.png";
          files_network :=
            py "network_logs/7dba3558ff827c80b02bd5eec66525d5_RHO-TECH_network.json" |};
     hash_md5 := py "c405eaaa60a233e7c93721833e09b766";
     hash_sha256 :=
       py "ecf9a984bd93cc162f684aeb632baccb3786fe3349edce5cca7189754931987c" |}.

(** A UTF-8 locale in which every page has a title that ends in a lone
    surrogate, which the strings of JavaScript can hold. *)
Definition odd_page (n : nat) : Page :=
  with_title (Returns (py "Demo" ++ [55296%N])) (good_page n).

Definition utf8 : Env :=
  {| uuid4 := uuid4 env;
     now_isoformat := now_isoformat env;
     async_playwright_start := fun n => session (odd_page n);
     BeautifulSoup := BeautifulSoup env;
     mkdir := mkdir env;
     open_w := open_w env;
     locale_codec := utf8_locale |}.

(** An environment in which no directory can be made. *)
Definition readonly : Env :=
  {| uuid4 := uuid4 env;
     now_isoformat := now_isoformat env;
     async_playwright_start := async_playwright_start env;
     BeautifulSoup := BeautifulSoup env;
     mkdir := fun _ => Some (py "Read-only file system");
     open_w := open_w env;
     locale_codec := locale_codec env |}.


(** The object with a record already in its manifest, as a first run
    leaves it. *)
Definition used : State :=
  set_self (set_metadata (append_capture record)) st0.

(** The object one clock reading later, and the record of the same page
    captured then. *)
Definition later : State := set_world tick_clock st0.

Definition again : CaptureData :=
  {| capture_id := py "03d7d38dc405b44a2685e5d4c41719c2";
     label := tag;
     url_original := url;
     url_final := url;
     timestamp := py "2025-09-05T19:41:22.000001";
     title := py "Demo";
     html_size := 47;
     text_length := 4;
     links_count := 1;
     images_count := 0;
     forms_count := 0;
     files :=
       {| files_html :=
            py "html_dumps/03d7d38dc405b44a2685e5d4c41719c2_RHO-TECH.html";
          files_screenshot :=
            py "screenshots/03d7d38dc405b44a2685e5d4c41719c2_RHO-TECH.png";
          files_network :=
            py "network_logs/03d7d38dc405b44a2685e5d4c41719c2_RHO-TECH_network.json" |};
     hash_md5 := py "c405eaaa60a233e7c93721833e09b766";
     hash_sha256 :=
       py "ecf9a984bd93cc162f684aeb632baccb3786fe3349edce5cca7189754931987c" |}.

End Scenario.


(** * Reasoning about computations *)

(** [wp m Q s]: run from [s], [m] ends in an outcome and a state that
    satisfy [Q]. *)
Definition wp {S A} (m : M S A) (Q : outcome A -> S -> Prop) (s : S) : Prop :=
  match m s with (r, s') => Q r s' end.

(** Where an outcome continues: through [k] when it returned, straight to
    [Q] when it raised. *)
Definition and_then {S A B} (k : A -> M S B) (Q : outcome B -> S -> Prop)
    : outcome A -> S -> Prop :=
  fun r s =>
    match r with
    | Returns a => wp (k a) Q s
    | Raises e => Q (Raises e) s
    end.

(** What holds after a loop: [I] if it ran to the end, [E e] if a turn
    raised [e]. *)
Definition loop_post {S} (I : S -> Prop) (E : exn -> S -> Prop)
    : outcome unit -> S -> Prop :=
  fun r s =>
    match r with
    | Returns _ => I s
    | Raises e => E e s
    end.

(** The state once [evs] were appended to the trace. *)
Definition logged (evs : list Event) (st : State) : State :=
  set_world (fun w => {| fs := fs w; trace := trace w ++ evs;
                         clock_reads := clock_reads w;
                         launches := launches w |}) st.

Definition request_lines (p : Page) : list Event :=
  map (fun rq => Print (NetworkRequest (rq_method rq) (rq_url rq)))
      (pg_requests p).


(** * The vocabulary of the statements *)

(** What precedes the last components in [str]. *)
Definition lead (pre : list pystr) : pystr :=
  flat_map (fun seg => seg ++ [Pathlib.slash]) pre.

(** Plain text: ASCII, which every encoding of standard output takes. *)
Definition plain (s : pystr) : bool := forallb (fun c => (c <? 128)%N) s.

(** The values the text of a line is made of.  ([DebugArguments] shows the
    labels and the output directory, which lines 55 and 56 print as well.) *)
Definition line_strings (l : LogLine) : list pystr :=
  match l with
  | InfoSessionId sid => [sid]
  | InfoOutputDirectory dir => [dir]
  | InfoTargetLabels ls => ls
  | InfoCapturing lbl url => [lbl; url]
  | WarningFailedToLoad url _ => [url]
  | ErrorNavigationFailed url what => [url; what]
  | WarningNetworkIdleTimeout url => [url]
  | WarningTooSmall _ _ url => [url]
  | SuccessCaptured lbl _ url => [lbl; url]
  | NetworkRequest method url => [method; url]
  | ErrorCaptureFailed url what => [url; what]
  | InfoProcessingLabels _ ls => ls
  | InfoProcessingLabel lbl => [lbl]
  | InfoSessionMetadata path => [path]
  | InfoReportGenerated path => [path]
  | ErrorCaptureAborted what => [what]
  | _ => []
  end.

Definition plain_event (e : Event) : bool :=
  match e with
  | Print l => forallb plain (line_strings l)
  | Call _ => true
  end.

(** Every line of [evs] that was printed is plain text: standard output
    took them all, whatever its encoding. *)
Definition plainly_printed (evs : list Event) : Prop :=
  forallb plain_event evs = true.

(** The codec of the locale takes every line of the report of [o]. *)
Definition report_writable (env : Env) (o : ForensicCapture) : Prop :=
  Forall (fun l => locale_codec env l = None) (report_lines o).

(** The state once [ls] were written to the report at [path]. *)
Definition with_lines (path : pystr) (ls : list ReportLine) (st : State)
    : State :=
  fold_left (fun s l => set_world (append_line path l) s) ls st.

(** The records of the session manifest. *)
Definition manifest (st : State) : list CaptureData :=
  md_captures (capture_metadata (self st)).

(** From [st] to [st'] the trace grew by [evs]. *)
Definition extends (st st' : State) (evs : list Event) : Prop :=
  trace (world st') = trace (world st) ++ evs.

(** The paths under which a capture may write: a digest-named file in one
    of the three artifact directories. *)
Definition artifact_dirs : list pystr :=
  [py "html_dumps"; py "screenshots"; py "network_logs"].

Definition is_artifact (out : Pathlib.Path) (path : pystr) : Prop :=
  exists dir d label_ suffix,
    dir ∈ artifact_dirs
    /\ path = Pathlib.to_str
                (out </> dir </> (Hashlib.hexdigest d ++ py "_" ++ label_
                                    ++ suffix)).

(** From [st] to [st'] only artifacts were written. *)
Definition writes_artifacts (st st' : State) : Prop :=
  forall path,
    ~ is_artifact (output_dir (self st)) path ->
    fs (world st') !! path = fs (world st) !! path.

(** The page loads: [goto] answers with a successful response. *)
Definition loads (p : Page) : Prop :=
  exists r, pg_goto p = Returns (Some r) /\ ok r = true.

(** Navigation fails the ordinary way: no response, a response that is not
    a success, or an exception. *)
Definition navigation_fails (p : Page) : Prop :=
  pg_goto p = Returns None
  \/ (exists r, pg_goto p = Returns (Some r) /\ ok r = false)
  \/ (exists what, pg_goto p = Raises (Exception what)).

(** No user interrupt reaches the program: no scripted answer is
    [Interrupt]. *)
Definition uninterrupted {A} (o : outcome A) : Prop := o <> Raises Interrupt.

Definition calm_page (p : Page) : Prop :=
  uninterrupted (pg_goto p) /\ uninterrupted (pg_networkidle p)
  /\ uninterrupted (pg_settle_delay p) /\ uninterrupted (pg_content p)
  /\ uninterrupted (pg_screenshot p) /\ uninterrupted (pg_title p)
  /\ uninterrupted (pg_rate_delay p) /\ uninterrupted (pg_close p).

Definition calm_browser (b : Browser) : Prop :=
  uninterrupted (br_new_page b) /\ uninterrupted (br_close b)
  /\ forall p, br_new_page b = Returns p -> calm_page p.

Definition calm_playwright (pw : Playwright) : Prop :=
  uninterrupted (pw_launch pw) /\ uninterrupted (pw_stop pw)
  /\ forall b, pw_launch pw = Returns b -> calm_browser b.

Definition calm (env : Env) : Prop :=
  forall n,
    uninterrupted (async_playwright_start env n)
    /\ forall pw, async_playwright_start env n = Returns pw ->
                  calm_playwright pw.

(** [c] is the record of a successful capture of [p] begun in [st] and
    ended in [st']. *)
Definition captured (env : Env) (p : Page) (url label_ : pystr)
    (st : State) (c : CaptureData) (st' : State) : Prop :=
  exists key html data title_ png,
    let ts := now_isoformat env (clock_reads (world st)) in
    let cid := md5_hexdigest key in
    let out := output_dir (self st) in
    let soup := BeautifulSoup env html in
    utf8_encode (capture_key url label_ ts) = Some key
    /\ loads p
    /\ pg_content p = Returns html
    /\ utf8_encode html = Some data
    /\ pg_screenshot p = Returns png
    /\ pg_title p = Returns title_
    /\ min_bytes (self st) <= Z.of_nat (length data)
    /\ c = {| capture_id := cid;
              label := label_;
              url_original := url;
              url_final := pg_url p;
              timestamp := ts;
              title := title_;
              html_size := Z.of_nat (length data);
              text_length := Z.of_nat (length (get_text soup));
              links_count := Z.of_nat (length (find_all_a_href soup));
              images_count := Z.of_nat (length (find_all_img_src soup));
              forms_count := Z.of_nat (find_all_form soup);
              files :=
                {| files_html :=
                     Pathlib.to_str (Pathlib.of_str (py "html_dumps")
                       </> (cid ++ py "_" ++ label_ ++ py ".html"));
                   files_screenshot :=
                     Pathlib.to_str (Pathlib.of_str (py "screenshots")
                       </> (cid ++ py "_" ++ label_ ++ py ".png"));
                   files_network :=
                     Pathlib.to_str (Pathlib.of_str (py "network_logs")
                       </> (cid ++ py "_" ++ label_ ++ py "_network.json")) |};
              hash_md5 := md5_hexdigest data;
              hash_sha256 := sha256_hexdigest data |}
    /\ fs (world st')
       = <[Pathlib.to_str (network_file out cid label_)
             := JsonDocument (network_data cid ts)]>
           (<[Pathlib.to_str (screenshot_file out cid label_) := Bytes png]>
              (<[Pathlib.to_str (html_file out cid label_) := Bytes data]>
                 (fs (world st)))).

(** The outcome of [capture_page_data] on an observed page. *)
Definition capture_post (env : Env) (p : Page) (url label_ : pystr) (st : State)
    : outcome (option CaptureData) -> State -> Prop :=
  fun r st' =>
    self st' = self st
    /\ launches (world st') = launches (world st)
    /\ (exists evs, extends st st' evs)
    /\ writes_artifacts st st'
    /\ (calm_page p -> uninterrupted r)
    /\ match r with
       | Returns (Some c) => captured env p url label_ st c st'
       | Returns None =>
           fs (world st') = fs (world st)
           /\ (navigation_fails p
               \/ exists html data,
                    loads p /\ pg_content p = Returns html
                    /\ utf8_encode html = Some data
                    /\ Z.of_nat (length data) < min_bytes (self st))
       | Raises _ => True
       end.

(** The objects a turn acquires, read off the environment. *)
Definition started (env : Env) (st : State) : option Playwright :=
  match async_playwright_start env (launches (world st)) with
  | Returns pw => Some pw
  | Raises _ => None
  end.

Definition launched (env : Env) (st : State) : option Browser :=
  match started env st with
  | Some pw =>
      match pw_launch pw with
      | Returns br => Some br
      | Raises _ => None
      end
  | None => None
  end.

Definition opened (env : Env) (st : State) : option Page :=
  match launched env st with
  | Some br =>
      match br_new_page br with
      | Returns p => Some p
      | Raises _ => None
      end
  | None => None
  end.

(** The state in which [capture_page_data] is called, when the turn gets
    that far. *)
Definition enter (env : Env) (st : State) : option (Page * State) :=
  match async_playwright_start env (launches (world st)) with
  | Returns pw =>
      match pw_launch pw with
      | Returns br =>
          match br_new_page br with
          | Returns p =>
              Some (p,
                set_world (log_event (Call (NewPage (br_id br))))
                  (set_world (log_event (Call (Launch (pw_id pw))))
                     (set_self (set_playwright pw)
                        (set_world (log_event (Call PlaywrightStart))
                           (set_world count_launch st)))))
          | Raises _ => None
          end
      | Raises _ => None
      end
  | Raises _ => None
  end.

(** The records a turn appends: the one its [capture_page_data] returns,
    if it gets that far and returns one. *)
Definition yield (env : Env) (label_ url : pystr) (st : State)
    : list CaptureData :=
  match enter env st with
  | Some (p, st1) =>
      match fst (capture_page_data env (observed p) url label_ st1) with
      | Returns (Some c) => [c]
      | _ => []
      end
  | None => []
  end.

(** Two objects that differ in their captures and their Playwright handle
    at most. *)
Definition same_settings (o o' : ForensicCapture) : Prop :=
  labels o' = labels o
  /\ output_dir o' = output_dir o
  /\ min_bytes o' = min_bytes o
  /\ session_id o' = session_id o
  /\ md_session_id (capture_metadata o') = md_session_id (capture_metadata o)
  /\ md_timestamp (capture_metadata o') = md_timestamp (capture_metadata o)
  /\ md_labels (capture_metadata o') = md_labels (capture_metadata o)
  /\ md_min_bytes (capture_metadata o') = md_min_bytes (capture_metadata o)
  /\ md_total_captures (capture_metadata o')
     = md_total_captures (capture_metadata o)
  /\ md_completion_timestamp (capture_metadata o')
     = md_completion_timestamp (capture_metadata o).

Definition attempt_post (env : Env) (label_ url : pystr) (fr : Frame) (st : State)
    : outcome unit -> Frame * State -> Prop :=
  fun r fs' =>
    launches (world (snd fs')) = S (launches (world st))
    /\ same_settings (self st) (self (snd fs'))
    /\ manifest (snd fs') = manifest st ++ yield env label_ url st
    /\ fr_captures (fst fs') = fr_captures fr ++ yield env label_ url st
    /\ fr_browser (fst fs') = launched env st
    /\ fr_page (fst fs') = observed <$> opened env st
    /\ playwright (self (snd fs'))
       = match started env st with
         | Some pw => Some pw
         | None => playwright (self st)
         end
    /\ writes_artifacts st (snd fs')
    /\ (calm env -> uninterrupted r)
    /\ exists evs, extends st (snd fs') evs.

(** No clean-up call is interrupted. *)
Definition closes_quietly (fr : Frame) (o : ForensicCapture) : Prop :=
  (forall p, fr_page fr = Some p -> pg_close (page_of p) <> Raises Interrupt)
  /\ (forall b, fr_browser fr = Some b -> br_close b <> Raises Interrupt)
  /\ (forall pw, playwright o = Some pw -> pw_stop pw <> Raises Interrupt).

Definition teardown_post (fr : Frame) (st : State)
    : outcome unit -> Frame * State -> Prop :=
  fun r fs' =>
    (r = Returns tt \/ r = Raises Interrupt)
    /\ (closes_quietly fr (self st) -> r = Returns tt)
    /\ fst fs' = fr
    /\ self (snd fs') = self st
    /\ launches (world (snd fs')) = launches (world st)
    /\ fs (world (snd fs')) = fs (world st)
    /\ exists evs,
         extends st (snd fs') evs
         /\ (forall p, fr_page fr = Some p ->
               Call (PageClose (pg_id (page_of p))) ∈ evs)
         /\ (forall b, fr_browser fr = Some b ->
               (forall p, fr_page fr = Some p ->
                  pg_close (page_of p) <> Raises Interrupt) ->
               Call (BrowserClose (br_id b)) ∈ evs)
         /\ (forall pw, playwright (self st) = Some pw ->
               (forall p, fr_page fr = Some p ->
                  pg_close (page_of p) <> Raises Interrupt) ->
               (forall b, fr_browser fr = Some b ->
                  br_close b <> Raises Interrupt) ->
               Call (PlaywrightStop (pw_id pw)) ∈ evs).

(** The locals at the top of a turn (lines 185-186). *)
Definition reset (fr : Frame) : Frame :=
  assign_page None (assign_browser None fr).

Definition visit_post (env : Env) (label_ url : pystr) (fr : Frame) (st : State)
    : outcome unit -> Frame * State -> Prop :=
  fun r fs' =>
    (r = Returns tt \/ r = Raises Interrupt)
    /\ launches (world (snd fs')) = S (launches (world st))
    /\ same_settings (self st) (self (snd fs'))
    /\ manifest (snd fs') = manifest st ++ yield env label_ url st
    /\ fr_captures (fst fs') = fr_captures fr ++ yield env label_ url st
    /\ playwright (self (snd fs'))
       = match started env st with
         | Some pw => Some pw
         | None => playwright (self st)
         end
    /\ writes_artifacts st (snd fs')
    /\ exists evs,
         extends st (snd fs') evs
         /\ (forall what,
               fst (attempt env label_ url (reset fr, st))
               = Raises (Exception what) ->
               Print (ErrorCaptureFailed url what) ∈ evs)
         /\ (forall p, opened env st = Some p ->
               Call (PageClose (pg_id p)) ∈ evs)
         /\ (forall b, launched env st = Some b ->
               (forall p, opened env st = Some p ->
                  pg_close p <> Raises Interrupt) ->
               Call (BrowserClose (br_id b)) ∈ evs)
         /\ (forall pw, started env st = Some pw ->
               (forall p, opened env st = Some p ->
                  pg_close p <> Raises Interrupt) ->
               (forall b, launched env st = Some b ->
                  br_close b <> Raises Interrupt) ->
               Call (PlaywrightStop (pw_id pw)) ∈ evs).

(** The Playwright handle left on the object, if any, stops without an
    interrupt. *)
Definition stops_quietly (st : State) : Prop :=
  forall pw, playwright (self st) = Some pw -> uninterrupted (pw_stop pw).

(** A record whose size is the UTF-8 length of some content and meets the
    threshold. *)
Definition sized (threshold : Z) (c : CaptureData) : Prop :=
  exists html data,
    utf8_encode html = Some data
    /\ html_size c = Z.of_nat (length data)
    /\ threshold <= html_size c.

(** What a run of [search_and_capture] or of the loop over the labels
    leaves: the settings, files outside the artifact directories, and a
    manifest that grew by sized records. *)
Definition grown (st st' : State) (new : list CaptureData) : Prop :=
  same_settings (self st) (self st')
  /\ writes_artifacts st st'
  /\ manifest st' = manifest st ++ new
  /\ Forall (sized (min_bytes (self st))) new.

Definition search_post (st : State)
    : outcome (list CaptureData) -> State -> Prop :=
  fun r st' =>
    exists new,
      grown st st' new
      /\ match r with
         | Returns captures => captures = new
         | Raises e => e = Interrupt
         end.

(** The manifest file holds the manifest of [st], with a total that counts
    [all]. *)
Definition serialized (all : list CaptureData) (st : State) : Prop :=
  fs (world st) !! Pathlib.to_str (metadata_file (self st))
  = Some (JsonDocument (json_of_metadata (capture_metadata (self st))))
  /\ md_total_captures (capture_metadata (self st))
     = Some (Z.of_nat (length all)).

Definition finish_post (env : Env) (all : list CaptureData) (st : State)
    : outcome unit -> State -> Prop :=
  fun r st' =>
    labels (self st') = labels (self st)
    /\ output_dir (self st') = output_dir (self st)
    /\ min_bytes (self st') = min_bytes (self st)
    /\ session_id (self st') = session_id (self st)
    /\ manifest st' = manifest st
    /\ (fs (world st') !! Pathlib.to_str (metadata_file (self st))
        = fs (world st) !! Pathlib.to_str (metadata_file (self st))
        \/ serialized all st')
    /\ (r = Returns tt -> serialized all st')
    /\ (open_w env (Pathlib.to_str (metadata_file (self st))) = None ->
        open_w env (Pathlib.to_str (report_file (self st))) = None ->
        report_writable env (self st) ->
        r = Returns tt)
    /\ uninterrupted r
    /\ report_lines (self st') = report_lines (self st).

(** The whole run, from an object whose manifest is still empty. *)
Definition run_post (st : State) : outcome unit -> State -> Prop :=
  fun r st' =>
    labels (self st') = labels (self st)
    /\ output_dir (self st') = output_dir (self st)
    /\ min_bytes (self st') = min_bytes (self st)
    /\ session_id (self st') = session_id (self st)
    /\ Forall (sized (min_bytes (self st))) (manifest st')
    /\ (fs (world st') !! Pathlib.to_str (metadata_file (self st))
        = fs (world st) !! Pathlib.to_str (metadata_file (self st))
        \/ serialized (manifest st') st')
    /\ (r = Returns tt -> serialized (manifest st') st').

Definition init_post (env : Env) (labels_ : list pystr) (out : pystr) (threshold : Z)
    (w : World) : outcome unit -> State -> Prop :=
  fun r st =>
    labels (self st) = labels_
    /\ output_dir (self st) = Pathlib.of_str out
    /\ min_bytes (self st) = threshold
    /\ session_id (self st) = uuid4 env
    /\ md_min_bytes (capture_metadata (self st)) = threshold
    /\ manifest st = []
    /\ playwright (self st) = None
    /\ fs (world st) = fs w
    /\ ((forall path, mkdir env path = None) -> r = Returns tt)
    /\ uninterrupted r.

(** Where a session started with [args] writes its manifest and its
    report. *)
Definition manifest_path (env : Env) (args : Args) : pystr :=
  Pathlib.to_str (Pathlib.of_str (arg_out args) </> py "metadata"
                    </> (py "session_" ++ uuid4 env ++ py ".json")).

Definition report_path (env : Env) (args : Args) : pystr :=
  Pathlib.to_str (Pathlib.of_str (arg_out args)
                    </> (py "forensic_report_" ++ uuid4 env ++ py ".txt")).

(** Line 83 passes: the key of the capture can be encoded. *)
Definition key_encodes (env : Env) (url label_ : pystr) (st : State) : Prop :=
  is_Some (utf8_encode
             (capture_key url label_
                (now_isoformat env (clock_reads (world st))))).

(** The page gets as far as the size gate with content [html]. *)
Definition reaches_gate (env : Env) (p : Page) (url label_ : pystr) (st : State)
    (html : pystr) : Prop :=
  key_encodes env url label_ st
  /\ loads p
  /\ uninterrupted (pg_networkidle p)
  /\ pg_settle_delay p = Returns tt
  /\ pg_content p = Returns html.

(** What is read in a manifest file: a document whose [total_captures] is
    the length of its [captures]. *)
Definition counts_its_captures (file : option File) : Prop :=
  exists doc items,
    file = Some (JsonDocument doc)
    /\ json_get (py "captures") doc = Some (JList items)
    /\ json_get (py "total_captures") doc = Some (JInt (Z.of_nat (length items))).

(** The separator of the key of line 83. *)
Definition underscore : N := 95%N.

(** Two digests of encoded strings collide only when the strings are the
    same. *)
Definition md5_tells_apart (s s0 : pystr) : Prop :=
  match utf8_encode s, utf8_encode s0 with
  | Some data, Some data0 =>
      md5_hexdigest data = md5_hexdigest data0 -> data = data0
  | _, _ => True
  end.

(** [l] is [l0] with the lines [w] put in at some place. *)
Definition inserted {A} (w l l0 : list A) : Prop :=
  exists before after, l = before ++ w ++ after /\ l0 = before ++ after.

(** The outcomes of two captures that differ by the lines [w] in their
    logs and in nothing else. *)
Definition same_but_for (w : list Event)
    (r : outcome (option CaptureData)) (st : State)
    (r0 : outcome (option CaptureData)) (st0 : State) : Prop :=
  r = r0
  /\ self st = self st0
  /\ fs (world st) = fs (world st0)
  /\ clock_reads (world st) = clock_reads (world st0)
  /\ launches (world st) = launches (world st0)
  /\ inserted w (trace (world st)) (trace (world st0)).

(** The line of line 102. *)
Definition idle_warning (url : pystr) : Event :=
  Print (WarningNetworkIdleTimeout url).

(** The artifacts of a capture can be opened for writing. *)
Definition artifacts_writable (env : Env) (st : State) : Prop :=
  forall path, is_artifact (output_dir (self st)) path ->
               open_w env path = None.

(** What a capture of [p] prints is plain text: the label and the URL of
    the call, the requests of the page and its final URL. *)
Definition prints_plainly (p : Page) (url label_ : pystr) : Prop :=
  plain url = true
  /\ plain label_ = true
  /\ plain (pg_url p) = true
  /\ forallb (fun rq => plain (rq_method rq) && plain (rq_url rq))
             (pg_requests p) = true.

(** The driver handle a turn finds on the object when its own driver does
    not start: the clean-up stops that one. *)
Definition stale_stop (o : ForensicCapture) : list Event :=
  match playwright o with
  | Some old => [Call (PlaywrightStop (pw_id old))]
  | None => []
  end.

(** A record of [label_]: it carries the label and one of [urls]. *)
Definition record_of (label_ : pystr) (urls : list pystr) (c : CaptureData)
    : Prop :=
  label c = label_ /\ url_original c ∈ urls.

(** The report of a session lists its manifest: the header counts the
    records and one entry follows for each of them, in order. *)
Definition report_of (o : ForensicCapture) : File :=
  Report (report_lines o).

Definition reported (st : State) : Prop :=
  fs (world st) !! Pathlib.to_str (report_file (self st))
  = Some (report_of (self st)).

(** From [st] to [st'] nothing was written but artifacts, the manifest
    and the report. *)
Definition writes_session_files (st st' : State) : Prop :=
  forall path,
    ~ is_artifact (output_dir (self st)) path ->
    path <> Pathlib.to_str (metadata_file (self st)) ->
    path <> Pathlib.to_str (report_file (self st)) ->
    fs (world st') !! path = fs (world st) !! path.

(** The attributes given to the constructor. *)
Definition same_object (o o' : ForensicCapture) : Prop :=
  labels o' = labels o
  /\ output_dir o' = output_dir o
  /\ min_bytes o' = min_bytes o
  /\ session_id o' = session_id o.

(** The run appended [new] to the manifest, and what it wrote when it
    returned. *)
Definition run_summary (st : State) (r : outcome unit) (st' : State)
    (new : list CaptureData) : Prop :=
  manifest st' = manifest st ++ new
  /\ same_object (self st) (self st')
  /\ writes_session_files st st'
  /\ (r = Returns tt ->
      md_total_captures (capture_metadata (self st'))
      = Some (Z.of_nat (length new))
      /\ serialized new st'
      /\ reported st').

(** The world in which the constructor runs: [--verbose] has printed its
    two lines by then. *)
Definition debug_lines (args : Args) : list Event :=
  if arg_verbose args then [Print DebugVerbose; Print DebugArguments] else [].

(** The directories the constructor makes, in order. *)
Definition init_dirs (out : Pathlib.Path) : list pystr :=
  [Pathlib.to_str out;
   Pathlib.to_str (out </> py "screenshots");
   Pathlib.to_str (out </> py "html_dumps");
   Pathlib.to_str (out </> py "network_logs");
   Pathlib.to_str (out </> py "metadata")].

(** The five lines the constructor prints. *)
Definition banner (o : ForensicCapture) : list Event :=
  [Print InfoInitialized;
   Print (InfoSessionId (session_id o));
   Print (InfoOutputDirectory (Pathlib.to_str (output_dir o)));
   Print (InfoTargetLabels (labels o));
   Print (InfoMinimumSize (min_bytes o))].



(** * Rules of the computations *)

Section Rules.

Context {S : Type}.
Implicit Types s : S.

Lemma wp_run {A} (m : M S A) Q s r s' :
  m s = (r, s') -> wp m Q s -> Q r s'.
Proof. unfold wp. intros ->. auto. Qed.

Lemma wp_all {A} (m : M S A) (Q : outcome A -> S -> Prop) s :
  (forall r s', m s = (r, s') -> Q r s') -> wp m Q s.
Proof. unfold wp. intros H. destruct (m s) as [r s'] eqn:E. auto. Qed.

Lemma wp_mono {A} (m : M S A) (Q Q' : outcome A -> S -> Prop) s :
  wp m Q s -> (forall r s', Q r s' -> Q' r s') -> wp m Q' s.
Proof. unfold wp. destruct (m s). auto. Qed.

(** Using what is already known of [m], together with the run itself. *)
Lemma wp_use {A} (m : M S A) (P Q : outcome A -> S -> Prop) s :
  wp m P s ->
  (forall r s', m s = (r, s') -> P r s' -> Q r s') ->
  wp m Q s.
Proof.
  intros HP H. apply wp_all. intros r s' Hrun. apply H; [done|].
  by eapply wp_run.
Qed.

Lemma wp_and {A} (m : M S A) (Q Q' : outcome A -> S -> Prop) s :
  wp m Q s -> wp m Q' s -> wp m (fun r s' => Q r s' /\ Q' r s') s.
Proof. unfold wp. destruct (m s). auto. Qed.

Lemma wp_ret {A} (a : A) Q s : Q (Returns a) s -> wp (ret a) Q s.
Proof. auto. Qed.

Lemma wp_raise {A} e (Q : outcome A -> S -> Prop) s :
  Q (Raises e) s -> wp (raise e) Q s.
Proof. auto. Qed.

Lemma wp_gets {A} (f : S -> A) Q s : Q (Returns (f s)) s -> wp (gets f) Q s.
Proof. auto. Qed.

Lemma wp_modify (f : S -> S) Q s : Q (Returns tt) (f s) -> wp (modify f) Q s.
Proof. auto. Qed.

Lemma wp_answer {A} (o : outcome A) Q s : Q o s -> wp (answer o) Q s.
Proof. auto. Qed.

Lemma wp_bind {A B} (m : M S A) (k : A -> M S B) Q s :
  wp m (and_then k Q) s -> wp (x <- m ;; k x) Q s.
Proof.
  unfold wp, bind, and_then. destruct (m s) as [[a|e] s']; auto.
Qed.

Lemma wp_try_except {A} (m : M S A) (h : pystr -> M S A) Q s :
  wp m (fun r s' =>
          match r with
          | Raises (Exception what) => wp (h what) Q s'
          | _ => Q r s'
          end) s ->
  wp (try_except m h) Q s.
Proof.
  unfold wp, try_except. destruct (m s) as [[a|[what|]] s']; auto.
Qed.

Lemma wp_try_finally {A} (m : M S A) (f : M S unit) Q s :
  wp m (fun r s' =>
          wp f (fun r' s'' =>
                  match r' with
                  | Returns _ => Q r s''
                  | Raises e => Q (Raises e) s''
                  end) s') s ->
  wp (try_finally m f) Q s.
Proof.
  unfold wp, try_finally. destruct (m s) as [r s'].
  destruct (f s') as [[u|e] s'']; auto.
Qed.

Lemma wp_lift {F A} (m : M S A) (Q : outcome A -> F * S -> Prop) (fr : F) s :
  wp m (fun r s' => Q r (fr, s')) s -> wp (lift m) Q (fr, s).
Proof. unfold wp, lift. cbn. destruct (m s). auto. Qed.

Lemma wp_for_each {X} (xs : list X) (body : X -> M S unit)
    (I : S -> Prop) (E : exn -> S -> Prop) s :
  I s ->
  (forall x s0, In x xs -> I s0 -> wp (body x) (loop_post I E) s0) ->
  wp (for_each xs body) (loop_post I E) s.
Proof.
  revert s. induction xs as [|x xs IH]; intros s Hs Hbody.
  - exact Hs.
  - cbn [for_each]. apply wp_bind.
    eapply wp_mono; [apply Hbody; [now left | exact Hs]|].
    intros [[]|e] s' Hs'; cbn; [|exact Hs'].
    apply IH; [exact Hs'|]. intros y s0 Hy. apply Hbody. now right.
Qed.

End Rules.

(** * Rules for the primitive effects *)

Section PrimitiveRules.

Context (env : Env).
Implicit Types (st : State) (Q : outcome unit -> State -> Prop).

Lemma wp_emit e Q st :
  Q (Returns tt) (set_world (log_event e) st) -> wp (emit e) Q st.
Proof. auto. Qed.

Lemma wp_print line Q st :
  Q (Returns tt) (set_world (log_event (Print line)) st) -> wp (print line) Q st.
Proof. auto. Qed.

Lemma wp_call {A} c (o : outcome A) (Q : outcome A -> State -> Prop) st :
  Q o (set_world (log_event (Call c)) st) -> wp (call c o) Q st.
Proof. unfold call. intros H. apply wp_bind, wp_emit. exact H. Qed.

Lemma wp_now (Q : outcome pystr -> State -> Prop) st :
  Q (Returns (now_isoformat env (clock_reads (world st))))
    (set_world tick_clock st) ->
  wp (datetime_now_isoformat env) Q st.
Proof. auto. Qed.

Lemma wp_encode text (Q : outcome pybytes -> State -> Prop) st :
  match utf8_encode text with
  | Some data => Q (Returns data) st
  | None => Q (Raises (Exception (utf8_error_message text))) st
  end ->
  wp (encode text) Q st.
Proof. unfold encode. destruct (utf8_encode text); auto. Qed.

Lemma wp_open_for_writing path Q st :
  match open_w env path with
  | Some what => Q (Raises (Exception what)) st
  | None => Q (Returns tt) (set_world (store path (Bytes [])) st)
  end ->
  wp (open_for_writing env path) Q st.
Proof. unfold open_for_writing. destruct (open_w env path); auto. Qed.

Lemma logged_logged a b st : logged b (logged a st) = logged (a ++ b) st.
Proof.
  destruct st as [o [f t c l]]. unfold logged, set_world. cbn.
  by rewrite app_assoc.
Qed.

Lemma log_event_logged e st : set_world (log_event e) st = logged [e] st.
Proof. reflexivity. Qed.

Lemma observe_requests rqs st :
  for_each rqs (fun rq => for_each [handle_request] (fun handler => handler rq)) st
  = (Returns tt,
     logged (map (fun rq => Print (NetworkRequest (rq_method rq) (rq_url rq)))
                 rqs) st).
Proof.
  revert st. induction rqs as [|rq rqs IH]; intros st.
  - destruct st as [o [f t c l]]. unfold logged, set_world. cbn.
    by rewrite app_nil_r.
  - cbn [for_each map]. unfold bind at 1. unfold bind at 1. cbn.
    rewrite IH. f_equal. by rewrite log_event_logged, logged_logged.
Qed.

(** Loading an observed page: the call, one line per request, then the
    scripted answer. *)
Lemma goto_observed p url st :
  page_goto (observed p) url st
  = (pg_goto p, logged (Call (Goto (pg_id p) url) :: request_lines p) st).
Proof.
  unfold page_goto, observed. cbn.
  unfold bind at 1. cbn. unfold bind at 1. rewrite observe_requests.
  unfold answer. f_equal. by rewrite log_event_logged, logged_logged.
Qed.

Lemma wp_goto p url (Q : outcome (option Response) -> State -> Prop) st :
  Q (pg_goto p) (logged (Call (Goto (pg_id p) url) :: request_lines p) st) ->
  wp (page_goto (observed p) url) Q st.
Proof. unfold wp. by rewrite goto_observed. Qed.

End PrimitiveRules.

(** Case analysis on [x], unless the context already says what it is. *)
Ltac case_on x :=
  first
    [ match goal with H : x = _ |- _ => rewrite H end
    | lazymatch type of x with
      | outcome _ => destruct x as [?|[?|]] eqn:?
      | _ => destruct x eqn:?
      end ].

(** One step of symbolic execution of a [wp] goal. *)
Ltac wp_step :=
  lazymatch goal with
  | |- wp (bind _ _) _ _ => apply wp_bind
  | |- wp (ret _) _ _ => apply wp_ret
  | |- wp (raise _) _ _ => apply wp_raise
  | |- wp (gets _) _ _ => apply wp_gets
  | |- wp (modify _) _ _ => apply wp_modify
  | |- wp (answer _) _ _ => apply wp_answer
  | |- wp (print _) _ _ => apply wp_print
  | |- wp (emit _) _ _ => apply wp_emit
  | |- wp (call _ _) _ _ => apply wp_call
  | |- wp (datetime_now_isoformat _) _ _ => apply wp_now
  | |- wp (encode _) _ _ => apply wp_encode
  | |- wp (open_for_writing _ _) _ _ => apply wp_open_for_writing
  | |- wp (page_goto (observed _) _) _ _ => apply wp_goto
  | |- wp (try_except _ _) _ _ => apply wp_try_except
  | |- wp (try_finally _ _) _ _ => apply wp_try_finally
  | |- wp (lift _) _ (_, _) => apply wp_lift
  | |- wp (if ?b then _ else _) _ _ => case_on b
  | |- wp (match ?x with _ => _ end) _ _ => case_on x
  | |- and_then _ _ (Returns _) _ => unfold and_then at 1
  | |- and_then _ _ (Raises _) _ => unfold and_then at 1
  | |- and_then _ _ ?o _ => case_on o
  | |- match ?x with _ => _ end => case_on x
  end;
  cbn [negb self world set_world set_self logged fst snd].


(** * Facts about the runtime model *)

Section PathFacts.

Import Pathlib.

Lemma hex_digit_above n : (48 <= Hashlib.hex_digit n)%N.
Proof. unfold Hashlib.hex_digit. destruct (n <? 10)%N; lia. Qed.

Lemma parse_anchor_head c s : c <> slash -> parse_anchor (c :: s) = [].
Proof.
  intros Hc. apply N.eqb_neq in Hc.
  destruct s as [|b [|d s]]; cbn; by rewrite Hc.
Qed.

(** A name that starts with a hex digest and an underscore starts with
    neither a slash nor a dot. *)
Lemma digest_name_head d rest :
  exists c s, Hashlib.hexdigest d ++ 95%N :: rest = c :: s
              /\ c <> slash /\ c <> dot.
Proof.
  destruct d as [|b d]; cbn.
  - exists 95%N, rest. repeat split; unfold slash, dot; lia.
  - eexists _, _. split; [reflexivity|].
    pose proof (hex_digit_above (Byte.to_N b / 16)).
    unfold slash, dot. lia.
Qed.

Lemma joinpath_unanchored p s :
  anchor (of_str s) = [] ->
  p </> s = {| anchor := anchor p; parts := parts p ++ parts (of_str s) |}.
Proof. unfold joinpath. by intros ->. Qed.

Lemma strip_prefix_app pre rest : strip_prefix pre (pre ++ rest) = Some rest.
Proof.
  induction pre as [|x pre IH]; cbn; [done|].
  by rewrite decide_True.
Qed.

Lemma relative_to_extension a pre rest :
  relative_to {| anchor := a; parts := pre ++ rest |}
              {| anchor := a; parts := pre |}
  = Some {| anchor := []; parts := rest |}.
Proof.
  unfold relative_to. cbn. rewrite decide_True by done.
  by rewrite strip_prefix_app.
Qed.

(** The components of [s] when it holds no slash. *)
Lemma split_slash_plain s : slash ∉ s -> split_slash s = [s].
Proof.
  induction s as [|c s IH]; intros Hs; [done|].
  cbn. apply not_elem_of_cons in Hs as [Hc Hs].
  destruct (N.eqb_spec c slash) as [->|_]; [done|].
  by rewrite IH.
Qed.

(** The first component of a string that starts with neither a slash nor
    a dot is kept, and starts the same. *)
Lemma split_slash_head c s :
  c <> slash ->
  exists seg segs, split_slash (c :: s) = (c :: seg) :: segs.
Proof.
  intros Hc. cbn. destruct (N.eqb_spec c slash) as [|_]; [done|].
  destruct (split_slash s) as [|seg segs]; eauto.
Qed.

Lemma parts_head c s :
  c <> slash -> c <> dot ->
  exists seg segs, parts (of_str (c :: s)) = (c :: seg) :: segs.
Proof.
  intros Hc Hd. destruct (split_slash_head c s Hc) as (seg & segs & E).
  unfold of_str. cbn [parts]. rewrite E.
  exists seg, (filter kept segs).
  apply filter_cons_True.
  destruct seg; cbn; [|done].
  apply N.eqb_neq in Hd. by rewrite Hd.
Qed.

Lemma join_slash_app pre x rest :
  join_slash (pre ++ x :: rest) = lead pre ++ join_slash (x :: rest).
Proof.
  induction pre as [|seg pre IH]; [done|].
  cbn [app lead flat_map]. rewrite <- app_assoc. cbn [app].
  change (flat_map _ pre) with (lead pre). rewrite <- IH.
  destruct (pre ++ x :: rest) eqn:E; [by destruct pre|].
  by rewrite <- app_assoc.
Qed.

Lemma to_str_app a pre x rest :
  to_str {| anchor := a; parts := pre ++ x :: rest |}
  = a ++ lead pre ++ join_slash (x :: rest).
Proof.
  unfold to_str. cbn [anchor parts].
  destruct (pre ++ x :: rest) eqn:E; [by destruct pre|].
  rewrite <- E, join_slash_app. by destruct a.
Qed.

(** Two paths that part ways at components with different first
    characters have different names. *)
Lemma to_str_diverge a pre c1 s1 r1 c2 s2 r2 :
  c1 <> c2 ->
  to_str {| anchor := a; parts := pre ++ (c1 :: s1) :: r1 |}
  <> to_str {| anchor := a; parts := pre ++ (c2 :: s2) :: r2 |}.
Proof.
  intros Hc. rewrite !to_str_app. intros E.
  apply app_inv_head, app_inv_head in E.
  destruct r1, r2; cbn in E; congruence.
Qed.

(** *** The artifact paths of a capture *)

Lemma digest_name_unanchored d label suffix :
  anchor (of_str (Hashlib.hexdigest d ++ py "_" ++ label ++ suffix)) = [].
Proof.
  destruct (digest_name_head d (label ++ suffix)) as (c & s & E & Hc & _).
  change (py "_" ++ label ++ suffix) with (95%N :: label ++ suffix).
  rewrite E. by apply parse_anchor_head.
Qed.

Lemma artifact_path out dir d label suffix :
  of_str dir = {| anchor := []; parts := [dir] |} ->
  out </> dir </> (Hashlib.hexdigest d ++ py "_" ++ label ++ suffix)
  = {| anchor := anchor out;
       parts := parts out
                ++ dir :: parts (of_str (Hashlib.hexdigest d ++ py "_"
                                           ++ label ++ suffix)) |}.
Proof.
  intros Hdir.
  rewrite (joinpath_unanchored (out </> dir)) by apply digest_name_unanchored.
  rewrite (joinpath_unanchored out) by by rewrite Hdir.
  rewrite Hdir. cbn [anchor parts]. by rewrite <- app_assoc.
Qed.

Lemma artifact_relative out dir d label suffix :
  of_str dir = {| anchor := []; parts := [dir] |} ->
  relative_to (out </> dir </> (Hashlib.hexdigest d ++ py "_" ++ label ++ suffix))
              out
  = Some (of_str dir </> (Hashlib.hexdigest d ++ py "_" ++ label ++ suffix)).
Proof.
  intros Hdir. rewrite artifact_path by done.
  rewrite (joinpath_unanchored (of_str dir)) by apply digest_name_unanchored.
  rewrite Hdir. cbn [anchor parts app].
  destruct out as [a pre]. apply relative_to_extension.
Qed.

(** Artifacts in directories that start with different characters are
    different files. *)
Lemma artifact_distinct out c1 dir1 c2 dir2 d1 l1 s1 d2 l2 s2 :
  of_str (c1 :: dir1) = {| anchor := []; parts := [c1 :: dir1] |} ->
  of_str (c2 :: dir2) = {| anchor := []; parts := [c2 :: dir2] |} ->
  c1 <> c2 ->
  to_str (out </> (c1 :: dir1) </> (Hashlib.hexdigest d1 ++ py "_" ++ l1 ++ s1))
  <> to_str (out </> (c2 :: dir2) </> (Hashlib.hexdigest d2 ++ py "_" ++ l2 ++ s2)).
Proof.
  intros H1 H2 Hc. rewrite !artifact_path by done. by apply to_str_diverge.
Qed.

(** With no slash in the label the relative name is the plain
    concatenation. *)
Lemma hexdigest_plain d : slash ∉ Hashlib.hexdigest d.
Proof.
  induction d as [|b d IH]; [apply not_elem_of_nil|].
  cbn. rewrite !not_elem_of_cons. repeat split; [| |exact IH].
  - pose proof (hex_digit_above (Byte.to_N b / 16)). unfold slash. lia.
  - pose proof (hex_digit_above (Byte.to_N b mod 16)). unfold slash. lia.
Qed.

Lemma artifact_relative_plain dir d label suffix :
  of_str dir = {| anchor := []; parts := [dir] |} ->
  slash ∉ label -> slash ∉ suffix ->
  to_str (of_str dir </> (Hashlib.hexdigest d ++ py "_" ++ label ++ suffix))
  = dir ++ py "/" ++ Hashlib.hexdigest d ++ py "_" ++ label ++ suffix.
Proof.
  intros Hdir Hl Hs.
  rewrite (joinpath_unanchored (of_str dir)) by apply digest_name_unanchored.
  rewrite Hdir. cbn [anchor parts app].
  set (name := Hashlib.hexdigest d ++ py "_" ++ label ++ suffix).
  assert (split_slash name = [name]) as E.
  { apply split_slash_plain. unfold name. rewrite !not_elem_of_app.
    repeat split; auto using hexdigest_plain.
    change (py "_") with [95%N].
    rewrite not_elem_of_cons. split; [unfold slash; lia|apply not_elem_of_nil]. }
  assert (parts (of_str name) = [name]) as ->.
  { unfold of_str. cbn [parts]. rewrite E.
    change [name] with (name :: filter (fun seg => kept seg) []) at 2.
    apply filter_cons_True.
    destruct (digest_name_head d (label ++ suffix)) as (c & s & E' & _ & Hd).
    unfold name. change (py "_" ++ label ++ suffix) with (95%N :: label ++ suffix).
    rewrite E'. destruct s; cbn; [|done].
    apply N.eqb_neq in Hd. by rewrite Hd. }
  reflexivity.
Qed.

(** *** The manifest and the report *)

Lemma metadata_file_parts o :
  exists rest,
    metadata_file o
    = {| anchor := anchor (output_dir o);
         parts := parts (output_dir o) ++ py "metadata" :: rest |}.
Proof.
  unfold metadata_file.
  exists (parts (of_str (py "session_" ++ session_id o ++ py ".json"))).
  rewrite (joinpath_unanchored (_ </> _)) by done.
  rewrite (joinpath_unanchored (output_dir o)) by done.
  cbn [anchor parts]. by rewrite <- app_assoc.
Qed.

Lemma report_file_parts o :
  exists seg rest,
    report_file o
    = {| anchor := anchor (output_dir o);
         parts := parts (output_dir o) ++ (102%N :: seg) :: rest |}.
Proof.
  unfold report_file.
  change (py "forensic_report_" ++ session_id o ++ py ".txt")
    with (102%N :: (py "orensic_report_" ++ session_id o ++ py ".txt")).
  destruct (parts_head 102%N (py "orensic_report_" ++ session_id o ++ py ".txt"))
    as (seg & rest & E); [done..|].
  exists seg, rest.
  rewrite joinpath_unanchored by by apply parse_anchor_head.
  by rewrite E.
Qed.

Lemma report_not_manifest o :
  to_str (report_file o) <> to_str (metadata_file o).
Proof.
  destruct (report_file_parts o) as (seg & rest & ->).
  destruct (metadata_file_parts o) as (rest' & ->).
  by apply to_str_diverge.
Qed.

End PathFacts.

Section Utf8Facts.

Local Open Scope N_scope.

Lemma byte_of_to_N n : n < 256 -> Byte.to_N (byte_of n) = n.
Proof.
  intros Hn. unfold byte_of. destruct (Byte.of_N n) as [b|] eqn:E.
  - by apply Byte.to_of_N.
  - apply Byte.of_N_None_iff in E. lia.
Qed.

Lemma byte_of_inj n m : n < 256 -> m < 256 -> byte_of n = byte_of m -> n = m.
Proof.
  intros Hn Hm E. apply (f_equal Byte.to_N) in E.
  by rewrite !byte_of_to_N in E.
Qed.

(** The base-64 digits of a code point, as the encoder takes them. *)
Lemma utf8_digits c :
  exists d0 d1 d2 q,
    c mod 0x40 = d0 /\ (c / 0x40) mod 0x40 = d1 /\ (c / 0x1000) mod 0x40 = d2
    /\ c / 0x40000 = q
    /\ c / 0x40 = 0x40 * (c / 0x1000) + d1
    /\ c / 0x1000 = 0x40 * q + d2
    /\ c = 0x40 * (c / 0x40) + d0
    /\ d0 < 0x40 /\ d1 < 0x40 /\ d2 < 0x40.
Proof.
  exists (c mod 0x40), ((c / 0x40) mod 0x40), ((c / 0x1000) mod 0x40),
         (c / 0x40000).
  change 0x1000 with (0x40 * 0x40). change 0x40000 with (0x40 * 0x40 * 0x40).
  rewrite <- !N.Div0.div_div.
  repeat split; try (apply N.mod_lt; lia); apply N.div_mod; lia.
Qed.

(** UTF-8 is a prefix code: the first code point of a byte sequence is
    determined by it. *)
Lemma utf8_encode_char_prefix c1 c2 b1 b2 r1 r2 :
  utf8_encode_char c1 = Some b1 ->
  utf8_encode_char c2 = Some b2 ->
  b1 ++ r1 = b2 ++ r2 ->
  c1 = c2.
Proof.
  unfold utf8_encode_char.
  destruct (utf8_digits c1)
    as (x0 & x1 & x2 & x3 & -> & -> & -> & -> & Hx1 & Hx2 & Hx0 & ? & ? & ?).
  destruct (utf8_digits c2)
    as (y0 & y1 & y2 & y3 & -> & -> & -> & -> & Hy1 & Hy2 & Hy0 & ? & ? & ?).
  generalize dependent (c1 / 0x1000). generalize dependent (c1 / 0x40).
  generalize dependent (c2 / 0x1000). generalize dependent (c2 / 0x40).
  intros.
  repeat case_match; simplify_eq/=.
  all: repeat match goal with
       | H : (_ <? _) = true |- _ => apply N.ltb_lt in H
       | H : (_ <? _) = false |- _ => apply N.ltb_ge in H
       | H : _ && _ = false |- _ => clear H
       end.
  all: repeat match goal with
       | H : byte_of _ = byte_of _ |- _ => apply byte_of_inj in H; [|lia..]
       end.
  all: lia.
Qed.

Lemma utf8_encode_char_nonempty c data :
  utf8_encode_char c = Some data -> data <> [].
Proof. unfold utf8_encode_char. repeat case_match; by intros [= <-]. Qed.

(** Distinct strings have distinct encodings. *)
Lemma utf8_encode_inj s1 : forall s2 data,
  utf8_encode s1 = Some data -> utf8_encode s2 = Some data -> s1 = s2.
Proof.
  induction s1 as [|c1 s1 IH]; intros [|c2 s2] data; cbn.
  - done.
  - intros [= <-]. destruct (utf8_encode_char c2) as [b|] eqn:E; [|done].
    destruct (utf8_encode s2); [|done]. intros [= H].
    apply utf8_encode_char_nonempty in E. by destruct b.
  - destruct (utf8_encode_char c1) as [b|] eqn:E; [|done].
    destruct (utf8_encode s1); [|done]. intros [= <-] [= H].
    apply utf8_encode_char_nonempty in E. by destruct b.
  - destruct (utf8_encode_char c1) as [b1|] eqn:E1; [|done].
    destruct (utf8_encode s1) as [d1|] eqn:D1; [|done].
    destruct (utf8_encode_char c2) as [b2|] eqn:E2; [|done].
    destruct (utf8_encode s2) as [d2|] eqn:D2; [|done].
    intros [= <-] [= H].
    assert (c2 = c1) as -> by eauto using utf8_encode_char_prefix.
    rewrite E1 in E2. injection E2 as <-. apply app_inv_head in H as ->.
    f_equal. eauto.
Qed.

End Utf8Facts.


(** * What the methods do *)

(** A trace that grew: name what was added. *)
Ltac solve_extends :=
  unfold extends; cbn;
  first [ by exists []; rewrite app_nil_r
        | eexists; rewrite <- ?app_assoc; reflexivity ].

(** Files written at artifact paths leave the other paths alone. *)
Ltac solve_writes :=
  intros ? ?; cbn;
  repeat (rewrite lookup_insert_ne;
          [|intros <-;
            match goal with H : ~ is_artifact _ _ |- _ => apply H end;
            unfold is_artifact, html_file, screenshot_file, network_file,
              md5_hexdigest, artifact_dirs;
            eexists _, _, _, _; split; [|reflexivity]; set_solver]);
  reflexivity.

Ltac solve_extends' :=
  unfold extends; cbn;
  first [ by instantiate (1 := []); rewrite app_nil_r
        | rewrite <- ?app_assoc; reflexivity ].

Section CaptureSpec.

Context (env : Env).

Lemma html_file_relative out key label_ :
  Pathlib.relative_to (html_file out (md5_hexdigest key) label_) out
  = Some (Pathlib.of_str (py "html_dumps")
            </> (md5_hexdigest key ++ py "_" ++ label_ ++ py ".html")).
Proof. by apply artifact_relative. Qed.

Lemma screenshot_file_relative out key label_ :
  Pathlib.relative_to (screenshot_file out (md5_hexdigest key) label_) out
  = Some (Pathlib.of_str (py "screenshots")
            </> (md5_hexdigest key ++ py "_" ++ label_ ++ py ".png")).
Proof. by apply artifact_relative. Qed.

Lemma network_file_relative out key label_ :
  Pathlib.relative_to (network_file out (md5_hexdigest key) label_) out
  = Some (Pathlib.of_str (py "network_logs")
            </> (md5_hexdigest key ++ py "_" ++ label_ ++ py "_network.json")).
Proof. by apply artifact_relative. Qed.

Ltac wp_unfold :=
  unfold capture_page_data, navigate, settle, persist, write_text, json_dump,
    page_screenshot, relative_str;
  change (page_of (observed ?p)) with p.

Lemma capture_page_data_spec p url label_ st :
  wp (capture_page_data env (observed p) url label_)
     (capture_post env p url label_ st) st.
Proof.
  wp_unfold.
  repeat first
    [ rewrite html_file_relative | rewrite screenshot_file_relative
    | rewrite network_file_relative | wp_step ].
  all: split; [reflexivity|split; [reflexivity|split; [|split; [|split]]]];
    try exact I.
  all: try solve_extends.
  all: try solve_writes.
  all: try (unfold calm_page, uninterrupted; naive_solver).
  all: try (split; [reflexivity|]).
  all: try (left; unfold navigation_fails; by eauto).
  all: try (right; eexists _, _; repeat split; eauto;
            [by eexists|by apply Z.ltb_lt]).
  all: unfold captured; eexists _, _, _, _, _; repeat split; eauto;
    [by eexists|by apply Z.ltb_ge|cbn; by rewrite !insert_insert_eq].
Qed.

End CaptureSpec.

(** ** One turn of the loop over the target URLs *)

(** Rewriting with what the case analysis found of the environment. *)
Ltac use_oracle :=
  repeat match goal with
  | H : async_playwright_start _ _ = _
    |- context [async_playwright_start _ _] => rewrite H
  | H : pw_launch _ = _ |- context [pw_launch _] => rewrite H
  | H : br_new_page _ = _ |- context [br_new_page _] => rewrite H
  | H : capture_page_data _ _ _ _ _ = _
    |- context [capture_page_data _ _ _ _ _] => rewrite H
  end.

Section VisitSpec.

Context (env : Env).

Lemma same_settings_refl o : same_settings o o.
Proof. by repeat split. Qed.

Lemma same_settings_trans o1 o2 o3 :
  same_settings o1 o2 -> same_settings o2 o3 -> same_settings o1 o3.
Proof. unfold same_settings. intros H1 H2. naive_solver congruence. Qed.

(** Running [capture_page_data]: the run itself and what is known of it. *)
Lemma wp_capture p url label_ (Q : outcome (option CaptureData) -> State -> Prop) st :
  (forall r st',
     capture_page_data env (observed p) url label_ st = (r, st') ->
     capture_post env p url label_ st r st' -> Q r st') ->
  wp (capture_page_data env (observed p) url label_) Q st.
Proof.
  intros H. apply wp_all. intros r st' Hrun. apply H; [done|].
  eapply wp_run; [exact Hrun|apply capture_page_data_spec].
Qed.

Lemma calm_chain n :
  calm env ->
  uninterrupted (async_playwright_start env n)
  /\ forall pw, async_playwright_start env n = Returns pw ->
      uninterrupted (pw_launch pw) /\ uninterrupted (pw_stop pw)
      /\ forall b, pw_launch pw = Returns b ->
          uninterrupted (br_new_page b) /\ uninterrupted (br_close b)
          /\ forall p, br_new_page b = Returns p -> calm_page p.
Proof.
  intros Hcalm. destruct (Hcalm n) as [Hstart Hpw]. split; [done|].
  intros pw Hpw'. destruct (Hpw pw Hpw') as (Hlaunch & Hstop & Hb).
  split; [done|]. split; [done|].
  intros b Hb'. apply (Hb b Hb').
Qed.

Lemma attempt_spec label_ url fr st :
  fr_browser fr = None -> fr_page fr = None ->
  wp (attempt env label_ url) (attempt_post env label_ url fr st) (fr, st).
Proof.
  intros Hb Hp. unfold attempt, setup_browser, set_frame.
  repeat wp_step.
  1: { apply wp_capture.
       intros r st2 Hrun
         (Hself & Hlaunch & [evs Hevs] & Hwrites & Hcalm & Hr).
       unfold extends in Hevs. cbn in Hself, Hlaunch, Hevs.
       destruct r as [[c|]|[what|]]; repeat wp_step.
       all: unfold attempt_post, manifest, yield, enter, opened, launched,
              started; use_oracle; cbn; rewrite ?Hself, ?Hlaunch; cbn.
       all: repeat split; rewrite ?app_nil_r; try done.
       all: try (unfold extends; cbn; rewrite Hevs; solve_extends).
       all: try (intros path Hpath; cbn; by rewrite Hwrites).
       all: intros Hc; destruct (calm_chain (launches (world st)) Hc)
              as (_ & Hpw); unfold calm_page, uninterrupted in *;
            naive_solver. }
  all: unfold attempt_post, manifest, yield, enter, opened, launched, started;
    use_oracle; cbn.
  all: repeat split; rewrite ?app_nil_r; try done; try solve_extends.
  all: intros Hc; destruct (calm_chain (launches (world st)) Hc)
         as (? & Hpw); unfold uninterrupted in *; naive_solver.
Qed.

Lemma teardown_spec fr st :
  wp teardown (teardown_post fr st) (fr, st).
Proof.
  unfold teardown, quietly.
  repeat wp_step.
  all: repeat match goal with u : () |- _ => destruct u end.
  all: unfold teardown_post, closes_quietly; cbn.
  all: split; [by auto|].
  all: split; [try done; try naive_solver|].
  all: do 4 (split; [reflexivity|]).
  all: eexists; split; [solve_extends'|].
  all: repeat split; intros; simplify_eq;
    rewrite ?elem_of_app, ?elem_of_cons; naive_solver.
Qed.

Lemma visit_spec label_ url fr st :
  wp (visit env label_ url) (visit_post env label_ url fr st) (fr, st).
Proof.
  unfold visit, set_frame. repeat wp_step.
  change (assign_page None (assign_browser None fr)) with (reset fr).
  eapply wp_use; [by apply attempt_spec|].
  intros r [fr1 st1] Hattempt
    (Hlaunch & Hsame & Hmanifest & Hcaptures & Hbrowser & Hpage & Hpw
     & Hwrites & _ & evs1 & Hevs1).
  cbn [fst snd] in *.
  assert (forall r' r'' fr2 st2 st1' evs,
            (r' = Returns tt \/ r' = Raises Interrupt) ->
            self st1' = self st1 ->
            launches (world st1') = launches (world st1) ->
            fs (world st1') = fs (world st1) ->
            extends st1 st1' evs ->
            (forall what, r = Raises (Exception what) ->
               Print (ErrorCaptureFailed url what) ∈ evs) ->
            teardown_post fr1 st1' r'' (fr2, st2) ->
            visit_post env label_ url fr st r' (fr2, st2)) as Hfinish.
  { intros r' r'' fr2 st2 st1' evs Hr' Hself' Hlaunch' Hfs' Hevs Herr Hpost.
    unfold teardown_post in Hpost. cbn [fst snd] in Hpost.
    destruct Hpost
      as (_ & _ & -> & Hself2 & Hlaunch2 & Hfs2 & evs2 & Hevs2 & Hclose).
    unfold visit_post. cbn [fst snd] in *.
    rewrite Hself' in *.
    split; [done|]. split; [congruence|].
    split; [by rewrite Hself2|].
    split; [unfold manifest in *; by rewrite Hself2|].
    split; [done|]. split; [by rewrite Hself2|].
    split; [intros path Hpath; rewrite Hfs2, Hfs'; by apply Hwrites|].
    exists (evs1 ++ evs ++ evs2). split.
    { unfold extends in *. rewrite Hevs2, Hevs, Hevs1.
      by rewrite <- !app_assoc. }
    rewrite Hattempt. cbn [fst].
    destruct Hclose as (Hp & Hb & Hs).
    repeat split.
    - intros what ->. rewrite !elem_of_app. auto.
    - intros p Hopen. rewrite !elem_of_app. right. right.
      apply (Hp (observed p)). by rewrite Hpage, Hopen.
    - intros b Hb' Hquiet. rewrite !elem_of_app. right. right.
      apply Hb; [congruence|].
      intros p. rewrite Hpage. destruct (opened env st); [|done].
      intros [= <-]. by apply Hquiet.
    - intros pw Hstart Hquiet Hquiet'. rewrite !elem_of_app. right. right.
      apply Hs.
      + by rewrite Hpw, Hstart.
      + intros p. rewrite Hpage. destruct (opened env st); [|done].
        intros [= <-]. by apply Hquiet.
      + intros b. rewrite Hbrowser. auto. }
  assert (forall r' (fs2 : Frame * State) st1',
            teardown_post fr1 st1' r' fs2 ->
            match r' with
            | Returns _ => True
            | Raises e => e = Interrupt
            end) as Hquiet.
  { intros [[]|e] fs2 st1' ([|[= ->]] & _); done. }
  destruct r as [[]|[what|]]; cbv beta iota.
  - eapply wp_use; [apply teardown_spec|].
    intros r' [fr2 st2] _ Hpost. pose proof (Hquiet _ _ _ Hpost) as Hr'.
    assert (visit_post env label_ url fr st r' (fr2, st2)) as Hvisit.
    { apply (Hfinish r' r' fr2 st2 st1 []);
        [apply Hpost|done|done|done|unfold extends; by rewrite app_nil_r
        |done|done]. }
    destruct r' as [[]|e]; [done|by subst e].
  - repeat wp_step.
    eapply wp_use; [apply teardown_spec|].
    intros r' [fr2 st2] _ Hpost. pose proof (Hquiet _ _ _ Hpost) as Hr'.
    assert (visit_post env label_ url fr st r' (fr2, st2)) as Hvisit.
    { apply (Hfinish r' r' fr2 st2
               (set_world (log_event (Print (ErrorCaptureFailed url what))) st1)
               [Print (ErrorCaptureFailed url what)]);
        [apply Hpost|done|done|done|done| |done].
      intros ? [= <-]. by apply list_elem_of_singleton. }
    destruct r' as [[]|e]; [done|by subst e].
  - eapply wp_use; [apply teardown_spec|].
    intros r' [fr2 st2] _ Hpost. pose proof (Hquiet _ _ _ Hpost) as Hr'.
    assert (visit_post env label_ url fr st (Raises Interrupt) (fr2, st2)) as Hvisit.
    { apply (Hfinish _ r' fr2 st2 st1 []);
        [by right|done|done|done|unfold extends; by rewrite app_nil_r
        |done|done]. }
    destruct r' as [[]|e]; [done|by subst e].
Qed.

(** With no interrupt a turn always runs to its end. *)
Lemma visit_calm label_ url fr st :
  calm env -> stops_quietly st ->
  wp (visit env label_ url)
     (fun r fs' => r = Returns tt /\ stops_quietly (snd fs')) (fr, st).
Proof.
  intros Hcalm Hstop.
  destruct (calm_chain (launches (world st)) Hcalm) as (Hstart & Hchain).
  assert (wp (visit env label_ url) (fun r _ => r = Returns tt) (fr, st))
    as Hreturns.
  { unfold visit, set_frame. repeat wp_step.
    change (assign_page None (assign_browser None fr)) with (reset fr).
    eapply wp_use; [by apply attempt_spec|].
    intros r [fr1 st1] _
      (_ & _ & _ & _ & Hbrowser & Hpage & Hpw & _ & Hr & _).
    cbn [fst snd] in *. specialize (Hr Hcalm).
    assert (closes_quietly fr1 (self st1)) as Hquiet.
    { unfold closes_quietly, opened, launched, started in *.
      rewrite Hbrowser, Hpage, Hpw.
      destruct (async_playwright_start env (launches (world st)))
        as [pw|e] eqn:Epw; cbn.
      - destruct (Hchain pw eq_refl) as (Hlaunch & Hstop' & Hb).
        destruct (pw_launch pw) as [b|e] eqn:Eb; cbn.
        + destruct (Hb b eq_refl) as (Hnew & Hclose & Hp).
          destruct (br_new_page b) as [p|e] eqn:Ep; cbn.
          * destruct (Hp p eq_refl) as (_ & _ & _ & _ & _ & _ & _ & Hpc).
            repeat split; intros ? [= <-]; done.
          * repeat split; try done; intros ? [= <-]; done.
        + repeat split; try done; intros ? [= <-]; done.
      - repeat split; try done. }
    destruct r as [[]|[what|]]; cbv beta iota; [| |done].
    - eapply wp_mono; [apply teardown_spec|].
      intros r' fs2 (_ & Hr' & _). rewrite (Hr' Hquiet). done.
    - repeat wp_step. eapply wp_mono; [apply teardown_spec|].
      intros r' fs2 (_ & Hr' & _). rewrite (Hr' Hquiet). done. }
  eapply wp_mono; [exact (wp_and _ _ _ _ Hreturns (visit_spec label_ url fr st))|].
  intros r [fr' st'] (-> & _ & _ & _ & _ & _ & Hpw & _). split; [done|].
  cbn [snd] in *. intros pw. rewrite Hpw. unfold started.
  destruct (async_playwright_start env (launches (world st))) as [pw'|e] eqn:E.
  - intros [= <-]. by destruct (Hchain pw' eq_refl) as (_ & ? & _).
  - apply Hstop.
Qed.

End VisitSpec.

(** ** The loops *)

Section LoopSpec.

Context (env : Env).

Lemma enter_self st p st1 :
  enter env st = Some (p, st1) ->
  exists pw, self st1 = set_playwright pw (self st).
Proof.
  unfold enter. repeat case_match; try done. intros [= <- <-]. by eexists.
Qed.

Lemma yield_sized label_ url st :
  Forall (sized (min_bytes (self st))) (yield env label_ url st).
Proof.
  unfold yield. destruct (enter env st) as [[p st1]|] eqn:Henter; [|done].
  destruct (capture_page_data env (observed p) url label_ st1)
    as [r st2] eqn:Hrun.
  pose proof (wp_run _ _ _ _ _ Hrun (capture_page_data_spec env p url label_ st1))
    as (_ & _ & _ & _ & _ & Hr).
  cbn. destruct r as [[c|]|]; try done.
  apply Forall_cons; split; [|done].
  destruct Hr as (key & html & data & title_ & png & _ & _ & _ & Hdata & _ & _
                  & Hmin & -> & _).
  destruct (enter_self _ _ _ Henter) as [pw Hself]. rewrite Hself in Hmin.
  by exists html, data.
Qed.

Lemma writes_artifacts_trans st1 st2 st3 :
  output_dir (self st2) = output_dir (self st1) ->
  writes_artifacts st1 st2 -> writes_artifacts st2 st3 ->
  writes_artifacts st1 st3.
Proof.
  intros Hout H12 H23 path Hpath.
  rewrite H23 by by rewrite Hout. by apply H12.
Qed.

Lemma grown_refl st : grown st st [].
Proof.
  repeat split; try done. unfold manifest. by rewrite app_nil_r.
Qed.

Lemma grown_trans st1 st2 st3 new1 new2 :
  grown st1 st2 new1 -> grown st2 st3 new2 -> grown st1 st3 (new1 ++ new2).
Proof.
  intros (Hs1 & Hw1 & Hm1 & Hf1) (Hs2 & Hw2 & Hm2 & Hf2).
  split; [by eapply same_settings_trans|].
  split; [eapply writes_artifacts_trans; [apply Hs1|done..]|].
  split; [by rewrite Hm2, Hm1, app_assoc|].
  apply Forall_app. split; [done|].
  destruct Hs1 as (_ & _ & <- & _). done.
Qed.

Lemma visit_grown label_ url fr st :
  wp (visit env label_ url)
     (fun r fs' =>
        grown st (snd fs') (yield env label_ url st)
        /\ fr_captures (fst fs') = fr_captures fr ++ yield env label_ url st
        /\ (r = Returns tt \/ r = Raises Interrupt))
     (fr, st).
Proof.
  eapply wp_mono; [apply visit_spec|].
  intros r [fr' st'] (Hr & _ & Hsame & Hmanifest & Hcaptures & _ & Hwrites & _).
  split; [|done].
  split; [done|]. split; [done|]. split; [done|]. apply yield_sized.
Qed.

Lemma search_and_capture_spec label_ st :
  wp (search_and_capture env label_) (search_post st) st.
Proof.
  unfold wp, search_and_capture.
  set (frame := {| fr_captures := []; fr_browser := None; fr_page := None |}).
  pose proof (wp_for_each target_urls (visit env label_)
    (fun fs' => grown st (snd fs') (fr_captures (fst fs')))
    (fun e fs' => e = Interrupt /\ exists new, grown st (snd fs') new)
    (frame, st)) as Hloop.
  unfold wp in Hloop.
  destruct (for_each target_urls (visit env label_) (frame, st))
    as [r [fr' st']].
  unfold search_post.
  assert (loop_post
            (fun fs' => grown st (snd fs') (fr_captures (fst fs')))
            (fun e fs' => e = Interrupt /\ exists new, grown st (snd fs') new)
            r (fr', st')) as Hpost.
  { apply Hloop; [apply grown_refl|].
    intros url [fr0 st0] _ Hinv. cbn [fst snd] in Hinv.
    eapply wp_mono; [apply visit_grown|].
    intros r0 [fr1 st1] (Hgrown & Hcaptures & Hr0). cbn [fst snd] in *.
    pose proof (grown_trans _ _ _ _ _ Hinv Hgrown) as Hall.
    destruct Hr0 as [->| ->]; cbn.
    - by rewrite Hcaptures.
    - eauto. }
  destruct r as [[]|e]; cbn in Hpost.
  - eauto.
  - destruct Hpost as (-> & new & Hnew). eauto.
Qed.

Lemma search_and_capture_calm label_ st :
  calm env -> stops_quietly st ->
  wp (search_and_capture env label_)
     (fun r st' => (exists captures, r = Returns captures)
                   /\ stops_quietly st') st.
Proof.
  intros Hcalm Hstop. unfold wp, search_and_capture.
  set (frame := {| fr_captures := []; fr_browser := None; fr_page := None |}).
  pose proof (wp_for_each target_urls (visit env label_)
    (fun fs' => stops_quietly (snd fs')) (fun _ _ => False) (frame, st))
    as Hloop.
  unfold wp in Hloop.
  destruct (for_each target_urls (visit env label_) (frame, st))
    as [r [fr' st']].
  assert (loop_post (fun fs' => stops_quietly (snd fs')) (fun _ _ => False)
            r (fr', st')) as Hpost.
  { apply Hloop; [done|].
    intros url [fr0 st0] _ Hinv. cbn [snd] in Hinv.
    eapply wp_mono; [by apply visit_calm|].
    by intros r0 fs1 [-> ?]. }
  destruct r as [[]|e]; [|done]. split; [by eexists|done].
Qed.

(** *** The loop over the labels *)

Lemma grown_logged_r st s new e :
  grown st s new -> grown st (set_world (log_event e) s) new.
Proof. done. Qed.

Lemma grown_logged_l st s new e :
  grown (set_world (log_event e) st) s new -> grown st s new.
Proof. done. Qed.

Lemma process_label_spec label_ all st0 st :
  grown st0 st all ->
  wp (process_label env label_)
     (loop_post
        (fun ls => grown st0 (snd ls) (fst ls))
        (fun e ls => e = Interrupt /\ exists new, grown st0 (snd ls) new))
     (all, st).
Proof.
  intros Hinv. unfold process_label. repeat wp_step.
  eapply wp_use; [apply search_and_capture_spec|].
  intros r st1 _ (new & Hgrown & Hr).
  apply grown_logged_l in Hgrown.
  pose proof (grown_trans _ _ _ _ _ Hinv Hgrown) as Hall.
  destruct r as [captures|e]; cbn.
  - subst captures. repeat wp_step. cbn. by apply grown_logged_r.
  - subst e. eauto.
Qed.

Lemma process_label_calm label_ all st :
  calm env -> stops_quietly st ->
  wp (process_label env label_)
     (fun r ls => r = Returns tt /\ stops_quietly (snd ls)) (all, st).
Proof.
  intros Hcalm Hstop. unfold process_label. repeat wp_step.
  eapply wp_mono; [by apply search_and_capture_calm|].
  intros r st1 [[captures ->] Hstop1]. cbn. by repeat wp_step.
Qed.

Lemma manifest_not_artifact o :
  ~ is_artifact (output_dir o) (Pathlib.to_str (metadata_file o)).
Proof.
  intros (dir & d & l & sfx & Hdir & E).
  destruct (metadata_file_parts o) as (rest & Hm). rewrite Hm in E.
  unfold artifact_dirs in Hdir.
  rewrite !elem_of_cons in Hdir. destruct Hdir as [->|[->|[->|Hdir]]].
  - rewrite artifact_path in E by done. by apply to_str_diverge in E.
  - rewrite artifact_path in E by done. by apply to_str_diverge in E.
  - rewrite artifact_path in E by done. by apply to_str_diverge in E.
  - by apply elem_of_nil in Hdir.
Qed.

End LoopSpec.

(** ** The end of the run *)

Arguments with_lines : simpl never.
Arguments report_lines : simpl never.

Section ReportWrites.

Context (env : Env).

Lemma with_lines_snoc path ls l st :
  with_lines path (ls ++ [l]) st
  = set_world (append_line path l) (with_lines path ls st).
Proof. unfold with_lines. by rewrite fold_left_app. Qed.

Lemma with_lines_self path ls st : self (with_lines path ls st) = self st.
Proof.
  induction ls as [|l ls IH] using rev_ind; [done|].
  by rewrite with_lines_snoc.
Qed.

Lemma with_lines_trace path ls st :
  trace (world (with_lines path ls st)) = trace (world st).
Proof.
  induction ls as [|l ls IH] using rev_ind; [done|].
  by rewrite with_lines_snoc.
Qed.

Lemma with_lines_launches path ls st :
  launches (world (with_lines path ls st)) = launches (world st).
Proof.
  induction ls as [|l ls IH] using rev_ind; [done|].
  by rewrite with_lines_snoc.
Qed.

Lemma with_lines_other path ls st path' :
  path' <> path ->
  fs (world (with_lines path ls st)) !! path' = fs (world st) !! path'.
Proof.
  intros Hne. induction ls as [|l ls IH] using rev_ind; [done|].
  rewrite with_lines_snoc. cbn. by rewrite lookup_insert_ne.
Qed.

Lemma with_lines_written path ls st :
  written (fs (world (with_lines path ls st)) !! path)
  = written (fs (world st) !! path) ++ ls.
Proof.
  induction ls as [|l ls IH] using rev_ind; [by rewrite app_nil_r|].
  rewrite with_lines_snoc. cbn. rewrite lookup_insert_eq. cbn.
  by rewrite IH, app_assoc.
Qed.

(** A report written to the end. *)
Lemma with_lines_report path l ls st :
  written (fs (world st) !! path) = [] ->
  fs (world (with_lines path (l :: ls) st)) !! path = Some (Report (l :: ls)).
Proof.
  intros Hempty.
  destruct (exists_last (l := l :: ls)) as (ls' & l' & E); [done|].
  rewrite E, with_lines_snoc. cbn. rewrite lookup_insert_eq.
  by rewrite with_lines_written, Hempty.
Qed.

(** The loop of the writes: it gets to the end when the codec takes every
    line, and stops at the first line it refuses, with the lines before it
    in the file. *)
Lemma wp_write_lines path ls (Q : outcome unit -> State -> Prop) st :
  (Forall (fun l => locale_codec env l = None) ls ->
   Q (Returns tt) (with_lines path ls st)) ->
  (forall before l after what,
     ls = before ++ l :: after ->
     Forall (fun l => locale_codec env l = None) before ->
     locale_codec env l = Some what ->
     Q (Raises (Exception what)) (with_lines path before st)) ->
  wp (for_each ls (write_line env path)) Q st.
Proof.
  revert st Q. induction ls as [|l ls IH]; intros st Q Hall Hstop.
  - by apply Hall.
  - cbn [for_each]. apply wp_bind. unfold write_line.
    destruct (locale_codec env l) as [what|] eqn:Hl.
    + apply wp_raise. cbn. by apply (Hstop [] l ls what).
    + apply wp_modify. cbn. apply IH.
      * intros Hls. apply Hall. by apply Forall_cons.
      * intros before l' after what -> Hbefore Hl'.
        apply (Hstop (l :: before) l' after what); [done| |done].
        by apply Forall_cons.
Qed.

Lemma report_lines_set_metadata f o :
  md_timestamp (f (capture_metadata o)) = md_timestamp (capture_metadata o) ->
  md_captures (f (capture_metadata o)) = md_captures (capture_metadata o) ->
  report_lines (set_metadata f o) = report_lines o.
Proof.
  intros Ht Hc. unfold report_lines, header_lines. cbn. by rewrite Ht, Hc.
Qed.

End ReportWrites.

(** Symbolic execution through the loop of the writes of the report. *)
Ltac wp_report :=
  repeat first
    [ wp_step
    | lazymatch goal with
      | |- wp (for_each _ (write_line _ _)) _ _ =>
          apply wp_write_lines;
          [intros ?Hall
          |intros ?before ?l ?after ?what ?Hlines ?Hbefore ?Hrefused]
      end ].

Section RunSpec.

Context (env : Env).

Lemma metadata_file_set_metadata f o :
  metadata_file (set_metadata f o) = metadata_file o.
Proof. reflexivity. Qed.

Lemma report_file_set_metadata f o :
  report_file (set_metadata f o) = report_file o.
Proof. reflexivity. Qed.

Lemma finish_spec all st :
  wp (finish env all) (finish_post env all st) st.
Proof.
  unfold finish, json_dump, generate_report. wp_report.
  all: unfold finish_post, serialized, manifest, uninterrupted; cbn.
  all: rewrite ?with_lines_self; cbn.
  all: rewrite ?metadata_file_set_metadata, ?report_file_set_metadata in *.
  all: rewrite ?with_lines_other by (apply not_eq_sym, report_not_manifest).
  all: cbn.
  all: rewrite ?(lookup_insert_ne _ (Pathlib.to_str (report_file _)))
         by apply report_not_manifest.
  all: rewrite ?lookup_insert_eq.
  all: repeat match goal with |- _ /\ _ => split end; try done.
  all: try congruence.
  all: try (by left).
  all: try (by right).
  intros _ _ Hw. exfalso. unfold report_writable in Hw.
  rewrite !report_lines_set_metadata in Hlines by done.
  rewrite Hlines in Hw.
  apply Forall_app in Hw as [_ Hw]. apply Forall_cons in Hw as [Hw _].
  congruence.
Qed.

Lemma run_capture_spec st :
  manifest st = [] ->
  wp (run_capture env) (run_post st) st.
Proof.
  intros Hempty. unfold run_capture. repeat wp_step.
  set (st0 := set_world _ (set_world _ st)).
  pose proof (wp_for_each (labels (self st)) (process_label env)
    (fun ls => grown st0 (snd ls) (fst ls))
    (fun e ls => e = Interrupt /\ exists new, grown st0 (snd ls) new)
    ([], st0)) as Hloop.
  unfold wp in *.
  destruct (for_each (labels (self st)) (process_label env) ([], st0))
    as [r [all st1]].
  assert (loop_post
            (fun ls => grown st0 (snd ls) (fst ls))
            (fun e ls => e = Interrupt /\ exists new, grown st0 (snd ls) new)
            r (all, st1)) as Hpost.
  { apply Hloop; [apply grown_refl|].
    intros label_ [all0 s0] _ Hinv. by apply process_label_spec. }
  clear Hloop.
  assert (forall new, grown st0 st1 new ->
            labels (self st1) = labels (self st)
            /\ output_dir (self st1) = output_dir (self st)
            /\ min_bytes (self st1) = min_bytes (self st)
            /\ session_id (self st1) = session_id (self st)
            /\ manifest st1 = new
            /\ Forall (sized (min_bytes (self st))) new
            /\ fs (world st1) !! Pathlib.to_str (metadata_file (self st))
               = fs (world st) !! Pathlib.to_str (metadata_file (self st)))
    as Hgrown.
  { intros new ((Hl & Ho & Hm & Hs & _) & Hw & Hman & Hsized).
    repeat split; try done.
    - rewrite Hman. unfold manifest in *. cbn. by rewrite Hempty.
    - apply Hw. apply manifest_not_artifact. }
  destruct r as [[]|e]; cbn in Hpost.
  - destruct (Hgrown all Hpost) as (Hl & Ho & Hm & Hs & Hman & Hsized & Hfs).
    pose proof (finish_spec all st1) as Hfinish. unfold wp in Hfinish.
    destruct (finish env all st1) as [r' st2].
    destruct Hfinish as (Hl2 & Ho2 & Hm2 & Hs2 & Hman2 & Hfile & Hdone & _).
    assert (metadata_file (self st1) = metadata_file (self st)) as Hpath.
    { unfold metadata_file. by rewrite Ho, Hs. }
    rewrite Hpath in Hfile. unfold run_post. rewrite Hman2, Hman.
    do 5 (split; [congruence|]). split; [|done].
    destruct Hfile as [Hfile|Hfile]; [left; congruence|by right].
  - destruct Hpost as (-> & new & Hnew).
    destruct (Hgrown new Hnew) as (Hl & Ho & Hm & Hs & Hman & Hsized & Hfs).
    unfold run_post. rewrite Hman.
    do 5 (split; [done|]). split; [by left|done].
Qed.

(** With no interrupt, the manifest and the report writable and every
    line of the report taken by the codec, the run returns. *)
Lemma run_capture_calm st :
  calm env -> stops_quietly st ->
  open_w env (Pathlib.to_str (metadata_file (self st))) = None ->
  open_w env (Pathlib.to_str (report_file (self st))) = None ->
  wp (run_capture env)
     (fun r st' => report_writable env (self st') -> r = Returns tt) st.
Proof.
  intros Hcalm Hstop Hmanifest Hreport. unfold run_capture. repeat wp_step.
  set (st0 := set_world _ (set_world _ st)).
  pose proof (wp_for_each (labels (self st)) (process_label env)
    (fun ls => grown st0 (snd ls) (fst ls) /\ stops_quietly (snd ls))
    (fun _ _ => False) ([], st0)) as Hloop.
  unfold wp in *.
  destruct (for_each (labels (self st)) (process_label env) ([], st0))
    as [r [all st1]].
  assert (loop_post
            (fun ls => grown st0 (snd ls) (fst ls) /\ stops_quietly (snd ls))
            (fun _ _ => False) r (all, st1)) as Hpost.
  { apply Hloop; [split; [apply grown_refl|done]|].
    intros label_ [all0 s0] _ [Hinv Hstop0]. cbn [fst snd] in *.
    eapply wp_mono;
      [exact (wp_and _ _ _ _
                (process_label_spec env label_ all0 st0 s0 Hinv)
                (process_label_calm env label_ all0 s0 Hcalm Hstop0))|].
    intros r0 ls [Hgrown [-> Hq]]. by split. }
  clear Hloop. destruct r as [[]|e]; [|done]. cbn in Hpost.
  destruct Hpost as [((Hl & Ho & Hm & Hs & _) & _) _].
  pose proof (finish_spec all st1) as Hfinish. unfold wp in Hfinish.
  destruct (finish env all st1) as [r' st2].
  destruct Hfinish as (_ & _ & _ & _ & _ & _ & _ & Hr & _ & Hlines).
  intros Hw. apply Hr.
  - unfold metadata_file. cbn in Ho, Hs. by rewrite Ho, Hs.
  - unfold report_file. cbn in Ho, Hs. by rewrite Ho, Hs.
  - unfold report_writable in *. by rewrite <- Hlines.
Qed.

End RunSpec.

(** ** The constructor and [main] *)

Section MainSpec.

Context (env : Env).

Lemma init_spec labels_ out threshold w r st :
  init env labels_ out threshold w = (r, st) ->
  init_post env labels_ out threshold w r st.
Proof.
  unfold init. intros Hrun.
  apply (wp_run _ (init_post env labels_ out threshold w) _ _ _ Hrun).
  unfold make_directory. repeat wp_step.
  all: unfold init_post, uninterrupted; repeat split; try done.
  all: intros Hmk; congruence.
Qed.

(** What [main] leaves behind, whatever its exit status. *)
Lemma main_spec args w code st :
  main env args w = (code, st) ->
  min_bytes (self st) = arg_min_bytes args
  /\ output_dir (self st) = Pathlib.of_str (arg_out args)
  /\ session_id (self st) = uuid4 env
  /\ Forall (sized (arg_min_bytes args)) (manifest st)
  /\ (fs (world st) !! Pathlib.to_str (metadata_file (self st))
      = fs w !! Pathlib.to_str (metadata_file (self st))
      \/ serialized (manifest st) st)
  /\ (code = 0 -> serialized (manifest st) st)
  /\ (code = 0 \/ code = 1).
Proof.
  unfold main.
  set (w1 := if arg_verbose args then _ else w).
  assert (fs w1 = fs w) as Hw1 by (unfold w1; by destruct (arg_verbose args)).
  destruct (init env _ _ _ w1) as [r0 st0] eqn:Hinit.
  destruct (init_spec _ _ _ _ _ _ Hinit)
    as (Hl & Ho & Hm & Hs & Hmd & Hempty & _ & Hfs & _ & Hr0).
  destruct r0 as [[]|e].
  2: { intros [= <- <-]. rewrite Hempty, Hfs, Hw1.
       repeat split; auto; done. }
  pose proof (run_capture_spec env st0 Hempty) as Hrun. unfold wp in Hrun.
  destruct (run_capture env st0) as [r1 st1].
  destruct Hrun as (Hl1 & Ho1 & Hm1 & Hs1 & Hsized & Hfile & Hdone).
  assert (metadata_file (self st1) = metadata_file (self st0)) as Hpath.
  { unfold metadata_file. by rewrite Ho1, Hs1. }
  rewrite <- Hpath, Hfs, Hw1, Hm in *.
  destruct r1 as [[]|[what|]]; intros [= <- <-]; cbn.
  all: do 3 (split; [congruence|]); split; [done|].
  all: split; [done|]; split; [|by auto].
  - auto.
  - done.
  - done.
Qed.

(** With no interrupt, directories that can be made and a manifest and a
    report that can be written, the exit status is 0. *)
Lemma main_calm args w :
  calm env ->
  (forall path, mkdir env path = None) ->
  open_w env (manifest_path env args) = None ->
  open_w env (report_path env args) = None ->
  report_writable env (self (snd (main env args w))) ->
  fst (main env args w) = 0.
Proof.
  intros Hcalm Hmkdir Hmanifest Hreport. unfold main.
  set (w1 := if arg_verbose args then _ else w).
  destruct (init env _ _ _ w1) as [r0 st0] eqn:Hinit.
  destruct (init_spec _ _ _ _ _ _ Hinit)
    as (_ & Ho & _ & Hs & _ & _ & Hpw & _ & Hr0 & _).
  rewrite (Hr0 Hmkdir).
  assert (stops_quietly st0) as Hstop.
  { intros pw. by rewrite Hpw. }
  assert (wp (run_capture env)
             (fun r st' => report_writable env (self st') -> r = Returns tt)
             st0) as Hrun.
  { apply run_capture_calm; try done.
    - unfold metadata_file. by rewrite Ho, Hs.
    - unfold report_file. by rewrite Ho, Hs. }
  unfold wp in Hrun. destruct (run_capture env st0) as [r1 st1].
  destruct r1 as [[]|[what|]]; cbn; intros Hw; by specialize (Hrun Hw).
Qed.

End MainSpec.


(** * The properties *)

Section ArtifactLookups.

Context (env : Env).

(** The three artifacts of a capture are three different files. *)
Lemma html_not_screenshot out key label_ :
  Pathlib.to_str (screenshot_file out (md5_hexdigest key) label_)
  <> Pathlib.to_str (html_file out (md5_hexdigest key) label_).
Proof. by apply artifact_distinct. Qed.

Lemma html_not_network out key label_ :
  Pathlib.to_str (network_file out (md5_hexdigest key) label_)
  <> Pathlib.to_str (html_file out (md5_hexdigest key) label_).
Proof. by apply artifact_distinct. Qed.

Lemma screenshot_not_network out key label_ :
  Pathlib.to_str (network_file out (md5_hexdigest key) label_)
  <> Pathlib.to_str (screenshot_file out (md5_hexdigest key) label_).
Proof. by apply artifact_distinct. Qed.

(** A successful run of [capture_page_data], as [captured] describes it. *)
Lemma capture_success p url label_ st c st' :
  capture_page_data env (observed p) url label_ st = (Returns (Some c), st') ->
  captured env p url label_ st c st'.
Proof.
  intros Hrun.
  pose proof (wp_run _ _ _ _ _ Hrun (capture_page_data_spec env p url label_ st))
    as (_ & _ & _ & _ & _ & Hc).
  exact Hc.
Qed.

End ArtifactLookups.

(** C2. For every successful capture, [hash_md5] and [hash_sha256] are the
    MD5 and SHA-256 hex digests of the UTF-8 encoding of the HTML the page
    returned, and that encoding is the content of the capture's HTML file:
    digesting the bytes of the saved file gives the recorded digests. *)
Theorem digests_match_saved_html env p url label_ st c st' :
  capture_page_data env (observed p) url label_ st = (Returns (Some c), st') ->
  exists html data,
    pg_content p = Returns html
    /\ utf8_encode html = Some data
    /\ fs (world st')
         !! Pathlib.to_str (html_file (output_dir (self st)) (capture_id c) label_)
       = Some (Bytes data)
    /\ hash_md5 c = Hashlib.hexdigest (Hashlib.md5 data)
    /\ hash_sha256 c = Hashlib.hexdigest (Hashlib.sha256 data).
Proof.
  intros Hrun. apply capture_success in Hrun.
  destruct Hrun as (key & html & data & title_ & png & _ & _ & Hcontent & Hdata
                    & _ & _ & _ & -> & Hfs).
  exists html, data. cbn [capture_id hash_md5 hash_sha256].
  repeat split; try done.
  rewrite Hfs.
  rewrite lookup_insert_ne by apply html_not_network.
  rewrite lookup_insert_ne by apply html_not_screenshot.
  apply lookup_insert_eq.
Qed.

(** C7. For every successful capture the three artifacts are written under
    the output directory as html_dumps/{id}_{label}.html,
    screenshots/{id}_{label}.png and network_logs/{id}_{label}_network.json,
    with the id and the label of the record, and the record's [files] are
    these three paths relative to the output directory: as [pathlib] prints
    them, and letter for letter when the label holds no slash. *)
Theorem artifacts_named_by_id_and_label env p url label_ st c st' :
  capture_page_data env (observed p) url label_ st = (Returns (Some c), st') ->
  let out := output_dir (self st) in
  let name suffix := capture_id c ++ py "_" ++ label_ ++ suffix in
  label c = label_
  /\ is_Some (fs (world st')
                !! Pathlib.to_str (out </> py "html_dumps" </> name (py ".html")))
  /\ is_Some (fs (world st')
                !! Pathlib.to_str (out </> py "screenshots" </> name (py ".png")))
  /\ is_Some (fs (world st')
                !! Pathlib.to_str (out </> py "network_logs"
                                       </> name (py "_network.json")))
  /\ files c
     = {| files_html :=
            Pathlib.to_str (Pathlib.of_str (py "html_dumps")
                              </> name (py ".html"));
          files_screenshot :=
            Pathlib.to_str (Pathlib.of_str (py "screenshots")
                              </> name (py ".png"));
          files_network :=
            Pathlib.to_str (Pathlib.of_str (py "network_logs")
                              </> name (py "_network.json")) |}
  /\ (Pathlib.slash ∉ label_ ->
      files c
      = {| files_html := py "html_dumps/" ++ name (py ".html");
           files_screenshot := py "screenshots/" ++ name (py ".png");
           files_network := py "network_logs/" ++ name (py "_network.json") |}).
Proof.
  intros Hrun out name. apply capture_success in Hrun.
  destruct Hrun as (key & html & data & title_ & png & _ & _ & _ & _
                    & _ & _ & _ & -> & Hfs).
  subst out name. cbn [capture_id label files].
  fold (html_file (output_dir (self st)) (md5_hexdigest key) label_).
  fold (screenshot_file (output_dir (self st)) (md5_hexdigest key) label_).
  fold (network_file (output_dir (self st)) (md5_hexdigest key) label_).
  rewrite Hfs.
  split; [done|]. split.
  { rewrite lookup_insert_ne by apply html_not_network.
    rewrite lookup_insert_ne by apply html_not_screenshot.
    rewrite lookup_insert_eq. by eexists. }
  split.
  { rewrite lookup_insert_ne by apply screenshot_not_network.
    rewrite lookup_insert_eq. by eexists. }
  split; [rewrite lookup_insert_eq; by eexists|].
  split; [done|].
  intros Hlabel. unfold md5_hexdigest.
  rewrite !artifact_relative_plain; try done.
  all: rewrite list_elem_of_In; cbn; intuition discriminate.
Qed.

(** C8. For every successful capture the network log written for it is the
    capture's id, its timestamp and an empty list of requests, whatever
    requests the page issued. *)
Theorem network_log_has_no_requests env p url label_ st c st' :
  capture_page_data env (observed p) url label_ st = (Returns (Some c), st') ->
  exists doc,
    fs (world st')
      !! Pathlib.to_str (network_file (output_dir (self st)) (capture_id c) label_)
    = Some (JsonDocument doc)
    /\ json_get (py "capture_id") doc = Some (JStr (capture_id c))
    /\ json_get (py "timestamp") doc = Some (JStr (timestamp c))
    /\ json_get (py "requests") doc = Some (JList []).
Proof.
  intros Hrun. apply capture_success in Hrun.
  destruct Hrun as (key & html & data & title_ & png & _ & _ & _ & _
                    & _ & _ & _ & -> & Hfs).
  eexists. cbn [capture_id timestamp]. rewrite Hfs.
  split; [apply lookup_insert_eq|]. by repeat split.
Qed.

Lemma first_capture :
  capture_page_data Scenario.env (observed (Scenario.good_page 0))
    Scenario.url Scenario.tag Scenario.st0
  = (Returns (Some Scenario.record),
     snd (capture_page_data Scenario.env (observed (Scenario.good_page 0))
            Scenario.url Scenario.tag Scenario.st0)).
Proof. vm_compute. reflexivity. Defined.

Lemma digests_match_saved_html_witness :
  exists html data,
    pg_content (Scenario.good_page 0) = Returns html
    /\ utf8_encode html = Some data
    /\ fs (world (snd (capture_page_data Scenario.env
                         (observed (Scenario.good_page 0))
                         Scenario.url Scenario.tag Scenario.st0)))
         !! py "out/html_dumps/7dba3558ff827c80b02bd5eec66525d5_RHO-TECH.html"
       = Some (Bytes data)
    /\ py "c405eaaa60a233e7c93721833e09b766"
       = Hashlib.hexdigest (Hashlib.md5 data)
    /\ py "ecf9a984bd93cc162f684aeb632baccb3786fe3349edce5cca7189754931987c"
       = Hashlib.hexdigest (Hashlib.sha256 data).
Proof.
  exact (digests_match_saved_html Scenario.env (Scenario.good_page 0)
           Scenario.url Scenario.tag Scenario.st0 Scenario.record _
           first_capture).
Defined.

Section Gate.

Context (env : Env).


(** Content below the threshold ends in "no capture", with the warning. *)
Lemma undersized_returns_none p url label_ st html data :
  reaches_gate env p url label_ st html ->
  utf8_encode html = Some data ->
  Z.of_nat (length data) < min_bytes (self st) ->
  wp (capture_page_data env (observed p) url label_)
     (fun r st' =>
        r = Returns None
        /\ last (trace (world st'))
           = Some (Print (WarningTooSmall (Z.of_nat (length data))
                            (min_bytes (self st)) url))) st.
Proof.
  intros ([key Hkey] & (rsp & Hgoto & Hok) & Hidle & Hdelay & Hcontent)
    Hdata Hsmall.
  apply Z.ltb_lt in Hsmall.
  unfold capture_page_data, navigate, settle.
  change (page_of (observed p)) with p.
  repeat wp_step; try congruence.
  all: split; [done|]; cbn; by rewrite last_snoc.
Qed.

End Gate.

Section Turns.

Context (env : Env).

(** What a turn does to the manifest and to the local list, as a fact
    about its run. *)
Lemma visit_appends_yield label_ url fr st r fr' st' :
  visit env label_ url (fr, st) = (r, (fr', st')) ->
  manifest st' = manifest st ++ yield env label_ url st
  /\ fr_captures fr' = fr_captures fr ++ yield env label_ url st
  /\ (r = Returns tt \/ r = Raises Interrupt).
Proof.
  intros Hrun.
  pose proof (wp_run _ _ _ _ _ Hrun (visit_spec env label_ url fr st))
    as (Hr & _ & _ & Hm & Hc & _).
  done.
Qed.


(** A turn whose capture does not return a record appends nothing. *)
Lemma yield_nothing label_ url st p st1 :
  enter env st = Some (p, st1) ->
  (forall c, fst (capture_page_data env (observed p) url label_ st1)
             <> Returns (Some c)) ->
  yield env label_ url st = [].
Proof.
  intros Henter Hnone. unfold yield. rewrite Henter.
  destruct (fst (capture_page_data env (observed p) url label_ st1))
    as [[c|]|e] eqn:E; try done.
  by destruct (Hnone c).
Qed.



End Turns.

(** C1. Every record of the session manifest has an [html_size] that is
    the UTF-8 length of captured content and is at least the configured
    [min_bytes]; a page whose content is below the threshold gets the "no
    capture" result, with the warning, and the turn of the loop that
    captured it adds nothing to the manifest. *)
Theorem records_meet_min_bytes env :
  (forall args w code st,
     main env args w = (code, st) ->
     min_bytes (self st) = arg_min_bytes args
     /\ Forall (fun c =>
                  arg_min_bytes args <= html_size c
                  /\ exists html data,
                       utf8_encode html = Some data
                       /\ html_size c = Z.of_nat (length data))
               (md_captures (capture_metadata (self st))))
  /\ (forall p url label_ st html data,
        reaches_gate env p url label_ st html ->
        utf8_encode html = Some data ->
        Z.of_nat (length data) < min_bytes (self st) ->
        fst (capture_page_data env (observed p) url label_ st) = Returns None)
  /\ (forall label_ url fr st p st1 html data r fr' st',
        enter env st = Some (p, st1) ->
        pg_content p = Returns html ->
        utf8_encode html = Some data ->
        Z.of_nat (length data) < min_bytes (self st) ->
        visit env label_ url (fr, st) = (r, (fr', st')) ->
        md_captures (capture_metadata (self st'))
        = md_captures (capture_metadata (self st))
        /\ fr_captures fr' = fr_captures fr).
Proof.
  split; [|split].
  - intros args w code st Hmain.
    destruct (main_spec env args w code st Hmain)
      as (Hmin & _ & _ & Hsized & _).
    split; [done|].
    eapply Forall_impl; [exact Hsized|].
    intros c (html & data & Hdata & Hsize & Hle). eauto.
  - intros p url label_ st html data Hgate Hdata Hsmall.
    pose proof (undersized_returns_none env p url label_ st html data
                  Hgate Hdata Hsmall) as H.
    unfold wp in H.
    destruct (capture_page_data env (observed p) url label_ st). apply H.
  - intros label_ url fr st p st1 html data r fr' st'
      Henter Hcontent Hdata Hsmall Hrun.
    destruct (visit_appends_yield env _ _ _ _ _ _ _ Hrun) as (Hm & Hc & _).
    assert (yield env label_ url st = []) as Hyield.
    { apply (yield_nothing env _ _ _ p st1 Henter). intros c Hc'.
      destruct (capture_page_data env (observed p) url label_ st1)
        as [r1 st2] eqn:Hcap.
      cbn in Hc'. subst r1. apply capture_success in Hcap.
      destruct Hcap as (key & html' & data' & ? & ? & _ & _ & Hcontent'
                        & Hdata' & _ & _ & Hmin & _).
      destruct (enter_self env _ _ _ Henter) as [pw Hself].
      rewrite Hself in Hmin. cbn in Hmin.
      assert (html' = html) as -> by congruence.
      assert (data' = data) as -> by congruence. lia. }
    rewrite Hyield, !app_nil_r in *. done.
Qed.

Lemma records_meet_min_bytes_witness :
  Forall (fun c =>
            40 <= html_size c
            /\ exists html data,
                 utf8_encode html = Some data
                 /\ html_size c = Z.of_nat (length data))
         (md_captures (capture_metadata (self (snd
            (main Scenario.env Scenario.args Scenario.empty_world)))))
  /\ fst (capture_page_data Scenario.env (observed (Scenario.good_page 0))
            Scenario.url Scenario.tag Scenario.strict) = Returns None.
Proof.
  destruct (records_meet_min_bytes Scenario.env) as (Hrun & Hgate & _).
  split.
  - exact (proj2 (Hrun Scenario.args Scenario.empty_world _ _
                    (surjective_pairing _))).
  - apply (Hgate _ _ _ _ Scenario.html
             (default [] (utf8_encode Scenario.html))).
    + repeat split.
      * apply is_Some_alt. vm_compute. exact I.
      * eexists. split; reflexivity.
      * intros H. inversion H.
    + vm_compute. reflexivity.
    + vm_compute. reflexivity.
Defined.

Lemma artifacts_named_by_id_and_label_witness :
  files Scenario.record
  = {| files_html :=
         py "html_dumps/" ++ capture_id Scenario.record ++ py "_"
           ++ Scenario.tag ++ py ".html";
       files_screenshot :=
         py "screenshots/" ++ capture_id Scenario.record ++ py "_"
           ++ Scenario.tag ++ py ".png";
       files_network :=
         py "network_logs/" ++ capture_id Scenario.record ++ py "_"
           ++ Scenario.tag ++ py "_network.json" |}.
Proof.
  apply (artifacts_named_by_id_and_label Scenario.env (Scenario.good_page 0)
           Scenario.url Scenario.tag Scenario.st0 Scenario.record _
           first_capture).
  rewrite list_elem_of_In. vm_compute. intuition discriminate.
Defined.

Lemma network_log_has_no_requests_witness :
  exists doc,
    fs (world (snd (capture_page_data Scenario.env
                      (observed (Scenario.good_page 0))
                      Scenario.url Scenario.tag Scenario.st0)))
      !! py "out/network_logs/7dba3558ff827c80b02bd5eec66525d5_RHO-TECH_network.json"
    = Some (JsonDocument doc)
    /\ json_get (py "capture_id") doc
       = Some (JStr (py "7dba3558ff827c80b02bd5eec66525d5"))
    /\ json_get (py "timestamp") doc
       = Some (JStr (py "2025-09-05T19:41:21.000001"))
    /\ json_get (py "requests") doc = Some (JList []).
Proof.
  exact (network_log_has_no_requests Scenario.env (Scenario.good_page 0)
           Scenario.url Scenario.tag Scenario.st0 Scenario.record _
           first_capture).
Defined.

(** C10. Any integer given as [--min-bytes] reaches the object unchanged,
    and under a threshold of zero or less the size gate rejects nothing: a
    "no capture" result then always comes from a failed navigation. *)
Theorem nonpositive_threshold_rejects_nothing env :
  (forall args w,
     min_bytes (self (snd (main env args w))) = arg_min_bytes args)
  /\ (forall p url label_ st st',
        min_bytes (self st) <= 0 ->
        capture_page_data env (observed p) url label_ st = (Returns None, st') ->
        navigation_fails p).
Proof.
  split.
  - intros args w.
    by destruct (main_spec env args w _ _ (surjective_pairing _)) as (? & _).
  - intros p url label_ st st' Hmin Hrun.
    pose proof (wp_run _ _ _ _ _ Hrun (capture_page_data_spec env p url label_ st))
      as (_ & _ & _ & _ & _ & _ & [Hnav|(html & data & _ & _ & _ & Hsmall)]).
    + done.
    + lia.
Qed.

Lemma scenario_session_calm p pw :
  Scenario.session p = Returns pw -> calm_page p -> calm_playwright pw.
Proof.
  intros [= <-] Hp. split; [done|]. split; [done|].
  intros b [= <-]. split; [done|]. split; [done|].
  by intros q [= <-].
Qed.

Lemma scenario_calm : calm Scenario.env.
Proof.
  intros n. split.
  - by destruct n as [|[|[|[|n]]]].
  - destruct n as [|[|[|[|n]]]]; intros pw Hpw; try done.
    all: eapply scenario_session_calm; [exact Hpw|by repeat split].
Qed.

Lemma nonpositive_threshold_rejects_nothing_witness :
  min_bytes (self (snd (main Scenario.env Scenario.lenient_args
                          Scenario.empty_world))) = -5
  /\ navigation_fails Scenario.missing_page.
Proof.
  destruct (nonpositive_threshold_rejects_nothing Scenario.env)
    as (Hargs & Hgate).
  split.
  - exact (Hargs Scenario.lenient_args Scenario.empty_world).
  - apply (Hgate Scenario.missing_page Scenario.url Scenario.tag
             Scenario.lenient
             (snd (capture_page_data Scenario.env
                     (observed Scenario.missing_page)
                     Scenario.url Scenario.tag Scenario.lenient))).
    + vm_compute. discriminate.
    + vm_compute. reflexivity.
Defined.

Section Manifest.

Context (env : Env).

Lemma json_total_captures md n :
  md_total_captures md = Some n ->
  json_get (py "total_captures") (json_of_metadata md) = Some (JInt n).
Proof. unfold json_of_metadata. by intros ->. Qed.

Lemma json_captures md :
  json_get (py "captures") (json_of_metadata md)
  = Some (JList (map json_of_capture (md_captures md))).
Proof. reflexivity. Qed.

End Manifest.

(** C9. The manifest file of a session is either as it was before the run
    or a document whose [total_captures] equals the length of its
    [captures] list, and it is such a document whenever the exit status is
    0: the local list that is counted and the list of the manifest receive
    the same records. *)
Theorem total_captures_counts_the_manifest env args w code st :
  main env args w = (code, st) ->
  (fs (world st) !! manifest_path env args = fs w !! manifest_path env args
   \/ counts_its_captures (fs (world st) !! manifest_path env args))
  /\ (code = 0 ->
      counts_its_captures (fs (world st) !! manifest_path env args)).
Proof.
  intros Hmain.
  destruct (main_spec env args w code st Hmain)
    as (_ & Hout & Hsid & _ & Hfile & Hdone & _).
  assert (Pathlib.to_str (metadata_file (self st)) = manifest_path env args)
    as Hpath.
  { unfold metadata_file, manifest_path. by rewrite Hout, Hsid. }
  rewrite Hpath in *.
  assert (serialized (manifest st) st ->
          counts_its_captures (fs (world st) !! manifest_path env args))
    as Hcount.
  { intros [Hdoc Htotal]. rewrite Hpath in Hdoc.
    exists (json_of_metadata (capture_metadata (self st))),
           (map json_of_capture (manifest st)).
    split; [done|]. split; [apply json_captures|].
    rewrite length_map. by apply json_total_captures. }
  split; [destruct Hfile; auto|auto].
Qed.

Lemma total_captures_counts_the_manifest_witness :
  counts_its_captures
    (fs (world (snd (main Scenario.env Scenario.args Scenario.empty_world)))
       !! manifest_path Scenario.env Scenario.args).
Proof.
  apply (proj2 (total_captures_counts_the_manifest Scenario.env Scenario.args
                  Scenario.empty_world _ _ (surjective_pairing _))).
  apply main_calm; [apply scenario_calm|reflexivity..|].
  apply Forall_forall. intros line _. reflexivity.
Defined.

Section Keys.

Lemma capture_key_parts url label_ ts :
  capture_key url label_ ts
  = url ++ underscore :: label_ ++ underscore :: ts.
Proof. reflexivity. Qed.

(** Cutting at the first separator. *)
Lemma cut_first {A} (x : A) a a0 r r0 :
  x ∉ a -> x ∉ a0 -> a ++ x :: r = a0 ++ x :: r0 -> a = a0 /\ r = r0.
Proof.
  revert a0. induction a as [|y a IH]; intros [|y0 a0] Ha Ha0; cbn.
  - by intros [= ->].
  - intros [= <- _]. by apply not_elem_of_cons in Ha0 as [? _].
  - intros [= -> _]. by apply not_elem_of_cons in Ha as [? _].
  - intros [= -> E].
    apply not_elem_of_cons in Ha as [_ Ha].
    apply not_elem_of_cons in Ha0 as [_ Ha0].
    by destruct (IH a0 Ha Ha0 E) as [-> ->].
Qed.

(** Cutting at the last separator. *)
Lemma cut_last {A} (x : A) a a0 r r0 :
  x ∉ r -> x ∉ r0 -> a ++ x :: r = a0 ++ x :: r0 -> a = a0 /\ r = r0.
Proof.
  intros Hr Hr0 E. apply (f_equal (@rev A)) in E.
  rewrite !rev_app_distr in E. cbn in E. rewrite <- !app_assoc in E.
  cbn in E.
  apply cut_first in E as [E1 E2].
  - apply (f_equal (@rev A)) in E1, E2. rewrite !rev_involutive in E1, E2.
    done.
  - by rewrite list_elem_of_In, <- in_rev, <- list_elem_of_In.
  - by rewrite list_elem_of_In, <- in_rev, <- list_elem_of_In.
Qed.

(** The key tells the three parts apart when the URLs and the timestamps
    hold no separator. *)
Lemma capture_key_inj url label_ ts url0 label0 ts0 :
  underscore ∉ url -> underscore ∉ url0 ->
  underscore ∉ ts -> underscore ∉ ts0 ->
  capture_key url label_ ts = capture_key url0 label0 ts0 ->
  url = url0 /\ label_ = label0 /\ ts = ts0.
Proof.
  intros Hu Hu0 Ht Ht0. rewrite !capture_key_parts. intros E.
  apply cut_first in E as [-> E]; [|done..].
  apply cut_last in E as [-> ->]; done.
Qed.

Lemma capture_key_inj_timestamp url label_ ts ts0 :
  capture_key url label_ ts = capture_key url label_ ts0 -> ts = ts0.
Proof.
  rewrite !capture_key_parts. intros E.
  apply app_inv_head in E. injection E as E.
  apply app_inv_head in E. by injection E.
Qed.

End Keys.

(** C4, as it is worded, fails: an underscore in a URL or a label moves the
    border between the two, so two captures at the same clock reading with
    different URLs and labels get the same key and the same [capture_id]. *)
Lemma underscore_moves_the_border :
  exists c c0,
    fst (capture_page_data Scenario.env (observed (Scenario.good_page 0))
           (py "https://host/a_b") (py "c") Scenario.st0)
    = Returns (Some c)
    /\ fst (capture_page_data Scenario.env (observed (Scenario.good_page 0))
              (py "https://host/a") (py "b_c") Scenario.st0)
       = Returns (Some c0)
    /\ url_original c = py "https://host/a_b"
    /\ url_original c0 = py "https://host/a"
    /\ label c = py "c"
    /\ label c0 = py "b_c"
    /\ timestamp c = timestamp c0
    /\ capture_id c = capture_id c0.
Proof.
  eexists _, _.
  split; [vm_compute; reflexivity|].
  split; [vm_compute; reflexivity|].
  repeat split.
Qed.

(** C4 (amended). The records of two captures have different [capture_id]s
    when their URL, label and timestamp are not all the same, provided
    that the key keeps them apart (same URL and label, or no underscore in
    the URLs and timestamps) and that MD5 does not collide on the two
    encoded keys. *)
Theorem capture_ids_differ env env0 p p0 url url0 label_ label0 st st0 c c0
    st' st0' :
  capture_page_data env (observed p) url label_ st
  = (Returns (Some c), st') ->
  capture_page_data env0 (observed p0) url0 label0 st0
  = (Returns (Some c0), st0') ->
  (url, label_, timestamp c) <> (url0, label0, timestamp c0) ->
  ((url = url0 /\ label_ = label0)
   \/ ((underscore ∉ url) /\ (underscore ∉ url0)
       /\ (underscore ∉ timestamp c) /\ (underscore ∉ timestamp c0))) ->
  md5_tells_apart (capture_key url label_ (timestamp c))
                  (capture_key url0 label0 (timestamp c0)) ->
  capture_id c <> capture_id c0
  /\ url_original c = url /\ label c = label_
  /\ url_original c0 = url0 /\ label c0 = label0.
Proof.
  intros Hrun Hrun0 Hdiffer Hapart Hmd5.
  apply capture_success in Hrun, Hrun0.
  destruct Hrun as (key & ? & ? & ? & ? & Hkey & _ & _ & _ & _ & _ & _ & -> & _).
  destruct Hrun0
    as (key0 & ? & ? & ? & ? & Hkey0 & _ & _ & _ & _ & _ & _ & -> & _).
  cbn [capture_id timestamp url_original label] in *.
  split; [|done].
  unfold md5_tells_apart in Hmd5. rewrite Hkey, Hkey0 in Hmd5.
  intros Hsame. apply Hmd5 in Hsame. subst key0.
  pose proof (utf8_encode_inj _ _ _ Hkey Hkey0) as E.
  apply Hdiffer.
  destruct Hapart as [[<- <-]|(Hu & Hu0 & Ht & Ht0)].
  - by apply capture_key_inj_timestamp in E as ->.
  - by apply capture_key_inj in E as (-> & -> & ->).
Qed.

Lemma second_capture :
  capture_page_data Scenario.env (observed (Scenario.good_page 0))
    Scenario.url Scenario.tag Scenario.later
  = (Returns (Some Scenario.again),
     snd (capture_page_data Scenario.env (observed (Scenario.good_page 0))
            Scenario.url Scenario.tag Scenario.later)).
Proof. vm_compute. reflexivity. Defined.

Lemma capture_ids_differ_witness :
  capture_id Scenario.record <> capture_id Scenario.again
  /\ url_original Scenario.record = Scenario.url
  /\ label Scenario.record = Scenario.tag
  /\ url_original Scenario.again = Scenario.url
  /\ label Scenario.again = Scenario.tag.
Proof.
  apply (capture_ids_differ _ _ _ _ _ _ _ _ _ _ _ _ _ _
           first_capture second_capture).
  - vm_compute. intros [=].
  - left. split; reflexivity.
  - vm_compute. intros [=].
Defined.

Section Containment.

Context (env : Env).


(** What the body of the [try] answers once it has reached
    [capture_page_data]: the exception of the capture, or else the answer
    of the rate-limiting wait. *)
Lemma attempt_after_enter label_ url fr st p st1 :
  enter env st = Some (p, st1) ->
  fst (attempt env label_ url (fr, st))
  = match fst (capture_page_data env (observed p) url label_ st1) with
    | Returns _ => pg_rate_delay p
    | Raises e => Raises e
    end.
Proof.
  unfold enter. intros Henter.
  destruct (async_playwright_start env (launches (world st)))
    as [pw|] eqn:Hpw; [|done].
  destruct (pw_launch pw) as [br|] eqn:Hbr; [|done].
  destruct (br_new_page br) as [q|] eqn:Hq; [|done].
  injection Henter as -> <-.
  assert (wp (attempt env label_ url)
             (fun r _ =>
                r = match fst (capture_page_data env (observed p) url label_
                                 (set_world (log_event (Call (NewPage (br_id br))))
                  (set_world (log_event (Call (Launch (pw_id pw))))
                     (set_self (set_playwright pw)
                        (set_world (log_event (Call PlaywrightStart))
                           (set_world count_launch st)))))) with
                    | Returns _ => pg_rate_delay p
                    | Raises e => Raises e
                    end) (fr, st)) as Hwp.
  { unfold attempt, setup_browser, set_frame. repeat wp_step.
    apply wp_all. intros r st2 Hrun. rewrite Hrun. cbn [fst].
    destruct r as [[c|]|e]; repeat wp_step; done. }
  unfold wp in Hwp. by destruct (attempt env label_ url (fr, st)).
Qed.


(** The loop over the URLs takes one turn for each of them, unless it is
    interrupted. *)
Lemma turns_counted label_ urls fr st :
  wp (for_each urls (visit env label_))
     (fun r fs' =>
        match r with
        | Returns _ =>
            launches (world (snd fs'))
            = (length urls + launches (world st))%nat
        | Raises e => e = Interrupt
        end) (fr, st).
Proof.
  revert fr st. induction urls as [|url urls IH]; intros fr st.
  - done.
  - cbn [for_each]. apply wp_bind.
    eapply wp_mono; [apply visit_spec|].
    intros r [fr1 st1] ([->| ->] & Hlaunch & _); cbn; [|done].
    eapply wp_mono; [apply IH|].
    intros [[]|e] [fr2 st2]; [|done]. cbn [snd length] in *. lia.
Qed.

End Containment.






Section IdleTimeout.

Context (env : Env).

Lemma inserted_end {A} (w l : list A) : inserted w (l ++ w) l.
Proof. exists l, []. by rewrite !app_nil_r. Qed.

Lemma inserted_snoc {A} (w l l0 post : list A) :
  inserted w l l0 -> inserted w (l ++ post) (l0 ++ post).
Proof.
  intros (before & after & -> & ->). exists before, (after ++ post).
  by rewrite <- !app_assoc.
Qed.

Lemma inserted_nothing {A} (l : list A) : inserted [] l l.
Proof. exists l, []. by rewrite !app_nil_r. Qed.

Lemma same_but_for_nothing r st : same_but_for [] r st r st.
Proof. repeat split. apply inserted_nothing. Qed.

Lemma idle_timeout_runs_alike p url label_ st what :
  pg_networkidle p = Raises (Exception what) ->
  wp (capture_page_data env (observed p) url label_)
     (fun r st' =>
        wp (capture_page_data env
              (observed (with_networkidle (Returns tt) p)) url label_)
           (fun r0 st0 =>
              exists w, same_but_for w r st' r0 st0
                /\ (w = [] \/ w = [idle_warning url])
                /\ (key_encodes env url label_ st -> loads p ->
                    w = [idle_warning url])) st) st.
Proof.
  intros Hidle.
  unfold capture_page_data, navigate, settle, persist, write_text, json_dump,
    page_screenshot, relative_str.
  change (page_of (observed p)) with p.
  change (page_of (observed (with_networkidle (Returns tt) p)))
    with (with_networkidle (Returns tt) p).
  cbn [with_networkidle pg_id pg_requests pg_goto pg_networkidle
       pg_settle_delay pg_content pg_screenshot pg_title pg_url
       pg_rate_delay pg_close].
  repeat first
    [ rewrite html_file_relative | rewrite screenshot_file_relative
    | rewrite network_file_relative
    | wp_step;
      cbn [with_networkidle pg_id pg_requests pg_goto pg_networkidle
       pg_settle_delay pg_content pg_screenshot pg_title pg_url
       pg_rate_delay pg_close] ].
  all: try (exists []; split; [apply same_but_for_nothing|]; split; [by left|]).
  all: try (exists [idle_warning url]; split; [|split; [by right|done]];
            do 5 (split; [reflexivity|]); cbn;
            repeat apply inserted_snoc; apply inserted_end).
  all: intros [key Hkey] (rsp & Hgoto & Hok); congruence.
Qed.

End IdleTimeout.

(** C6. When the wait for network idle raises, the capture goes on as it
    does on the same page with a wait that succeeds: from the same state
    both runs end in the same result, the same object, the same files and
    the same clock, and their logs are the same but for the warning of line
    102, which the first run prints whenever it got as far as the wait. *)
Theorem idle_timeout_is_not_fatal env p url label_ st what r st' r0 st0 :
  pg_networkidle p = Raises (Exception what) ->
  capture_page_data env (observed p) url label_ st = (r, st') ->
  capture_page_data env (observed (with_networkidle (Returns tt) p))
    url label_ st = (r0, st0) ->
  exists w,
    same_but_for w r st' r0 st0
    /\ (w = [] \/ w = [idle_warning url])
    /\ (key_encodes env url label_ st -> loads p -> w = [idle_warning url]).
Proof.
  intros Hidle Hrun Hrun0.
  pose proof (wp_run _ _ _ _ _ Hrun
                (idle_timeout_runs_alike env p url label_ st what Hidle))
    as Hboth.
  exact (wp_run _ _ _ _ _ Hrun0 Hboth).
Qed.

Lemma idle_timeout_is_not_fatal_witness :
  exists w,
    same_but_for w
      (fst (capture_page_data Scenario.env (observed Scenario.slow_page)
              Scenario.url Scenario.tag Scenario.st0))
      (snd (capture_page_data Scenario.env (observed Scenario.slow_page)
              Scenario.url Scenario.tag Scenario.st0))
      (fst (capture_page_data Scenario.env (observed (Scenario.good_page 2))
              Scenario.url Scenario.tag Scenario.st0))
      (snd (capture_page_data Scenario.env (observed (Scenario.good_page 2))
              Scenario.url Scenario.tag Scenario.st0))
    /\ (w = [] \/ w = [idle_warning Scenario.url])
    /\ (key_encodes Scenario.env Scenario.url Scenario.tag Scenario.st0 ->
        loads Scenario.slow_page -> w = [idle_warning Scenario.url]).
Proof.
  apply (idle_timeout_is_not_fatal Scenario.env Scenario.slow_page
           Scenario.url Scenario.tag Scenario.st0
           (py "Timeout 10000ms exceeded")).
  - reflexivity.
  - apply surjective_pairing.
  - exact (surjective_pairing
             (capture_page_data Scenario.env
                (observed (Scenario.good_page 2))
                Scenario.url Scenario.tag Scenario.st0)).
Defined.

(** * Further properties of the methods *)

Section CaptureCases.

Context (env : Env).

Lemma html_file_is_artifact out key label_ :
  is_artifact out (Pathlib.to_str (html_file out (md5_hexdigest key) label_)).
Proof.
  exists (py "html_dumps"), (Hashlib.md5 key), label_, (py ".html").
  split; [unfold artifact_dirs; set_solver|done].
Qed.

Lemma network_file_is_artifact out key label_ :
  is_artifact out
    (Pathlib.to_str (network_file out (md5_hexdigest key) label_)).
Proof.
  exists (py "network_logs"), (Hashlib.md5 key), label_, (py "_network.json").
  split; [unfold artifact_dirs; set_solver|done].
Qed.

Lemma capture_completes p url label_ st html data png title_ :
  reaches_gate env p url label_ st html ->
  utf8_encode html = Some data ->
  min_bytes (self st) <= Z.of_nat (length data) ->
  pg_screenshot p = Returns png ->
  pg_title p = Returns title_ ->
  artifacts_writable env st ->
  wp (capture_page_data env (observed p) url label_)
     (fun r st' =>
        exists c, r = Returns (Some c)
          /\ html_size c = Z.of_nat (length data)
          /\ title c = title_
          /\ last (trace (world st'))
             = Some (Print (SuccessCaptured label_ (Z.of_nat (length data))
                              (pg_url p)))) st.
Proof.
  intros ([key Hkey] & (rsp & Hgoto & Hok) & Hidle & Hdelay & Hcontent)
    Hdata Hsize Hpng Htitle Hopen.
  apply Z.ltb_ge in Hsize.
  pose proof (Hopen _ (html_file_is_artifact (output_dir (self st)) key label_))
    as Hhtml.
  pose proof (Hopen _ (network_file_is_artifact (output_dir (self st)) key
                         label_)) as Hnet.
  unfold capture_page_data, navigate, settle, persist, write_text, json_dump,
    page_screenshot, relative_str.
  change (page_of (observed p)) with p.
  repeat first
    [ rewrite html_file_relative | rewrite screenshot_file_relative
    | rewrite network_file_relative | wp_step ]; try congruence.
  all: eexists; split; [reflexivity|]; cbn; by rewrite last_snoc.
Qed.

(** A screenshot that fails leaves the HTML dump behind. *)
Lemma screenshot_failure_keeps_dump p url label_ st html data key e :
  reaches_gate env p url label_ st html ->
  utf8_encode (capture_key url label_
                 (now_isoformat env (clock_reads (world st)))) = Some key ->
  utf8_encode html = Some data ->
  min_bytes (self st) <= Z.of_nat (length data) ->
  pg_screenshot p = Raises e ->
  artifacts_writable env st ->
  wp (capture_page_data env (observed p) url label_)
     (fun r st' =>
        r = Raises e
        /\ fs (world st')
           = <[Pathlib.to_str (html_file (output_dir (self st))
                                 (md5_hexdigest key) label_) := Bytes data]>
               (fs (world st))) st.
Proof.
  intros (_ & (rsp & Hgoto & Hok) & Hidle & Hdelay & Hcontent)
    Hkey Hdata Hsize Hpng Hopen.
  apply Z.ltb_ge in Hsize.
  pose proof (Hopen _ (html_file_is_artifact (output_dir (self st)) key label_))
    as Hhtml.
  unfold capture_page_data, navigate, settle, persist, write_text, json_dump,
    page_screenshot, relative_str.
  change (page_of (observed p)) with p.
  repeat wp_step; try congruence.
  all: split; [done|]; cbn; by rewrite insert_insert_eq.
Qed.

End CaptureCases.

Section TurnFiles.

Context (env : Env).

(** The files a turn leaves are those its capture left: nothing else in a
    turn writes. *)
Lemma visit_files label_ url fr st p st1 :
  enter env st = Some (p, st1) ->
  wp (visit env label_ url)
     (fun _ fs' =>
        fs (world (snd fs'))
        = fs (world (snd (capture_page_data env (observed p) url label_ st1))))
     (fr, st).
Proof.
  unfold enter. intros Henter.
  destruct (async_playwright_start env (launches (world st)))
    as [pw|] eqn:Hpw; [|done].
  destruct (pw_launch pw) as [br|] eqn:Hbr; [|done].
  destruct (br_new_page br) as [q|] eqn:Hq; [|done].
  injection Henter as -> <-.
  unfold visit, attempt, setup_browser, set_frame, teardown, quietly.
  repeat wp_step.
  apply wp_all. intros r st2 Hrun. rewrite Hrun. cbn [fst snd].
  destruct r as [[c|]|[what|]]; repeat wp_step; done.
Qed.

End TurnFiles.

(** X1. A page that gets as far as the size gate with content of at least
    [min_bytes] bytes (exactly [min_bytes] included), whose screenshot and
    title can be taken, whose artifacts can be written and whose lines are
    plain text, so that standard output takes them, is captured: the method
    returns a record of that size and ends with the success line. *)
Theorem capture_succeeds_from_threshold env p url label_ st html data png
    title_ :
  reaches_gate env p url label_ st html ->
  utf8_encode html = Some data ->
  min_bytes (self st) <= Z.of_nat (length data) ->
  pg_screenshot p = Returns png ->
  pg_title p = Returns title_ ->
  artifacts_writable env st ->
  prints_plainly p url label_ ->
  exists c st',
    capture_page_data env (observed p) url label_ st = (Returns (Some c), st')
    /\ html_size c = Z.of_nat (length data)
    /\ title c = title_
    /\ last (trace (world st'))
       = Some (Print (SuccessCaptured label_ (Z.of_nat (length data))
                        (pg_url p))).
Proof.
  intros Hgate Hdata Hsize Hpng Htitle Hopen _.
  pose proof (capture_completes env p url label_ st html data png title_
                Hgate Hdata Hsize Hpng Htitle Hopen) as Hwp.
  unfold wp in Hwp.
  destruct (capture_page_data env (observed p) url label_ st) as [r st'].
  destruct Hwp as (c & -> & Hc). by exists c, st'.
Qed.

Lemma scenario_reaches_gate st :
  clock_reads (world st) = 1%nat ->
  reaches_gate Scenario.env (Scenario.good_page 0) Scenario.url Scenario.tag
    st Scenario.html.
Proof.
  intros Hclock. unfold reaches_gate, key_encodes. rewrite Hclock.
  split; [apply is_Some_alt; vm_compute; exact I|].
  split; [eexists; split; reflexivity|].
  split; [discriminate|]. split; reflexivity.
Qed.

Lemma capture_succeeds_from_threshold_witness :
  min_bytes (self Scenario.exact) = 47
  /\ exists c st',
       capture_page_data Scenario.env (observed (Scenario.good_page 0))
         Scenario.url Scenario.tag Scenario.exact = (Returns (Some c), st')
       /\ html_size c = 47
       /\ title c = py "Demo"
       /\ last (trace (world st'))
          = Some (Print (SuccessCaptured Scenario.tag 47 Scenario.url)).
Proof.
  split; [reflexivity|].
  apply (capture_succeeds_from_threshold Scenario.env (Scenario.good_page 0)
           Scenario.url Scenario.tag Scenario.exact Scenario.html
           (default [] (utf8_encode Scenario.html))
           [x89; x50; x4e; x47] (py "Demo")).
  - by apply scenario_reaches_gate.
  - vm_compute. reflexivity.
  - vm_compute. discriminate.
  - reflexivity.
  - reflexivity.
  - intros path _. reflexivity.
  - repeat split; vm_compute; reflexivity.
Defined.

Section Orphans.

Context (env : Env).

Lemma enter_keeps_files st p st1 :
  enter env st = Some (p, st1) -> fs (world st1) = fs (world st).
Proof.
  unfold enter. repeat case_match; try done. by intros [= _ <-].
Qed.

End Orphans.

(** X2. When the page cannot be pictured after its HTML was saved, the turn
    logs the failure and adds no record, and the HTML dump stays on disk:
    nothing removes the artifacts of a capture that did not complete. *)
Theorem failed_screenshot_orphans_dump env label_ url fr st p st1 html data
    key what r fr' st' :
  enter env st = Some (p, st1) ->
  reaches_gate env p url label_ st1 html ->
  utf8_encode (capture_key url label_
                 (now_isoformat env (clock_reads (world st1)))) = Some key ->
  utf8_encode html = Some data ->
  min_bytes (self st1) <= Z.of_nat (length data) ->
  pg_screenshot p = Raises (Exception what) ->
  artifacts_writable env st1 ->
  visit env label_ url (fr, st) = (r, (fr', st')) ->
  manifest st' = manifest st
  /\ fr_captures fr' = fr_captures fr
  /\ fs (world st')
     = <[Pathlib.to_str (html_file (output_dir (self st1))
                           (md5_hexdigest key) label_) := Bytes data]>
         (fs (world st))
  /\ Print (ErrorCaptureFailed url what) ∈ trace (world st').
Proof.
  intros Henter Hgate Hkey Hdata Hsize Hpng Hopen Hrun.
  pose proof (screenshot_failure_keeps_dump env p url label_ st1 html data key
                _ Hgate Hkey Hdata Hsize Hpng Hopen) as Hcapture.
  unfold wp in Hcapture.
  destruct (capture_page_data env (observed p) url label_ st1)
    as [rc st2] eqn:Hrc.
  destruct Hcapture as [-> Hfs2].
  pose proof (wp_run _ _ _ _ _ Hrun (visit_files env label_ url fr st p st1 Henter))
    as Hfiles.
  cbn [snd] in Hfiles. rewrite Hrc in Hfiles. cbn [snd] in Hfiles.
  pose proof (wp_run _ _ _ _ _ Hrun (visit_spec env label_ url fr st))
    as (_ & _ & _ & Hm & Hc & _ & _ & evs & Hevs & Hlog & _).
  cbn [fst snd] in *.
  assert (yield env label_ url st = []) as Hyield.
  { unfold yield. by rewrite Henter, Hrc. }
  rewrite Hyield, app_nil_r in *.
  split; [done|]. split; [done|].
  split; [by rewrite Hfiles, Hfs2, (enter_keeps_files env _ _ _ Henter)|].
  unfold extends in Hevs. rewrite Hevs, elem_of_app. right.
  apply Hlog. rewrite (attempt_after_enter env _ _ _ _ _ _ Henter).
  by rewrite Hrc.
Qed.

Lemma failed_screenshot_orphans_dump_witness :
  manifest (snd (snd (visit Scenario.blind Scenario.tag Scenario.url
                        (Scenario.no_locals, Scenario.st0))))
  = []
  /\ fs (world (snd (snd (visit Scenario.blind Scenario.tag Scenario.url
                            (Scenario.no_locals, Scenario.st0)))))
       !! py "out/html_dumps/7dba3558ff827c80b02bd5eec66525d5_RHO-TECH.html"
     = Some (Bytes (default [] (utf8_encode Scenario.html))).
Proof.
  destruct (visit Scenario.blind Scenario.tag Scenario.url
              (Scenario.no_locals, Scenario.st0))
    as [r [fr' st']] eqn:Hrun.
  destruct (failed_screenshot_orphans_dump Scenario.blind Scenario.tag
              Scenario.url Scenario.no_locals Scenario.st0
              Scenario.blind_page _ Scenario.html
              (default [] (utf8_encode Scenario.html))
              (default [] (utf8_encode
                 (capture_key Scenario.url Scenario.tag
                    (py "2025-09-05T19:41:21.000001"))))
              (py "Target crashed") r fr' st' eq_refl)
    as (Hm & _ & Hfs & _).
  - split; [apply is_Some_alt; vm_compute; exact I|].
    split; [eexists; split; reflexivity|].
    split; [discriminate|]. split; reflexivity.
  - vm_compute. reflexivity.
  - vm_compute. reflexivity.
  - vm_compute. discriminate.
  - reflexivity.
  - intros path _. reflexivity.
  - exact Hrun.
  - cbn [snd]. split; [exact Hm|].
    rewrite Hfs. apply lookup_insert_eq.
Defined.

(** X3. When the Playwright driver fails to start, the turn makes that one
    call, logs the failure and cleans up; there is no page and no browser to
    close, and the only driver to stop is the one an earlier turn left on
    the object, which is stopped once more.  Nothing else changes. *)
Theorem failed_start_stops_stale_driver env label_ url fr st what r fr' st' :
  async_playwright_start env (launches (world st)) = Raises (Exception what) ->
  visit env label_ url (fr, st) = (r, (fr', st')) ->
  trace (world st')
  = trace (world st)
      ++ [Call PlaywrightStart; Print (ErrorCaptureFailed url what)]
      ++ stale_stop (self st)
  /\ self st' = self st
  /\ fs (world st') = fs (world st)
  /\ fr_captures fr' = fr_captures fr
  /\ (r = Raises Interrupt
      <-> exists old, playwright (self st) = Some old
                      /\ pw_stop old = Raises Interrupt).
Proof.
  intros Hstart Hrun.
  apply (wp_run _
    (fun r fs' =>
       trace (world (snd fs'))
       = trace (world st)
           ++ [Call PlaywrightStart; Print (ErrorCaptureFailed url what)]
           ++ stale_stop (self st)
       /\ self (snd fs') = self st
       /\ fs (world (snd fs')) = fs (world st)
       /\ fr_captures (fst fs') = fr_captures fr
       /\ (r = Raises Interrupt
           <-> exists old, playwright (self st) = Some old
                           /\ pw_stop old = Raises Interrupt))
    _ _ _ Hrun).
  unfold visit, attempt, setup_browser, set_frame, teardown, quietly,
    stale_stop.
  repeat wp_step.
  all: cbn; rewrite <- ?app_assoc; cbn.
  all: repeat split; try done.
  all: try (intros (old & [= <-] & Hstop); congruence).
  all: try (intros _; eexists; split; [reflexivity|done]).
  all: try (by intros (old & ? & _)).
Qed.

Lemma failed_start_stops_stale_driver_witness :
  trace (world (snd (snd (visit Scenario.env Scenario.tag Scenario.url
                            (Scenario.no_locals, Scenario.fourth)))))
  = trace (world Scenario.fourth)
      ++ [Call PlaywrightStart;
          Print (ErrorCaptureFailed Scenario.url (py "driver missing"))]
      ++ stale_stop (self Scenario.fourth).
Proof.
  destruct (visit Scenario.env Scenario.tag Scenario.url
              (Scenario.no_locals, Scenario.fourth))
    as [r [fr' st']] eqn:Hrun.
  exact (proj1 (failed_start_stops_stale_driver Scenario.env Scenario.tag
                  Scenario.url Scenario.no_locals Scenario.fourth
                  (py "driver missing") r fr' st' eq_refl Hrun)).
Defined.

Section Search.

Context (env : Env).

Lemma yield_at_most_one label_ url st :
  (length (yield env label_ url st) <= 1)%nat
  /\ Forall (record_of label_ [url]) (yield env label_ url st).
Proof.
  unfold yield. destruct (enter env st) as [[p st1]|]; [|by cbn; auto].
  destruct (capture_page_data env (observed p) url label_ st1)
    as [r st2] eqn:Hrun.
  cbn. destruct r as [[c|]|]; cbn; auto.
  split; [done|]. apply Forall_cons. split; [|done].
  apply capture_success in Hrun.
  destruct Hrun as (? & ? & ? & ? & ? & _ & _ & _ & _ & _ & _ & _ & -> & _).
  split; [done|]. cbn. by left.
Qed.

Lemma record_of_weaken label_ urls urls' c :
  urls ⊆ urls' -> record_of label_ urls c -> record_of label_ urls' c.
Proof. intros Hsub [? ?]. split; [done|]. by apply Hsub. Qed.

(** The loop over the URLs: the local list and the manifest receive the
    same records, at most one per URL. *)
Lemma turns_collect label_ urls fr st :
  wp (for_each urls (visit env label_))
     (fun r fs' =>
        exists new,
          manifest (snd fs') = manifest st ++ new
          /\ fr_captures (fst fs') = fr_captures fr ++ new
          /\ (length new <= length urls)%nat
          /\ Forall (record_of label_ urls) new) (fr, st).
Proof.
  revert fr st. induction urls as [|url urls IH]; intros fr st.
  - exists []. cbn. by rewrite !app_nil_r.
  - cbn [for_each]. apply wp_bind.
    eapply wp_mono; [apply visit_spec|].
    intros r [fr1 st1] (Hr & _ & _ & Hm & Hc & _). cbn [fst snd] in *.
    destruct (yield_at_most_one label_ url st) as [Hlen Hrec].
    assert (Forall (record_of label_ (url :: urls)) (yield env label_ url st))
      as Hrec'.
    { eapply Forall_impl; [exact Hrec|].
      intros c. apply record_of_weaken.
      intros x Hx. apply list_elem_of_singleton in Hx as ->. by left. }
    destruct Hr as [->| ->]; cbn.
    + eapply wp_mono; [apply IH|].
      intros r2 [fr2 st2] (new & Hm2 & Hc2 & Hlen2 & Hrec2).
      cbn [fst snd] in *.
      exists (yield env label_ url st ++ new).
      rewrite Hm2, Hc2, Hm, Hc, <- !app_assoc, length_app.
      split; [done|]. split; [done|]. split; [cbn; lia|].
      apply Forall_app. split; [done|].
      eapply Forall_impl; [exact Hrec2|].
      intros c. apply record_of_weaken. intros x Hx. by right.
    + exists (yield env label_ url st).
      split; [done|]. split; [done|]. split; [cbn; lia|done].
Qed.

End Search.

(** X4. The list [search_and_capture] returns is what it appended to the
    session manifest, in the same order: at most one record per target URL,
    each with the label of the call and one of the three target URLs. *)
Theorem search_returns_what_it_appended env label_ st captures st' :
  search_and_capture env label_ st = (Returns captures, st') ->
  manifest st' = manifest st ++ captures
  /\ (length captures <= 3)%nat
  /\ Forall (record_of label_ target_urls) captures.
Proof.
  unfold search_and_capture.
  pose proof (turns_collect env label_ target_urls
                {| fr_captures := []; fr_browser := None; fr_page := None |}
                st) as Hloop.
  unfold wp in Hloop.
  destruct (for_each target_urls (visit env label_) _)
    as [[[]|e] [fr1 st1]]; [|done].
  intros [= <- <-].
  destruct Hloop as (new & Hm & Hc & Hlen & Hrec). cbn in Hc. by subst new.
Qed.

Lemma search_returns_when_calm env label_ st :
  calm env -> stops_quietly st ->
  exists captures,
    search_and_capture env label_ st
    = (Returns captures, snd (search_and_capture env label_ st)).
Proof.
  intros Hcalm Hstop.
  pose proof (search_and_capture_calm env label_ st Hcalm Hstop) as Hwp.
  unfold wp in Hwp.
  destruct (search_and_capture env label_ st) as [r st'].
  destruct Hwp as [[captures ->] _]. by exists captures.
Qed.

Lemma scenario_stops_quietly : stops_quietly Scenario.st0.
Proof. intros pw Hpw. discriminate Hpw. Qed.

Lemma search_returns_what_it_appended_witness :
  exists captures,
    fst (search_and_capture Scenario.env Scenario.tag Scenario.st0)
    = Returns captures
    /\ manifest (snd (search_and_capture Scenario.env Scenario.tag
                        Scenario.st0))
       = manifest Scenario.st0 ++ captures
    /\ (length captures <= 3)%nat
    /\ Forall (record_of Scenario.tag target_urls) captures.
Proof.
  destruct (search_returns_when_calm Scenario.env Scenario.tag Scenario.st0
              scenario_calm scenario_stops_quietly) as [captures Hrun].
  exists captures. split; [by rewrite Hrun|].
  exact (search_returns_what_it_appended Scenario.env Scenario.tag
           Scenario.st0 captures _ Hrun).
Defined.

Section Finish.

Context (env : Env).

Lemma finish_summary all st :
  wp (finish env all)
     (fun r st' =>
        manifest st' = manifest st
        /\ same_object (self st) (self st')
        /\ (forall path,
              path <> Pathlib.to_str (metadata_file (self st)) ->
              path <> Pathlib.to_str (report_file (self st)) ->
              fs (world st') !! path = fs (world st) !! path)
        /\ (r = Returns tt ->
            md_total_captures (capture_metadata (self st'))
            = Some (Z.of_nat (length all))
            /\ serialized all st'
            /\ reported st')) st.
Proof.
  unfold finish, json_dump, generate_report. wp_report.
  all: unfold serialized, reported, report_of, manifest, same_object; cbn.
  all: rewrite ?with_lines_self; cbn.
  all: rewrite ?metadata_file_set_metadata, ?report_file_set_metadata in *.
  all: split; [reflexivity|]. all: split; [done|]. all: split.
  all: try (intros path Hm Hr;
            rewrite ?with_lines_other by done; cbn;
            rewrite ?lookup_insert_ne by congruence; reflexivity).
  all: try (intros [=]).
  split; [done|]. split.
  - split; [|done].
    rewrite with_lines_other by (apply not_eq_sym, report_not_manifest).
    cbn.
    rewrite !(lookup_insert_ne _ (Pathlib.to_str (report_file _)))
      by apply report_not_manifest.
    by rewrite lookup_insert_eq.
  - unfold report_lines, header_lines. rewrite <- !app_comm_cons.
    apply with_lines_report. cbn. by rewrite lookup_insert_eq.
Qed.

Lemma same_object_settings o o' : same_settings o o' -> same_object o o'.
Proof. intros (? & ? & ? & ? & _). by repeat split. Qed.

(** The whole run, from any object. *)
Lemma run_capture_summary st :
  wp (run_capture env) (fun r st' => exists new, run_summary st r st' new) st.
Proof.
  unfold run_capture. repeat wp_step.
  set (st0 := set_world _ (set_world _ st)).
  pose proof (wp_for_each (labels (self st)) (process_label env)
    (fun ls => grown st0 (snd ls) (fst ls))
    (fun e ls => e = Interrupt /\ exists new, grown st0 (snd ls) new)
    ([], st0)) as Hloop.
  unfold wp in *.
  destruct (for_each (labels (self st)) (process_label env) ([], st0))
    as [r [all st1]].
  assert (loop_post
            (fun ls => grown st0 (snd ls) (fst ls))
            (fun e ls => e = Interrupt /\ exists new, grown st0 (snd ls) new)
            r (all, st1)) as Hpost.
  { apply Hloop; [apply grown_refl|].
    intros label_ [all0 s0] _ Hinv. by apply process_label_spec. }
  clear Hloop.
  destruct r as [[]|e]; cbn in Hpost.
  - destruct Hpost as (Hsame & Hw & Hman & _).
    apply same_object_settings in Hsame.
    destruct Hsame as (Hl & Ho & Hm & Hs). cbn in Hl, Ho, Hm, Hs.
    pose proof (finish_summary all st1) as Hfinish. unfold wp in Hfinish.
    destruct (finish env all st1) as [r' st2].
    destruct Hfinish as (Hman2 & (Hl2 & Ho2 & Hm2 & Hs2) & Hframe & Hdone).
    assert (metadata_file (self st1) = metadata_file (self st)) as Hmf.
    { unfold metadata_file. by rewrite Ho, Hs. }
    assert (report_file (self st1) = report_file (self st)) as Hrf.
    { unfold report_file. by rewrite Ho, Hs. }
    exists all. split; [by rewrite Hman2, Hman|].
    split; [repeat split; congruence|].
    split; [|done].
    intros path Hart Hnm Hnr.
    rewrite Hframe by by rewrite ?Hmf, ?Hrf.
    by rewrite Hw.
  - destruct Hpost as (-> & new & Hsame & Hw & Hman & _).
    exists new. split; [done|].
    split; [by apply same_object_settings in Hsame|].
    split; [|done].
    intros path Hart _ _. by rewrite Hw.
Qed.

End Finish.

Section MainCases.

Context (env : Env).

Lemma run_capture_returns_when_calm st :
  calm env -> stops_quietly st ->
  open_w env (Pathlib.to_str (metadata_file (self st))) = None ->
  open_w env (Pathlib.to_str (report_file (self st))) = None ->
  (forall line, locale_codec env line = None) ->
  run_capture env st = (Returns tt, snd (run_capture env st)).
Proof.
  intros Hcalm Hstop Hm Hr Hcodec.
  pose proof (run_capture_calm env st Hcalm Hstop Hm Hr) as Hwp.
  unfold wp in Hwp. destruct (run_capture env st) as [r st'].
  rewrite Hwp; [done|]. apply Forall_forall. intros line _. apply Hcodec.
Qed.

Lemma main_exits_zero_when_calm args w :
  calm env ->
  (forall path, mkdir env path = None) ->
  open_w env (manifest_path env args) = None ->
  open_w env (report_path env args) = None ->
  (forall line, locale_codec env line = None) ->
  main env args w = (0, snd (main env args w)).
Proof.
  intros Hcalm Hmk Hm Hr Hcodec.
  pose proof (main_calm env args w Hcalm Hmk Hm Hr) as Hcode.
  destruct (main env args w) as [code st]. cbn in *.
  rewrite Hcode; [done|]. apply Forall_forall. intros line _. apply Hcodec.
Qed.

(** What [main] is made of. *)
Lemma main_run args w code st :
  main env args w = (code, st) ->
  exists w1 r0 st0,
    fs w1 = fs w /\ launches w1 = launches w
    /\ trace w1 = trace w ++ debug_lines args
    /\ init env (arg_labels args) (arg_out args) (arg_min_bytes args) w1
       = (r0, st0)
    /\ match r0 with
       | Raises _ => code = 1 /\ st = st0
       | Returns _ =>
           exists r1 st1,
             run_capture env st0 = (r1, st1)
             /\ match r1 with
                | Returns _ => code = 0 /\ st = st1
                | Raises Interrupt =>
                    code = 1
                    /\ st = set_world (log_event (Print InfoInterrupted)) st1
                | Raises (Exception what) =>
                    code = 1
                    /\ st = set_world
                              (log_event (Print (ErrorCaptureAborted what)))
                              st1
                end
       end.
Proof.
  unfold main, debug_lines.
  set (w1 := if arg_verbose args then _ else w).
  destruct (init env _ _ _ w1) as [r0 st0] eqn:Hinit.
  intros Hmain. exists w1, r0, st0.
  split; [unfold w1; by destruct (arg_verbose args)|].
  split; [unfold w1; by destruct (arg_verbose args)|].
  split.
  { unfold w1. destruct (arg_verbose args); cbn.
    - by rewrite <- app_assoc.
    - by rewrite app_nil_r. }
  split; [done|].
  destruct r0 as [[]|e].
  - destruct (run_capture env st0) as [r1 st1].
    exists r1, st1. split; [done|].
    destruct r1 as [[]|[what|]]; by injection Hmain as <- <-.
  - by injection Hmain as <- <-.
Qed.

End MainCases.

(** X5. [total_captures] is the number of records of this run: a run on an
    object whose manifest already holds records (a second [run_capture] on
    the same object) writes a manifest file that lists the old and the new
    records and counts the new ones only. *)
Theorem total_counts_this_run_only env st st' :
  run_capture env st = (Returns tt, st') ->
  exists new doc,
    manifest st' = manifest st ++ new
    /\ fs (world st') !! Pathlib.to_str (metadata_file (self st))
       = Some (JsonDocument doc)
    /\ json_get (py "captures") doc
       = Some (JList (map json_of_capture (manifest st ++ new)))
    /\ json_get (py "total_captures") doc
       = Some (JInt (Z.of_nat (length new))).
Proof.
  intros Hrun.
  destruct (wp_run _ _ _ _ _ Hrun (run_capture_summary env st))
    as (new & Hman & (_ & Ho & _ & Hs) & _ & Hdone).
  destruct (Hdone eq_refl) as (Htotal & [Hfile _] & _).
  exists new, (json_of_metadata (capture_metadata (self st'))).
  split; [done|]. split.
  { rewrite <- Hfile. unfold metadata_file. by rewrite Ho, Hs. }
  split.
  - rewrite json_captures. unfold manifest in Hman. by rewrite Hman.
  - by apply json_total_captures.
Qed.

Lemma total_counts_this_run_only_witness :
  exists new doc,
    manifest (snd (run_capture Scenario.env Scenario.used))
    = [Scenario.record] ++ new
    /\ fs (world (snd (run_capture Scenario.env Scenario.used)))
         !! Pathlib.to_str (metadata_file (self Scenario.used))
       = Some (JsonDocument doc)
    /\ json_get (py "captures") doc
       = Some (JList (map json_of_capture ([Scenario.record] ++ new)))
    /\ json_get (py "total_captures") doc
       = Some (JInt (Z.of_nat (length new))).
Proof.
  apply (total_counts_this_run_only Scenario.env Scenario.used).
  apply run_capture_returns_when_calm.
  - apply scenario_calm.
  - intros pw Hpw. discriminate Hpw.
  - reflexivity.
  - reflexivity.
  - reflexivity.
Defined.

(** X6. When [main] exits with status 0 the report and the manifest file
    describe the same records: the report holds one entry for each record
    of the manifest, in the same order, under a header that counts them,
    and the manifest file is the image of that same manifest. *)
Theorem report_lists_the_manifest env args w st :
  main env args w = (0, st) ->
  fs (world st) !! report_path env args = Some (report_of (self st))
  /\ fs (world st) !! manifest_path env args
     = Some (JsonDocument (json_of_metadata (capture_metadata (self st))))
  /\ md_total_captures (capture_metadata (self st))
     = Some (Z.of_nat (length (manifest st)))
  /\ labels (self st) = arg_labels args
  /\ min_bytes (self st) = arg_min_bytes args
  /\ session_id (self st) = uuid4 env.
Proof.
  intros Hmain.
  destruct (main_run env args w 0 st Hmain)
    as (w1 & r0 & st0 & _ & _ & _ & Hinit & Hrest).
  destruct (init_spec env _ _ _ _ _ _ Hinit)
    as (Hl & Ho & Hm & Hs & _ & Hempty & _).
  destruct r0 as [[]|e]; [|by destruct Hrest].
  destruct Hrest as (r1 & st1 & Hrun & Hend).
  destruct r1 as [[]|[what|]]; [|by destruct Hend..].
  destruct Hend as [_ ->].
  destruct (wp_run _ _ _ _ _ Hrun (run_capture_summary env st0))
    as (new & Hman & (Hl1 & Ho1 & Hm1 & Hs1) & _ & Hdone).
  destruct (Hdone eq_refl) as (Htotal & [Hfile _] & Hreport).
  rewrite Hempty in Hman. cbn in Hman. subst new.
  unfold reported in Hreport. unfold manifest, manifest_path, report_path.
  unfold metadata_file in Hfile. unfold report_file in Hreport.
  rewrite Ho1, Hs1, Ho, Hs in Hfile, Hreport.
  repeat split; try done; congruence.
Qed.

Lemma report_lists_the_manifest_witness :
  fs (world (snd (main Scenario.env Scenario.args Scenario.empty_world)))
    !! report_path Scenario.env Scenario.args
  = Some (report_of
            (self (snd (main Scenario.env Scenario.args
                          Scenario.empty_world)))).
Proof.
  exact (proj1 (report_lists_the_manifest Scenario.env Scenario.args
                  Scenario.empty_world _
                  (main_exits_zero_when_calm Scenario.env Scenario.args
                     Scenario.empty_world scenario_calm
                     (fun _ => eq_refl) eq_refl eq_refl
                     (fun _ => eq_refl)))).
Defined.

(** X7. Whatever its exit status, [main] writes nothing but artifacts under
    the three artifact directories, the session manifest and the report:
    every other path of the file store is as it was. *)
Theorem main_writes_only_session_files env args w code st path :
  main env args w = (code, st) ->
  ~ is_artifact (Pathlib.of_str (arg_out args)) path ->
  path <> manifest_path env args ->
  path <> report_path env args ->
  fs (world st) !! path = fs w !! path.
Proof.
  intros Hmain Hart Hnm Hnr.
  destruct (main_run env args w code st Hmain)
    as (w1 & r0 & st0 & Hw1 & _ & _ & Hinit & Hrest).
  destruct (init_spec env _ _ _ _ _ _ Hinit)
    as (Hl & Ho & Hm & Hs & _ & Hempty & _ & Hfs0 & _).
  destruct r0 as [[]|e].
  - destruct Hrest as (r1 & st1 & Hrun & Hend).
    assert (fs (world st) = fs (world st1)) as Hfs.
    { by destruct r1 as [[]|[what|]], Hend as [_ ->]. }
    destruct (wp_run _ _ _ _ _ Hrun (run_capture_summary env st0))
      as (new & _ & _ & Hwrites & _).
    rewrite Hfs, Hwrites, Hfs0, Hw1; [done|by rewrite Ho|..].
    + unfold metadata_file. by rewrite Ho, Hs.
    + unfold report_file. by rewrite Ho, Hs.
  - destruct Hrest as [_ ->]. by rewrite Hfs0, Hw1.
Qed.

Lemma main_writes_only_session_files_witness :
  fs (world (snd (main Scenario.env Scenario.args Scenario.empty_world)))
    !! py "out/readme.txt"
  = fs Scenario.empty_world !! py "out/readme.txt".
Proof.
  apply (main_writes_only_session_files Scenario.env Scenario.args
           Scenario.empty_world _ _ (py "out/readme.txt")
           (surjective_pairing _)).
  - intros (dir & d & l & sfx & Hdir & E).
    change (py "out/readme.txt")
      with (Pathlib.to_str
              {| Pathlib.anchor :=
                   Pathlib.anchor (Pathlib.of_str (arg_out Scenario.args));
                 Pathlib.parts :=
                   Pathlib.parts (Pathlib.of_str (arg_out Scenario.args))
                   ++ (114%N :: py "eadme.txt") :: [] |})
      in E.
    unfold artifact_dirs in Hdir. rewrite !elem_of_cons in Hdir.
    destruct Hdir as [->|[->|[->|Hdir]]];
      [| | |by apply elem_of_nil in Hdir].
    all: rewrite artifact_path in E by done.
    all: by apply to_str_diverge in E.
  - vm_compute. discriminate.
  - vm_compute. discriminate.
Defined.

Section Constructor.

Context (env : Env).

Lemma init_cases labels_ out threshold w r st :
  init env labels_ out threshold w = (r, st) ->
  fs (world st) = fs w
  /\ launches (world st) = launches w
  /\ match r with
     | Returns _ =>
         Forall (fun d => mkdir env d = None) (init_dirs (Pathlib.of_str out))
         /\ trace (world st) = trace w ++ banner (self st)
     | Raises e =>
         trace (world st) = trace w
         /\ exists d what,
              d ∈ init_dirs (Pathlib.of_str out)
              /\ mkdir env d = Some what
              /\ e = Exception what
     end.
Proof.
  unfold init. intros Hrun.
  apply (wp_run _
    (fun r st =>
       fs (world st) = fs w
       /\ launches (world st) = launches w
       /\ match r with
          | Returns _ =>
              Forall (fun d => mkdir env d = None)
                     (init_dirs (Pathlib.of_str out))
              /\ trace (world st) = trace w ++ banner (self st)
          | Raises e =>
              trace (world st) = trace w
              /\ exists d what,
                   d ∈ init_dirs (Pathlib.of_str out)
                   /\ mkdir env d = Some what
                   /\ e = Exception what
          end) _ _ _ Hrun).
  unfold make_directory, init_dirs, banner. repeat wp_step.
  all: cbn; split; [reflexivity|]; split; [reflexivity|].
  all: try (split; [reflexivity|]; eexists _, _;
            split; [|split; [eassumption|reflexivity]];
            rewrite !elem_of_cons; by auto 10).
  split; [by repeat constructor|]. by rewrite <- !app_assoc.
Qed.

End Constructor.

(** X8. The constructor makes its five directories before it prints
    anything, and [main] calls it outside its [try]: when one of them
    cannot be made the program exits with status 1 without its banner,
    without starting a browser and without writing a file. *)
Theorem unmakeable_directory_exits_early env args w code st d :
  main env args w = (code, st) ->
  d ∈ init_dirs (Pathlib.of_str (arg_out args)) ->
  mkdir env d <> None ->
  code = 1
  /\ trace (world st) = trace w ++ debug_lines args
  /\ fs (world st) = fs w
  /\ launches (world st) = launches w
  /\ manifest st = [].
Proof.
  intros Hmain Hd Hmk.
  destruct (main_run env args w code st Hmain)
    as (w1 & r0 & st0 & Hfs1 & Hl1 & Ht1 & Hinit & Hrest).
  destruct (init_cases env _ _ _ _ _ _ Hinit) as (Hfs & Hl & Hr).
  destruct (init_spec env _ _ _ _ _ _ Hinit)
    as (_ & _ & _ & _ & _ & Hempty & _).
  destruct r0 as [[]|e].
  - destruct Hr as [Hall _]. rewrite Forall_forall in Hall.
    by destruct (Hmk (Hall d Hd)).
  - destruct Hrest as [-> ->]. destruct Hr as [Ht _].
    repeat split; congruence.
Qed.

Lemma unmakeable_directory_exits_early_witness :
  fst (main Scenario.readonly Scenario.lenient_args Scenario.empty_world) = 1
  /\ trace (world (snd (main Scenario.readonly Scenario.lenient_args
                          Scenario.empty_world)))
     = [Print DebugVerbose; Print DebugArguments].
Proof.
  destruct (unmakeable_directory_exits_early Scenario.readonly
              Scenario.lenient_args Scenario.empty_world _ _ (py "out")
              (surjective_pairing _)) as (Hcode & Htrace & _).
  - vm_compute. by left.
  - discriminate.
  - split; [exact Hcode|exact Htrace].
Defined.

(** X9. The requests a page makes while it loads are printed, one line
    each and in order, right after the call of [goto] and whatever that
    call then answers: the handler registered on the page sees them all.
    (They are printed only: the network log of the capture stays empty.) *)
Theorem requests_are_printed env p url label_ st r st' :
  key_encodes env url label_ st ->
  capture_page_data env (observed p) url label_ st = (r, st') ->
  exists rest,
    trace (world st')
    = trace (world st)
        ++ Print (InfoCapturing label_ url)
        :: Call (Goto (pg_id p) url)
        :: request_lines p ++ rest.
Proof.
  intros [key Hkey] Hrun.
  apply (wp_run _
    (fun _ st' =>
       exists rest,
         trace (world st')
         = trace (world st)
             ++ Print (InfoCapturing label_ url)
             :: Call (Goto (pg_id p) url)
             :: request_lines p ++ rest) _ _ _ Hrun).
  unfold capture_page_data, navigate, settle, persist, write_text, json_dump,
    page_screenshot, relative_str.
  change (page_of (observed p)) with p.
  repeat first
    [ rewrite html_file_relative | rewrite screenshot_file_relative
    | rewrite network_file_relative | wp_step ]; try congruence.
  all: cbn; rewrite <- ?app_assoc; cbn.
  all: first [ by exists []; rewrite app_nil_r
             | eexists; rewrite <- ?app_assoc; reflexivity ].
Qed.

Lemma requests_are_printed_witness :
  exists rest,
    trace (world (snd (capture_page_data Scenario.env
                         (observed Scenario.missing_page)
                         Scenario.url Scenario.tag Scenario.st0)))
    = trace (world Scenario.st0)
        ++ Print (InfoCapturing Scenario.tag Scenario.url)
        :: Call (Goto 1%nat Scenario.url)
        :: [Print (NetworkRequest (py "GET") (py "https://httpbin.org/html"))]
        ++ rest.
Proof.
  apply (requests_are_printed Scenario.env Scenario.missing_page
           Scenario.url Scenario.tag Scenario.st0
           (fst (capture_page_data Scenario.env
                   (observed Scenario.missing_page)
                   Scenario.url Scenario.tag Scenario.st0))).
  - apply is_Some_alt. vm_compute. exact I.
  - apply surjective_pairing.
Defined.



Section Sessions.

Context (env : Env).

Lemma search_launches label_ st :
  wp (search_and_capture env label_)
     (fun r st' =>
        match r with
        | Returns _ =>
            launches (world st') = (3 + launches (world st))%nat
        | Raises e => e = Interrupt
        end) st.
Proof.
  unfold wp, search_and_capture.
  pose proof (turns_counted env label_ target_urls
                {| fr_captures := []; fr_browser := None; fr_page := None |}
                st) as Hloop.
  unfold wp in Hloop.
  by destruct (for_each target_urls (visit env label_) _)
    as [[[]|e] [fr1 st1]].
Qed.

Lemma labels_launches ls all st :
  wp (for_each ls (process_label env))
     (fun r ls' =>
        match r with
        | Returns _ =>
            launches (world (snd ls'))
            = (3 * length ls + launches (world st))%nat
        | Raises e => e = Interrupt
        end) (all, st).
Proof.
  revert all st. induction ls as [|label_ ls IH]; intros all st.
  - done.
  - cbn [for_each]. apply wp_bind. unfold process_label.
    repeat wp_step.
    eapply wp_mono; [apply search_launches|].
    intros [captures|e] st1 Hr; cbn; [|done].
    repeat wp_step. cbn.
    eapply wp_mono; [apply IH|].
    intros [[]|e] [all2 st2]; [|done]. cbn in *. lia.
Qed.

Lemma finish_launches all st :
  wp (finish env all)
     (fun _ st' => launches (world st') = launches (world st)) st.
Proof.
  unfold finish, json_dump, generate_report. wp_report.
  all: cbn; by rewrite ?with_lines_launches.
Qed.

End Sessions.

(** X11. A run that returns has started three browser sessions for each
    label, one per target URL: no URL is skipped after a failure and none
    is tried again. *)
Theorem three_sessions_per_label env st st' :
  run_capture env st = (Returns tt, st') ->
  launches (world st')
  = (3 * length (labels (self st)) + launches (world st))%nat.
Proof.
  intros Hrun.
  apply (wp_run _
    (fun r st' =>
       r = Returns tt ->
       launches (world st')
       = (3 * length (labels (self st)) + launches (world st))%nat)
    _ _ _ Hrun); [|done].
  unfold run_capture. repeat wp_step.
  set (st0 := set_world _ (set_world _ st)).
  pose proof (labels_launches env (labels (self st)) [] st0) as Hloop.
  unfold wp in *.
  destruct (for_each (labels (self st)) (process_label env) ([], st0))
    as [[[]|e] [all st1]]; [|done].
  pose proof (finish_launches env all st1) as Hfinish. unfold wp in Hfinish.
  destruct (finish env all st1) as [r' st2].
  intros _. cbn [snd] in Hloop. by rewrite Hfinish, Hloop.
Qed.

Lemma three_sessions_per_label_witness :
  launches (world (snd (run_capture Scenario.env Scenario.st0))) = 6%nat.
Proof.
  exact (three_sessions_per_label Scenario.env Scenario.st0 _
           (run_capture_returns_when_calm Scenario.env Scenario.st0
              scenario_calm scenario_stops_quietly eq_refl eq_refl
              (fun _ => eq_refl))).
Defined.

Section Unwritable.

Context (env : Env).




End Unwritable.



Section Refused.

Context (env : Env).

Lemma finish_refused all st :
  open_w env (Pathlib.to_str (metadata_file (self st))) = None ->
  open_w env (Pathlib.to_str (report_file (self st))) = None ->
  wp (finish env all)
     (fun r st' =>
        ~ report_writable env (self st') ->
        exists before line after what,
          report_lines (self st') = before ++ line :: after
          /\ Forall (fun l => locale_codec env l = None) before
          /\ locale_codec env line = Some what
          /\ r = Raises (Exception what)
          /\ written (fs (world st')
                        !! Pathlib.to_str (report_file (self st))) = before
          /\ fs (world st') !! Pathlib.to_str (metadata_file (self st))
             = Some (JsonDocument
                       (json_of_metadata (capture_metadata (self st'))))) st.
Proof.
  intros Hm Hr. unfold finish, json_dump, generate_report. wp_report.
  all: rewrite ?metadata_file_set_metadata, ?report_file_set_metadata in *.
  all: try congruence.
  - intros Hnot. exfalso. apply Hnot. unfold report_writable. cbn.
    rewrite with_lines_self. exact Hall.
  - intros _. exists before, l, after, what. cbn.
    rewrite with_lines_self. cbn.
    split; [exact Hlines|]. split; [exact Hbefore|].
    split; [exact Hrefused|]. split; [done|]. split.
    + rewrite with_lines_written. cbn. by rewrite lookup_insert_eq.
    + rewrite with_lines_other by (apply not_eq_sym, report_not_manifest).
      cbn.
      rewrite !(lookup_insert_ne _ (Pathlib.to_str (report_file _)))
        by apply report_not_manifest.
      by rewrite lookup_insert_eq.
Qed.

Lemma run_capture_refused st :
  calm env -> stops_quietly st ->
  open_w env (Pathlib.to_str (metadata_file (self st))) = None ->
  open_w env (Pathlib.to_str (report_file (self st))) = None ->
  wp (run_capture env)
     (fun r st' =>
        ~ report_writable env (self st') ->
        exists before line after what,
          report_lines (self st') = before ++ line :: after
          /\ Forall (fun l => locale_codec env l = None) before
          /\ locale_codec env line = Some what
          /\ r = Raises (Exception what)
          /\ written (fs (world st')
                        !! Pathlib.to_str (report_file (self st))) = before
          /\ fs (world st') !! Pathlib.to_str (metadata_file (self st))
             = Some (JsonDocument
                       (json_of_metadata (capture_metadata (self st'))))) st.
Proof.
  intros Hcalm Hstop Hm Hr. unfold run_capture. repeat wp_step.
  set (st0 := set_world _ (set_world _ st)).
  pose proof (wp_for_each (labels (self st)) (process_label env)
    (fun ls => grown st0 (snd ls) (fst ls) /\ stops_quietly (snd ls))
    (fun _ _ => False) ([], st0)) as Hloop.
  unfold wp in *.
  destruct (for_each (labels (self st)) (process_label env) ([], st0))
    as [r [all st1]].
  assert (loop_post
            (fun ls => grown st0 (snd ls) (fst ls) /\ stops_quietly (snd ls))
            (fun _ _ => False) r (all, st1)) as Hpost.
  { apply Hloop; [split; [apply grown_refl|done]|].
    intros label_ [all0 s0] _ [Hinv Hstop0]. cbn [fst snd] in *.
    eapply wp_mono;
      [exact (wp_and _ _ _ _
                (process_label_spec env label_ all0 st0 s0 Hinv)
                (process_label_calm env label_ all0 s0 Hcalm Hstop0))|].
    intros r0 ls [Hgrown [-> Hq]]. by split. }
  clear Hloop. destruct r as [[]|e]; [|done]. cbn in Hpost.
  destruct Hpost as [((Hl & Ho & Hmb & Hs & _) & _) _].
  cbn in Ho, Hs.
  assert (metadata_file (self st1) = metadata_file (self st)) as Hmf.
  { unfold metadata_file. by rewrite Ho, Hs. }
  assert (report_file (self st1) = report_file (self st)) as Hrf.
  { unfold report_file. by rewrite Ho, Hs. }
  pose proof (finish_refused all st1) as Hfinish.
  rewrite Hmf, Hrf in Hfinish. specialize (Hfinish Hm Hr).
  unfold wp in Hfinish.
  by destruct (finish env all st1) as [r' st2].
Qed.

End Refused.

(** X13. When the codec of the locale refuses a line of the report, the
    run that got through all its labels ends in that [UnicodeEncodeError]:
    [main] prints it as "Capture failed" and exits with status 1.  The
    manifest has been written by then, and the report file keeps the lines
    before the first one that was refused.  (No interrupt, directories and
    files that can be made, printed lines that are plain text.) *)
Theorem refused_report_exits_one env args w code st :
  calm env ->
  (forall path, mkdir env path = None) ->
  open_w env (manifest_path env args) = None ->
  open_w env (report_path env args) = None ->
  main env args w = (code, st) ->
  plainly_printed (trace (world st)) ->
  ~ report_writable env (self st) ->
  code = 1
  /\ exists before line after what,
       report_lines (self st) = before ++ line :: after
       /\ Forall (fun l => locale_codec env l = None) before
       /\ locale_codec env line = Some what
       /\ last (trace (world st)) = Some (Print (ErrorCaptureAborted what))
       /\ written (fs (world st) !! report_path env args) = before
       /\ fs (world st) !! manifest_path env args
          = Some (JsonDocument
                    (json_of_metadata (capture_metadata (self st)))).
Proof.
  intros Hcalm Hmk Hm Hr Hmain _ Hnot.
  destruct (main_run env args w code st Hmain)
    as (w1 & r0 & st0 & _ & _ & _ & Hinit & Hrest).
  destruct (init_spec env _ _ _ _ _ _ Hinit)
    as (_ & Ho & _ & Hs & _ & _ & Hpw & _ & Hr0 & _).
  specialize (Hr0 Hmk). subst r0.
  destruct Hrest as (r1 & st1 & Hrun1 & Hend).
  assert (Pathlib.to_str (metadata_file (self st0)) = manifest_path env args)
    as Hmf.
  { unfold metadata_file, manifest_path. by rewrite Ho, Hs. }
  assert (Pathlib.to_str (report_file (self st0)) = report_path env args)
    as Hrf.
  { unfold report_file, report_path. by rewrite Ho, Hs. }
  assert (stops_quietly st0) as Hstop by (intros pw; by rewrite Hpw).
  pose proof (run_capture_refused env st0 Hcalm Hstop) as Hrun.
  rewrite Hmf, Hrf in Hrun. specialize (Hrun Hm Hr). unfold wp in Hrun.
  rewrite Hrun1 in Hrun.
  assert (self st = self st1) as Hself.
  { destruct r1 as [[]|[what|]]; by destruct Hend as [_ ->]. }
  rewrite Hself in Hnot.
  destruct (Hrun Hnot)
    as (before & line & after & what & Hlines & Hbefore & Hline & -> & Hw
        & Hdoc).
  destruct Hend as [-> ->]. cbn.
  split; [done|]. exists before, line, after, what.
  by rewrite last_snoc.
Qed.

Lemma report_writable_accepts env o :
  report_writable env o ->
  forallb (fun l => bool_decide (locale_codec env l = None)) (report_lines o)
  = true.
Proof.
  intros Hw. apply forallb_forall. intros l Hl. apply bool_decide_eq_true.
  unfold report_writable in Hw. rewrite Forall_forall in Hw.
  by apply Hw, list_elem_of_In.
Qed.

Lemma scenario_utf8_calm : calm Scenario.utf8.
Proof.
  intros n. split; [done|]. intros pw Hpw.
  eapply scenario_session_calm; [exact Hpw|by repeat split].
Qed.

Lemma refused_report_exits_one_witness :
  fst (main Scenario.utf8 Scenario.args Scenario.empty_world) = 1
  /\ exists before line after what,
       report_lines (self (snd (main Scenario.utf8 Scenario.args
                                  Scenario.empty_world)))
       = before ++ line :: after
       /\ Forall (fun l => locale_codec Scenario.utf8 l = None) before
       /\ locale_codec Scenario.utf8 line = Some what
       /\ last (trace (world (snd (main Scenario.utf8 Scenario.args
                                     Scenario.empty_world))))
          = Some (Print (ErrorCaptureAborted what))
       /\ written (fs (world (snd (main Scenario.utf8 Scenario.args
                                     Scenario.empty_world)))
                     !! report_path Scenario.utf8 Scenario.args) = before
       /\ fs (world (snd (main Scenario.utf8 Scenario.args
                            Scenario.empty_world)))
            !! manifest_path Scenario.utf8 Scenario.args
          = Some (JsonDocument
                    (json_of_metadata
                       (capture_metadata
                          (self (snd (main Scenario.utf8 Scenario.args
                                        Scenario.empty_world)))))).
Proof.
  apply (refused_report_exits_one Scenario.utf8 Scenario.args
           Scenario.empty_world
           (fst (main Scenario.utf8 Scenario.args Scenario.empty_world))
           (snd (main Scenario.utf8 Scenario.args Scenario.empty_world))).
  - apply scenario_utf8_calm.
  - reflexivity.
  - reflexivity.
  - reflexivity.
  - apply surjective_pairing.
  - vm_compute. reflexivity.
  - intros Hw. apply report_writable_accepts in Hw. revert Hw.
    vm_compute. discriminate.
Defined.
